(** * Feedback analytics: the insight rules and the weighted aggregates

    A shallow embedding of the client-side analytics of the customer
    feedback analyzer:

    - [Insights]      the rule engine of [InsightGenerator.jsx]
                      ([analyzeOverallHealth], [analyzeThemes],
                      [analyzeRatings], [detectContradictions],
                      [analyzeByProduct], [identifyQuickWins] and the
                      handler [handleGenerateInsights]);
    - [InsightUtils]  the utility [generateInsights] (the confidence-aware
                      rule set working from the aggregated counts);
    - [Aggregates]    [computeAdjustedAggregates] of [Dashboard.jsx].

    Numbers.  The rule engine only adds, divides and compares, so its
    numbers are rationals ([Q]) and every rule can be evaluated.  The
    aggregation uses [Math.exp], [Math.log] and [Math.sqrt]; its numbers
    are real numbers ([R]).  In both cases the rounding of IEEE doubles is
    not modelled.

    Strings are byte strings: [toLowerCase] folds the ASCII letters, and
    the classes [\w] and [\s] are the ASCII ones.

    Objects.  The tables [productStats] and [themeMap] are objects
    written [{}], so a key that names a member of [Object.prototype]
    reads as that member until the object has the key itself
    ([JSObject.inherited]).  The TypeError this leads to in the
    aggregation is [Aggregates.throwsAt]; [Aggregates.outcome] is the
    call with it. *)

From Stdlib Require Import QArith Reals Lra Lia String Ascii List Sorted.
From stdpp Require Import gmap strings.
Import ListNotations.

(* ================================================================== *)
(** * Strings of the host language *)

Module JSString.

Definition lower_ascii (c : ascii) : ascii :=
  let n := nat_of_ascii c in
  if ((65 <=? n) && (n <=? 90))%nat then ascii_of_nat (n + 32) else c.

Fixpoint toLowerCase (s : string) : string :=
  match s with
  | EmptyString => EmptyString
  | String c s' => String (lower_ascii c) (toLowerCase s')
  end.

(** [s.includes(sub)] *)
Fixpoint includes (s sub : string) : bool :=
  String.prefix sub s
  || match s with
     | EmptyString => false
     | String _ s' => includes s' sub
     end.

(** The class [\s]: tab, line feed, vertical tab, form feed, carriage
    return and space. *)
Definition is_space (c : ascii) : bool :=
  let n := nat_of_ascii c in
  (((9 <=? n) && (n <=? 13)) || (n =? 32))%nat.

(** The class [\w]: letters, digits and the underscore. *)
Definition is_word (c : ascii) : bool :=
  let n := nat_of_ascii c in
  (((48 <=? n) && (n <=? 57)) || ((65 <=? n) && (n <=? 90))
   || ((97 <=? n) && (n <=? 122)) || (n =? 95))%nat.

Fixpoint trimStart (s : string) : string :=
  match s with
  | EmptyString => EmptyString
  | String c s' => if is_space c then trimStart s' else s
  end.

Fixpoint trimEnd (s : string) : string :=
  match s with
  | EmptyString => EmptyString
  | String c s' =>
      match trimEnd s' with
      | EmptyString => if is_space c then EmptyString else String c EmptyString
      | t => String c t
      end
  end.

Definition trim (s : string) : string := trimEnd (trimStart s).

(** [s.replace(/[^\w\s]/g, " ")] *)
Fixpoint replace_punct (s : string) : string :=
  match s with
  | EmptyString => EmptyString
  | String c s' =>
      String (if is_word c || is_space c then c else " "%char)
             (replace_punct s')
  end.

(** [s.replace(/\s+/g, " ")]: every maximal run of white space becomes
    one space. *)
Fixpoint collapse_spaces (s : string) : string :=
  match s with
  | EmptyString => EmptyString
  | String c s' =>
      if is_space c then
        match s' with
        | String c' _ =>
            if is_space c' then collapse_spaces s'
            else String " "%char (collapse_spaces s')
        | EmptyString => String " "%char EmptyString
        end
      else String c (collapse_spaces s')
  end.

End JSString.

(* ================================================================== *)
(** * Objects used as dictionaries

    An object keeps its string keys in creation order, except that the
    keys that are canonical array indices come first, in increasing
    numeric order; [Object.keys] and [Object.entries] follow that order. *)

Module JSObject.

Definition obj (V : Type) : Type := list (string * V).

Fixpoint get {V} (o : obj V) (k : string) : option V :=
  match o with
  | [] => None
  | (k', v) :: o' => if String.eqb k' k then Some v else get o' k
  end.

(** [o[k] = v]: an existing key keeps its place. *)
Fixpoint set {V} (o : obj V) (k : string) (v : V) : obj V :=
  match o with
  | [] => [(k, v)]
  | (k', v') :: o' =>
      if String.eqb k' k then (k, v) :: o' else (k', v') :: set o' k v
  end.

Definition is_digit (c : ascii) : bool :=
  let n := nat_of_ascii c in ((48 <=? n) && (n <=? 57))%nat.

Fixpoint digits_value (s : string) (acc : N) : option N :=
  match s with
  | EmptyString => Some acc
  | String c s' =>
      if is_digit c
      then digits_value s' (10 * acc + N.of_nat (nat_of_ascii c - 48))%N
      else None
  end.

(** The canonical array indices: ["0"], or digits without a leading
    zero, denoting a number below [2^32 - 1]. *)
Definition array_index (k : string) : option N :=
  match k with
  | EmptyString => None
  | String c rest =>
      if (Ascii.eqb c "0"%char && negb (String.eqb rest EmptyString))%bool
      then None
      else match digits_value k 0%N with
           | Some n => if (n <? 4294967295)%N then Some n else None
           | None => None
           end
  end.

Fixpoint insert_index {V} (n : N) (e : string * V)
         (l : list (N * (string * V))) : list (N * (string * V)) :=
  match l with
  | [] => [(n, e)]
  | (m, e') :: l' =>
      if (n <? m)%N then (n, e) :: l else (m, e') :: insert_index n e l'
  end.

Fixpoint index_entries {V} (o : obj V) : list (N * (string * V)) :=
  match o with
  | [] => []
  | (k, v) :: o' =>
      match array_index k with
      | Some n => insert_index n (k, v) (index_entries o')
      | None => index_entries o'
      end
  end.

Definition entries {V} (o : obj V) : list (string * V) :=
  List.map snd (index_entries o)
  ++ List.filter (fun e => match array_index (fst e) with
                           | Some _ => false
                           | None => true
                           end) o.

Definition keys {V} (o : obj V) : list string := List.map fst (entries o).

(** An object written [{}] inherits the members of [Object.prototype].
    While [o] has no key [k] of its own, [o[k]] reads the inherited
    member for these names: a function, or for [__proto__] the prototype
    itself, and in every case a truthy value.  Such a member is not a
    key of [o]: [Object.keys] and [Object.entries] do not list it. *)
Definition inherited (k : string) : bool :=
  existsb (String.eqb k)
    ["constructor"; "__proto__"; "hasOwnProperty"; "isPrototypeOf";
     "propertyIsEnumerable"; "toLocaleString"; "toString"; "valueOf";
     "__defineGetter__"; "__defineSetter__"; "__lookupGetter__";
     "__lookupSetter__"]%string.

End JSObject.

(* ================================================================== *)
(** * Comparisons on rationals, as booleans *)

Definition Qltb (x y : Q) : bool :=
  match (x ?= y)%Q with Lt => true | _ => false end.

Definition Qleb (x y : Q) : bool :=
  match (x ?= y)%Q with Gt => false | _ => true end.

Definition Qof_nat (n : nat) : Q := inject_Z (Z.of_nat n).

(* ================================================================== *)
(** * The feedback records, as the rule engine reads them

    The rules read the fields of a record directly, so a record is a
    typed value with every field present. *)

Record Sentiment : Type := {
  label : string;
  sentiment_confidence : Q
}.

Record Feedback : Type := {
  product_id : string;
  rating : Q;
  review_text : string;
  sentiment : Sentiment;
  themes : list string
}.

Inductive Priority : Type := critical | high | medium | low.

(** The aggregated sentiment counts served by the back end.  A field
    that is absent reads as [undefined]. *)
Record SentimentData : Type := {
  total : option Q;
  positive : option Q;
  negative : option Q;
  neutral : option Q;
  average_score : option Q;
  average_confidence : option Q
}.

(** The aggregated theme counts: theme name to count. *)
Definition ThemeData : Type := JSObject.obj Q.

(** [reduce((sum, f) => sum + f.rating, 0)] *)
Definition sum_ratings (feedback : list Feedback) : Q :=
  fold_left (fun sum f => (sum + rating f)%Q) feedback 0%Q.

(* ================================================================== *)
(** * The rule engine of the insight panel *)

Module Insights.

Open Scope Q_scope.
Open Scope string_scope.

(** An insight.  The [detail] text, which only formats the numbers of
    the rule for display, is left out. *)
Record Insight : Type := {
  category : string;
  type : string;
  message : string;
  action : string;
  priority : Priority;
  confidence : Q;
  impact : string;
  effort : string
}.

(** ** 1. Overall sentiment health *)

Definition analyzeOverallHealth (sData : option SentimentData)
  : list Insight :=
  match sData with
  | None => []
  | Some s =>
      match negative s, positive s with
      | Some n, Some p =>
          if Qltb p n then
            [ {| category := "Overall Health";
                 type := "warning";
                 message := "Negative Feedback Outweighs Positive";
                 action := "Investigate recent product batches or service issues.";
                 priority := high;
                 confidence := 0.85;
                 impact := "high";
                 effort := "medium" |} ]
          else []
      | _, _ => []
      end
  end.

(** ** 2. Theme rules *)

Record ThemeStats : Type := {
  ts_total : nat;
  ts_negative : nat;
  percentage : Q
}.

Definition tagged (themeName : string) (f : Feedback) : bool :=
  existsb (String.eqb themeName) (themes f).

Definition is_negative (f : Feedback) : bool :=
  String.eqb (label (sentiment f)) "Negative".

Definition getThemeStats (feedback : list Feedback) (themeName : string)
  : option ThemeStats :=
  let themeReviews := List.filter (tagged themeName) feedback in
  let total := length themeReviews in
  if (total =? 0)%nat then None
  else
    let negative := length (List.filter is_negative themeReviews) in
    Some {| ts_total := total;
            ts_negative := negative;
            percentage := (Qof_nat negative / Qof_nat total) * 100 |}.

Definition durabilityInsight : Insight :=
  {| category := "Product Quality";
     type := "durability";
     message := "High Durability Concerns";
     action := "Review manufacturing quality control and material strength.";
     priority := high;
     confidence := 0.85;
     impact := "high";
     effort := "high" |}.

Definition comfortInsight : Insight :=
  {| category := "Product Design";
     type := "comfort";
     message := "Comfort Issues Detected";
     action := "Evaluate product weight and fit.";
     priority := medium;
     confidence := 0.8;
     impact := "medium";
     effort := "medium" |}.

Definition appearanceInsight : Insight :=
  {| category := "Aesthetics";
     type := "appearance";
     message := "Appearance/Finish Dissatisfaction";
     action := "Check finishing process and product photography accuracy.";
     priority := high;
     confidence := 0.9;
     impact := "high";
     effort := "medium" |}.

(** One theme rule: the insight is pushed when the theme has records
    and its negative percentage is above the threshold. *)
Definition themeRule (feedback : list Feedback) (themeName : string)
           (threshold : Q) (i : Insight) : list Insight :=
  match getThemeStats feedback themeName with
  | Some st => if Qltb threshold (percentage st) then [i] else []
  | None => []
  end.

Definition analyzeThemes (tData : option ThemeData)
           (feedback : option (list Feedback)) : list Insight :=
  match tData, feedback with
  | Some _, Some fb =>
      if (length fb =? 0)%nat then []
      else
        themeRule fb "Durability" 40 durabilityInsight
        ++ themeRule fb "Comfort" 30 comfortInsight
        ++ themeRule fb "Appearance" 60 appearanceInsight
  | _, _ => []
  end.

(** ** 3. Rating health *)

Definition criticalRatingInsight : Insight :=
  {| category := "Rating Health";
     type := "rating";
     message := "Critical Rating Drop";
     action := "Emergency audit of product line required.";
     priority := critical;
     confidence := 1.0;
     impact := "high";
     effort := "high" |}.

Definition belowAverageInsight : Insight :=
  {| category := "Rating Health";
     type := "rating";
     message := "Below Average Ratings";
     action := "Analyze 1-2 star reviews for recurring patterns.";
     priority := high;
     confidence := 1.0;
     impact := "high";
     effort := "medium" |}.

Definition avgRating (feedback : list Feedback) : Q :=
  sum_ratings feedback / Qof_nat (length feedback).

Definition analyzeRatings (feedback : option (list Feedback))
  : list Insight :=
  match feedback with
  | None => []
  | Some fb =>
      if (length fb =? 0)%nat then []
      else if Qltb (avgRating fb) 2.5 then [criticalRatingInsight]
      else if Qltb (avgRating fb) 3.5 then [belowAverageInsight]
      else []
  end.

(** ** 4. Contradictions between the stars and the text *)

Definition happyButSad (f : Feedback) : bool :=
  Qleb 4 (rating f)
  && String.eqb (label (sentiment f)) "Negative"
  && Qltb 0.5 (sentiment_confidence (sentiment f)).

Definition sadButHappy (f : Feedback) : bool :=
  Qleb (rating f) 2
  && String.eqb (label (sentiment f)) "Positive"
  && Qltb 0.5 (sentiment_confidence (sentiment f)).

Definition contradictionInsight (msg act : string) : Insight :=
  {| category := "Data Anomaly";
     type := "contradiction";
     message := msg;
     action := act;
     priority := medium;
     confidence := 0.7;
     impact := "low";
     effort := "low" |}.

Definition detectContradictions (feedback : option (list Feedback))
  : list Insight :=
  match feedback with
  | None => []
  | Some fb =>
      (if (0 <? length (List.filter happyButSad fb))%nat then
         [contradictionInsight
            "Rating/Sentiment Contradiction (Positive Rating, Negative Text)"
            "Read these reviews manually - customers might be sarcastic or mixed."]
       else [])
      ++
      (if (0 <? length (List.filter sadButHappy fb))%nat then
         [contradictionInsight
            "Rating/Sentiment Contradiction (Negative Rating, Positive Text)"
            "Check for delivery/service issues unrelated to product quality."]
       else [])
  end.

(** ** 5. Per-product rollup *)

Record ProductStats : Type := {
  count : nat;
  totalRating : Q;
  negativeCount : nat
}.

(** The body of the grouping pass.  [productStats] starts as [{}]: for
    a product id that names an inherited member the test
    [!productStats[f.product_id]] fails although the product has no
    entry, none is created, and the three updates land on the inherited
    member, out of sight of [Object.entries]. *)
Definition addToProduct (productStats : JSObject.obj ProductStats)
           (f : Feedback) : JSObject.obj ProductStats :=
  if JSObject.inherited (product_id f) then productStats
  else
    let st := match JSObject.get productStats (product_id f) with
              | Some st => st
              | None => {| count := 0; totalRating := 0; negativeCount := 0 |}
              end in
    JSObject.set productStats (product_id f)
      {| count := S (count st);
         totalRating := totalRating st + rating f;
         negativeCount := if is_negative f then S (negativeCount st)
                          else negativeCount st |}.

Definition productRules (e : string * ProductStats) : list Insight :=
  let (pid, stats) := e in
  if (count stats <? 2)%nat then []
  else
    let avgRating := totalRating stats / Qof_nat (count stats) in
    let negPercent :=
      (Qof_nat (negativeCount stats) / Qof_nat (count stats)) * 100 in
    (if Qltb avgRating 3.0 && Qltb 50 negPercent then
       [ {| category := "Product Performance";
            type := "product";
            message := "Underperforming Product: " ++ pid;
            action := "Consider halting sales or redesigning " ++ pid ++ ".";
            priority := critical;
            confidence := 0.9;
            impact := "high";
            effort := "high" |} ]
     else [])
    ++
    (if Qleb 4.5 avgRating && (3 <=? count stats)%nat then
       [ {| category := "Product Performance";
            type := "star";
            message := "Star Product: " ++ pid;
            action := "Promote this product in marketing campaigns.";
            priority := low;
            confidence := 0.9;
            impact := "high";
            effort := "low" |} ]
     else []).

Definition analyzeByProduct (feedback : option (list Feedback))
  : list Insight :=
  match feedback with
  | None => []
  | Some fb =>
      let productStats := fold_left addToProduct fb [] in
      flat_map productRules (JSObject.entries productStats)
  end.

(** ** 6. Quick wins *)

Record Pattern : Type := {
  phrase : string;
  p_action : string;
  p_effort : string;
  p_impact : string
}.

Definition patterns : list Pattern :=
  [ {| phrase := "too heavy";
       p_action := "Use lighter materials or hollow design";
       p_effort := "medium"; p_impact := "high" |};
    {| phrase := "packaging";
       p_action := "Improve packaging quality/presentation";
       p_effort := "low"; p_impact := "medium" |};
    {| phrase := "instructions";
       p_action := "Provide clearer care guide/manual";
       p_effort := "low"; p_impact := "medium" |};
    {| phrase := "arrived damaged";
       p_action := "Enhance shipping protection/padding";
       p_effort := "low"; p_impact := "high" |};
    {| phrase := "tarnish";
       p_action := "Add anti-tarnish coating or care kit";
       p_effort := "low"; p_impact := "high" |};
    {| phrase := "clasp";
       p_action := "Inspect clasp mechanism quality";
       p_effort := "medium"; p_impact := "high" |} ].

Definition dquote : string := String (ascii_of_nat 34) EmptyString.

Definition quickWin (fb : list Feedback) (pattern : Pattern)
  : list Insight :=
  let matches :=
    List.filter
      (fun f => JSString.includes (JSString.toLowerCase (review_text f))
                                  (phrase pattern)) fb in
  if (2 <=? length matches)%nat then
    [ {| category := "Quick Win";
         type := "quick-win";
         message := "Recurring Issue: " ++ dquote ++ phrase pattern ++ dquote;
         action := p_action pattern;
         priority := medium;
         confidence := 0.85;
         impact := p_impact pattern;
         effort := p_effort pattern |} ]
  else [].

Definition identifyQuickWins (feedback : option (list Feedback))
  : list Insight :=
  match feedback with
  | None => []
  | Some fb => flat_map (quickWin fb) patterns
  end.

(** ** The handler behind the button *)

Definition priorityScore (p : Priority) : nat :=
  match p with critical => 3 | high => 2 | medium => 1 | low => 0 end.

(** [Array.prototype.sort] with the comparator
    [priorityScore[b.priority] - priorityScore[a.priority]]: a stable
    sort by decreasing score. *)
Fixpoint insertByPriority (x : Insight) (l : list Insight) : list Insight :=
  match l with
  | [] => [x]
  | y :: l' =>
      if (priorityScore (priority y) <=? priorityScore (priority x))%nat
      then x :: l
      else y :: insertByPriority x l'
  end.

Definition sortByPriority (l : list Insight) : list Insight :=
  fold_right insertByPriority [] l.

(** What [onRefresh] hands back: an object whose three fields may be
    missing, or [null] when the fetch failed. *)
Record Refreshed : Type := {
  r_sentiment : option SentimentData;
  r_themes : option ThemeData;
  r_feedback : option (list Feedback)
}.

(** The outcome of awaiting [onRefresh()]: the promise is rejected with
    an error (whose message may be empty or missing), or resolved. *)
Inductive RefreshOutcome : Type :=
| Rejected (msg : option string)
| Resolved (data : option Refreshed).

Record Props : Type := {
  sentimentData : option SentimentData;
  themeData : option ThemeData;
  allFeedback : option (list Feedback);
  onRefresh : option RefreshOutcome
}.

(** The state of the component. *)
Record State : Type := {
  insights : list Insight;
  showInsights : bool;
  isGenerating : bool;
  error : option string
}.

(** [!sData || !tData || !fData || fData.length === 0] *)
Definition dataMissing (p : Props) : bool :=
  match sentimentData p, themeData p, allFeedback p with
  | Some _, Some _, Some fb => (length fb =? 0)%nat
  | _, _, _ => true
  end.

(** The [try] block: either the sorted insights, or the message of
    the error that was thrown. *)
Definition generate (p : Props) : list Insight + string :=
  let fetched : (option SentimentData * option ThemeData
                 * option (list Feedback)) + string :=
    let props := (sentimentData p, themeData p, allFeedback p) in
    if dataMissing p then
      match onRefresh p with
      | Some (Rejected msg) =>
          inr (match msg with
               | Some m => if String.eqb m EmptyString then
                             "Unknown error generating insights" else m
               | None => "Unknown error generating insights"
               end)
      | Some (Resolved (Some data)) =>
          inl (r_sentiment data, r_themes data, r_feedback data)
      | Some (Resolved None) => inl props
      | None => inl props
      end
    else inl props in
  match fetched with
  | inr msg => inr msg
  | inl (Some sData, Some tData, Some fData) =>
      inl (sortByPriority
             (analyzeOverallHealth (Some sData)
              ++ analyzeThemes (Some tData) (Some fData)
              ++ analyzeRatings (Some fData)
              ++ detectContradictions (Some fData)
              ++ analyzeByProduct (Some fData)
              ++ identifyQuickWins (Some fData)))
  | inl _ => inr "Insufficient data to generate insights."
  end.

Definition handleGenerateInsights (p : Props) (st : State) : State :=
  if isGenerating st then st
  else
    match generate p with
    | inl allInsights =>
        {| insights := allInsights; showInsights := true;
           isGenerating := false; error := None |}
    | inr msg =>
        {| insights := insights st; showInsights := showInsights st;
           isGenerating := false; error := Some msg |}
    end.

End Insights.

(* ================================================================== *)
(** * The utility rule set working from the aggregated counts *)

Module InsightUtils.

Open Scope Q_scope.
Open Scope string_scope.

(** An insight of the utility.  Its [message], a sentence built around
    the formatted numbers of the rule, is left out. *)
Record Insight : Type := {
  type : string;
  confidence : Q;
  priority : Priority
}.

(** An argument of a call: left out ([undefined]), [null], or given. *)
Inductive Arg (A : Type) : Type :=
| Undefined
| Null
| Given (a : A).
Arguments Undefined {A}.
Arguments Null {A}.
Arguments Given {A} a.

(** A call returns its insights or throws a [TypeError]. *)
Inductive Outcome : Type :=
| Returns (insights : list Insight)
| TypeError.

(** [x || 0] *)
Definition or0 (x : option Q) : Q :=
  match x with Some v => v | None => 0 end.

Definition mentions (word : string) (f : Feedback) : bool :=
  existsb (fun t => JSString.includes (JSString.toLowerCase t) word)
          (themes f).

(** The sum of the aggregated counts of the themes whose name contains
    [word]. *)
Definition themeTotal (themeData : ThemeData) (word : string) : Q :=
  fold_left
    (fun sum theme =>
       if JSString.includes (JSString.toLowerCase theme) word
       then sum + or0 (JSObject.get themeData theme)
       else sum)
    (JSObject.keys themeData) 0.

Definition confidentNegative (word : string) (f : Feedback) : bool :=
  mentions word f
  && String.eqb (label (sentiment f)) "Negative"
  && Qleb 0.6 (sentiment_confidence (sentiment f)).

Definition comfortIssue (f : Feedback) : bool :=
  mentions "comfort" f
  && (String.eqb (label (sentiment f)) "Negative"
      || JSString.includes (JSString.toLowerCase (review_text f)) "heavy"
      || JSString.includes (JSString.toLowerCase (review_text f))
                           "uncomfortable").

(** The shape shared by rules 5, 6 and 7. *)
Definition shareRule (themeTotal : Q) (allFeedback : list Feedback)
           (issue : Feedback -> bool) (threshold : Q) (i : Insight)
  : list Insight :=
  if Qltb 0 themeTotal && (0 <? length allFeedback)%nat then
    let issues := length (List.filter issue allFeedback) in
    let percentage := (Qof_nat issues / themeTotal) * 100 in
    if Qltb threshold percentage then [i] else []
  else [].

Definition rules (sentimentData : SentimentData) (themeData : ThemeData)
           (allFeedback : list Feedback) : list Insight :=
  let total := or0 (total sentimentData) in
  let positive := or0 (positive sentimentData) in
  let negative := or0 (negative sentimentData) in
  let avgScore := or0 (average_score sentimentData) in
  let avgConfidence := or0 (average_confidence sentimentData) in
  (* Rule 1: strong positive sentiment *)
  (if Qltb 0.2 avgScore then
     [ {| type := "positive"; confidence := avgConfidence;
          priority := high |} ] else [])
  (* Rule 2: negative sentiment trend *)
  ++ (if Qltb avgScore (-0.1) then
        [ {| type := "negative"; confidence := avgConfidence;
             priority := high |} ] else [])
  (* Rule 3: high positive percentage *)
  ++ (if Qltb 0 total && Qltb 0.6 (positive / total) then
        [ {| type := "positive"; confidence := avgConfidence;
             priority := medium |} ] else [])
  (* Rule: mixed sentiment *)
  ++ (if Qleb 2 total && Qltb 0 positive && Qltb 0 negative then
        [ {| type := "neutral"; confidence := avgConfidence;
             priority := medium |} ] else [])
  (* Rule 4: low average rating *)
  ++ (if (0 <? length allFeedback)%nat then
        let avgRating :=
          sum_ratings allFeedback / Qof_nat (length allFeedback) in
        if Qltb avgRating 3.5 then
          [ {| type := "negative"; confidence := 0.8; priority := high |} ]
        else []
      else [])
  (* Rule 5: durability *)
  ++ shareRule (themeTotal themeData "durability") allFeedback
       (confidentNegative "durability") 40
       {| type := "durability"; confidence := avgConfidence;
          priority := high |}
  (* Rule 6: comfort *)
  ++ shareRule (themeTotal themeData "comfort") allFeedback
       comfortIssue 50
       {| type := "comfort"; confidence := avgConfidence;
          priority := medium |}
  (* Rule 7: appearance *)
  ++ shareRule (themeTotal themeData "appearance") allFeedback
       (confidentNegative "appearance") 60
       {| type := "appearance"; confidence := avgConfidence;
          priority := high |}.

(** [generateInsights(sentimentData, themeData, allFeedback = [])]: the
    default only replaces an argument that is left out; on [null] the
    first [allFeedback.length] throws. *)
Definition generateInsights (sentimentData : option SentimentData)
           (themeData : option ThemeData)
           (allFeedback : Arg (list Feedback)) : Outcome :=
  match sentimentData, themeData with
  | Some s, Some t =>
      match allFeedback with
      | Undefined => Returns (rules s t [])
      | Null => TypeError
      | Given fb => Returns (rules s t fb)
      end
  | _, _ => Returns []
  end.

End InsightUtils.

(* ================================================================== *)
(** * The weighted aggregates of the dashboard *)

Module Aggregates.

Open Scope R_scope.
Open Scope string_scope.

(** ** Input, as the function reads it

    The function tests every field before it uses it, so a field is
    optional here: [None] stands for a value that fails the test of the
    code ([typeof x === "number"], [Array.isArray], a falsy text or
    time stamp, a theme that is not a string). *)

Record RawSentiment : Type := {
  confidence : option R
}.

Record RawFeedback : Type := {
  rating : option R;
  sentiment : option RawSentiment;
  themes : option (list (option string));
  review_text : option string;
  created_at : option string
}.

(** The [{}] that replaces a falsy element of the array. *)
Definition emptyObject : RawFeedback :=
  {| rating := None; sentiment := None; themes := None;
     review_text := None; created_at := None |}.

Record Options : Type := {
  opt_halfLifeDays : option R;
  opt_minConfidence : option R;
  opt_neutralFactor : option R;
  opt_phraseLimit : option nat
}.

(** ** Output *)

Record SentimentOut : Type := {
  positive : R;
  negative : R;
  neutral : R;
  rawPositive : R;
  rawNegative : R;
  rawNeutral : R;
  totalEffective : R
}.

Record ThemeValue : Type := { name : string; value : R }.

Record ThemeStat : Type := { stat_effCount : R; stat_confidence : R }.

Record PhraseCount : Type := { phrase : string; count : nat }.

Record Themes : Type := {
  positiveThemes : list ThemeValue;
  negativeThemes : list ThemeValue;
  themeStats : JSObject.obj ThemeStat
}.

Record Result : Type := {
  res_sentiment : SentimentOut;
  res_themes : Themes;
  topPhrasesByTheme : JSObject.obj (list PhraseCount);
  insufficientData : bool
}.

(** ** Numbers *)

Definition tiny : R := 1e-9.

(** The largest integer not above [x]. *)
Definition floor (x : R) : Z := (up x - 1)%Z.

(** [Number(x.toFixed(d))]: [x] rounded to [d] decimals, a tie going
    away from zero. *)
Definition toFixed (d : nat) (x : R) : R :=
  if Rlt_dec x 0
  then - (IZR (floor (- x * 10 ^ d + / 2)) / 10 ^ d)
  else IZR (floor (x * 10 ^ d + / 2)) / 10 ^ d.

Definition log2 (x : R) : R := ln x / ln 2.

(** ** The state of the loop *)

Record ThemeEntry : Type := {
  weightedCount : R;
  effCount : R;
  negTexts : list string
}.

Record Acc : Type := {
  rawPos : R;
  rawNeg : R;
  rawNeu : R;
  totalEff : R;
  themeMap : JSObject.obj ThemeEntry;
  dedupeMap : gmap string nat
}.

Definition init : Acc :=
  {| rawPos := 0; rawNeg := 0; rawNeu := 0; totalEff := 0;
     themeMap := []; dedupeMap := ∅ |}.

(** ** Text helpers *)

Definition sanitizeText (s : string) : string :=
  JSString.trim
    (JSString.collapse_spaces
       (JSString.replace_punct (JSString.toLowerCase s))).

Definition fingerprint (s : string) : string :=
  JSString.collapse_spaces (sanitizeText s).

(** The text of the record, or the empty string when it is falsy. *)
Definition textOf (r : RawFeedback) : string :=
  match review_text r with Some s => s | None => EmptyString end.

Definition themesOf (r : RawFeedback) : list (option string) :=
  match themes r with
  | Some (t :: ts) => t :: ts
  | _ => [Some "Other"]
  end.

Definition themeName (t : option string) : string :=
  match t with
  | Some s =>
      if String.eqb (JSString.trim s) EmptyString then "Other"
      else JSString.trim s
  | None => "Other"
  end.

Definition ratingOf (r : RawFeedback) : R :=
  match rating r with Some x => x | None => 3 end.

Definition c_raw (r : RawFeedback) : R :=
  match sentiment r with
  | Some s => match confidence s with Some c => c | None => 0 end
  | None => 0
  end.

(** [s_rating]: 1 goes to -1, 3 to 0, 5 to 1. *)
Definition s_rating (r : RawFeedback) : R := (ratingOf r - 3) / 2.

Definition dedupeFactor (prev : nat) : R := 1 / sqrt (INR (prev + 1)).

(** [allFeedback[i] || {}] *)
Definition recordOf (elem : option RawFeedback) : RawFeedback :=
  match elem with Some r => r | None => emptyObject end.

(** [dedupeMap.get(fp) || 0], for the fingerprint of the text of [r]. *)
Definition prevCount (dedupeMap : gmap string nat) (r : RawFeedback) : nat :=
  default 0%nat (dedupeMap !! fingerprint (textOf r)).

(** ** The TypeError of the inner loop

    An inherited member has no [negTexts].  For a theme whose name is
    inherited, a record rated low enough ([s_final < -0.1]) that has a
    text reaches [themeMap[name].negTexts.length], which throws: the
    call ends there and nothing is returned. *)

Inductive Outcome (A : Type) : Type :=
| Returns (a : A)
| TypeError.

Arguments Returns {A} a.
Arguments TypeError {A}.

Definition throwsAt (r : RawFeedback) (t : option string) : bool :=
  JSObject.inherited (themeName t)
  && (if Rlt_dec (s_rating r) (-0.1) then true else false)
  && match review_text r with
     | Some txt => negb (String.eqb txt EmptyString)
     | None => false
     end.

Section Clock.

(** [Date.now()], and [Date.parse], whose [NaN] is [None]; both in
    milliseconds. *)
Variable now : R.
Variable Date_parse : string -> option R.

Definition daysSince (iso : option string) : R :=
  match iso with
  | None => 9999
  | Some s =>
      if String.eqb s EmptyString then 9999
      else match Date_parse s with
           | None => 9999
           | Some t => (now - t) / (1000 * 3600 * 24)
           end
  end.

Section Loop.

(** The options, once the defaults are in. *)
Variables halfLifeDays minConfidence neutralFactor : R.
Variable phraseLimit : nat.

Definition timeWeight (days : R) : R :=
  exp (- ln 2 * days / halfLifeDays).

(** The weight of record [r], met after [prev] records with the
    same fingerprint. *)
Definition reviewWeight (r : RawFeedback) (prev : nat) : R :=
  Rmax (c_raw r) minConfidence
  * timeWeight (daysSince (created_at r))
  * dedupeFactor prev.

Definition posContrib (r : RawFeedback) (w : R) : R :=
  Rmax 0 (s_rating r) * w.
Definition negContrib (r : RawFeedback) (w : R) : R :=
  Rmax 0 (- s_rating r) * w.
Definition neuContrib (r : RawFeedback) (w : R) : R :=
  (1 - Rabs (s_rating r)) * w * neutralFactor.

(** The body of the inner loop, for one theme of record [r]; [w]
    is the share of the weight that goes to this theme.  [themeMap]
    starts as [{}]: for a name that is inherited the test
    [!themeMap[name]] fails although the theme has no entry, none is
    created, and the two sums are added to the inherited member, out of
    sight of [Object.entries].  (The text test of such an iteration is
    [throwsAt] below.) *)
Definition addTheme (r : RawFeedback) (w : R)
           (tm : JSObject.obj ThemeEntry) (t : option string)
  : JSObject.obj ThemeEntry :=
  let name := themeName t in
  if JSObject.inherited name then tm
  else
    let e := match JSObject.get tm name with
             | Some e => e
             | None => {| weightedCount := 0; effCount := 0;
                          negTexts := [] |}
             end in
    JSObject.set tm name
      {| weightedCount := weightedCount e + w;
         effCount := effCount e + w;
         negTexts :=
           if Rlt_dec (s_rating r) (-0.1) then
             match review_text r with
             | Some txt =>
                 if negb (String.eqb txt EmptyString)
                    && (length (negTexts e) <? phraseLimit)%nat
                 then negTexts e ++ [txt] else negTexts e
             | None => negTexts e
             end
           else negTexts e |}.

(** The body of the main loop. *)
Definition step (acc : Acc) (elem : option RawFeedback) : Acc :=
  let r := recordOf elem in
  let fp := fingerprint (textOf r) in
  let prev := prevCount (dedupeMap acc) r in
  let w := reviewWeight r prev in
  let frac := 1 / INR (length (themesOf r)) in
  {| rawPos := rawPos acc + posContrib r w;
     rawNeg := rawNeg acc + negContrib r w;
     rawNeu := rawNeu acc + neuContrib r w;
     totalEff := totalEff acc + w;
     themeMap := fold_left (addTheme r (w * frac)) (themesOf r)
                           (themeMap acc);
     dedupeMap := <[fp := (prev + 1)%nat]> (dedupeMap acc) |}.

Definition loop (allFeedback : list (option RawFeedback)) : Acc :=
  fold_left step allFeedback init.

(** [step] and [loop] are the iterations that run to their end.  The
    same loops, with the iteration that throws: *)

Fixpoint themesLoop (r : RawFeedback) (w : R) (ts : list (option string))
         (tm : JSObject.obj ThemeEntry) : Outcome (JSObject.obj ThemeEntry) :=
  match ts with
  | [] => Returns tm
  | t :: ts' =>
      if throwsAt r t then TypeError
      else themesLoop r w ts' (addTheme r w tm t)
  end.

Definition stepOutcome (acc : Acc) (elem : option RawFeedback)
  : Outcome Acc :=
  let r := recordOf elem in
  let fp := fingerprint (textOf r) in
  let prev := prevCount (dedupeMap acc) r in
  let w := reviewWeight r prev in
  let frac := 1 / INR (length (themesOf r)) in
  match themesLoop r (w * frac) (themesOf r) (themeMap acc) with
  | Returns tm =>
      Returns {| rawPos := rawPos acc + posContrib r w;
                 rawNeg := rawNeg acc + negContrib r w;
                 rawNeu := rawNeu acc + neuContrib r w;
                 totalEff := totalEff acc + w;
                 themeMap := tm;
                 dedupeMap := <[fp := (prev + 1)%nat]> (dedupeMap acc) |}
  | TypeError => TypeError
  end.

Fixpoint loopFrom (acc : Acc) (allFeedback : list (option RawFeedback))
  : Outcome Acc :=
  match allFeedback with
  | [] => Returns acc
  | elem :: rest =>
      match stepOutcome acc elem with
      | Returns acc' => loopFrom acc' rest
      | TypeError => TypeError
      end
  end.

(** *** Frequent phrases of the negative texts of a theme *)

Definition stopWords : list string :=
  ["the"; "and"; "is"; "it"; "to"; "a"; "for"; "of"; "in"; "on";
   "this"; "that"; "with"; "was"; "are"; "very"; "not"; "no"; "i"].

(** [s.split(" ")] *)
Fixpoint split (s : string) : list string :=
  match s with
  | EmptyString => [EmptyString]
  | String c s' =>
      if Ascii.eqb c " "%char then EmptyString :: split s'
      else match split s' with
           | t :: ts => String c t :: ts
           | [] => [String c EmptyString]
           end
  end.

Definition tokensOf (text : string) : list string :=
  List.filter
    (fun tok => negb (String.eqb tok EmptyString)
                && negb (existsb (String.eqb tok) stopWords))
    (split (sanitizeText text)).

(** [gramCounts.set(g, (gramCounts.get(g) || 0) + 1)] *)
Definition bump (gramCounts : list (string * nat)) (g : string)
  : list (string * nat) :=
  JSObject.set gramCounts g
    (S (default 0%nat (JSObject.get gramCounts g))).

Fixpoint countGrams (tokens : list string)
         (gramCounts : list (string * nat)) : list (string * nat) :=
  match tokens with
  | a :: ((b :: rest) as tl) =>
      let g2 := bump gramCounts (a ++ " " ++ b) in
      let g3 := match rest with
                | c :: _ => bump g2 (a ++ " " ++ b ++ " " ++ c)
                | [] => g2
                end in
      countGrams tl g3
  | _ => gramCounts
  end.

(** [texts.slice(-phraseLimit)] *)
Definition lastTexts (texts : list string) : list string :=
  if (phraseLimit =? 0)%nat then texts
  else skipn (length texts - phraseLimit) texts.

(** A stable sort by decreasing count. *)
Fixpoint insertByCount (x : string * nat) (l : list (string * nat))
  : list (string * nat) :=
  match l with
  | [] => [x]
  | y :: l' =>
      if (snd y <=? snd x)%nat then x :: l
      else y :: insertByCount x l'
  end.

Definition topPhrases (texts : list string) : list PhraseCount :=
  let gramCounts :=
    fold_left (fun gc ttext => countGrams (tokensOf ttext) gc)
              (lastTexts texts) [] in
  List.map (fun e => {| phrase := fst e; count := snd e |})
           (firstn 4 (fold_right insertByCount [] gramCounts)).

(** *** The result *)

Definition statOf (data : ThemeEntry) : ThemeStat :=
  {| stat_effCount := toFixed 3 (effCount data);
     stat_confidence :=
       toFixed 3 (Rmin 1 (log2 (effCount data + 1) / 4)) |}.

Definition finish (acc : Acc) : Result :=
  let weightedTotal := rawPos acc + rawNeg acc + rawNeu acc + tiny in
  let positivePct := rawPos acc / weightedTotal in
  let negativePct := rawNeg acc / weightedTotal in
  let neutralPct := rawNeu acc / weightedTotal in
  let themeEntries := JSObject.entries (themeMap acc) in
  {| res_sentiment :=
       {| positive := toFixed 4 positivePct;
          negative := toFixed 4 negativePct;
          neutral := toFixed 4 neutralPct;
          rawPositive := toFixed 4 (rawPos acc);
          rawNegative := toFixed 4 (rawNeg acc);
          rawNeutral := toFixed 4 (rawNeu acc);
          totalEffective := toFixed 3 (totalEff acc) |};
     res_themes :=
       {| positiveThemes :=
            List.map (fun e => {| name := fst e;
                                  value := toFixed 4 (effCount (snd e)) |})
                     themeEntries;
          negativeThemes := [];
          themeStats :=
            fold_left (fun o e => JSObject.set o (fst e) (statOf (snd e)))
                      themeEntries [] |};
     topPhrasesByTheme :=
       fold_left
         (fun o e => JSObject.set o (fst e) (topPhrases (negTexts (snd e))))
         themeEntries [];
     insufficientData :=
       if Rlt_dec (totalEff acc) 5 then true else false |}.

End Loop.

(** [computeAdjustedAggregates(allFeedback = [], opts = {})] *)
Definition computeAdjustedAggregates
           (allFeedback : list (option RawFeedback)) (opts : Options)
  : Result :=
  let halfLifeDays := default 30 (opt_halfLifeDays opts) in
  let minConfidence := default 0.2 (opt_minConfidence opts) in
  let neutralFactor := default 0.5 (opt_neutralFactor opts) in
  let phraseLimit := default 200%nat (opt_phraseLimit opts) in
  finish phraseLimit
    (loop halfLifeDays minConfidence neutralFactor phraseLimit
          allFeedback).

(** The call as a whole: the result above when every iteration runs to
    its end, and no result when one of them throws. *)
Definition outcome (allFeedback : list (option RawFeedback)) (opts : Options)
  : Outcome Result :=
  let halfLifeDays := default 30 (opt_halfLifeDays opts) in
  let minConfidence := default 0.2 (opt_minConfidence opts) in
  let neutralFactor := default 0.5 (opt_neutralFactor opts) in
  let phraseLimit := default 200%nat (opt_phraseLimit opts) in
  match loopFrom halfLifeDays minConfidence neutralFactor phraseLimit
                 init allFeedback with
  | Returns acc => Returns (finish phraseLimit acc)
  | TypeError => TypeError
  end.

End Clock.

End Aggregates.

(* ================================================================== *)
(** * Properties of the rule engine *)

Lemma Qltb_lt (x y : Q) : Qltb x y = true <-> (x < y)%Q.
Proof.
  unfold Qltb. rewrite Qlt_alt.
  destruct (x ?= y)%Q; split; intros H; congruence.
Qed.

Lemma Qleb_le (x y : Q) : Qleb x y = true <-> (x <= y)%Q.
Proof.
  unfold Qleb. rewrite Qle_alt.
  destruct (x ?= y)%Q; split; intros H; congruence.
Qed.

Lemma Qltb_ge (x y : Q) : Qltb x y = false <-> (y <= x)%Q.
Proof.
  rewrite <- Bool.not_true_iff_false, Qltb_lt. split.
  - apply Qnot_lt_le.
  - apply Qle_not_lt.
Qed.

(** A share [n / t] of a non-empty population, as a percentage, is above
    [th] exactly when [100 * n] is above [th * t]. *)
Lemma percentage_above (th : Z) (n t : nat) :
  (0 < t)%nat ->
  (inject_Z th < (Qof_nat n / Qof_nat t) * 100)%Q
  <-> (th * Z.of_nat t < 100 * Z.of_nat n)%Z.
Proof.
  intros Ht. unfold Qof_nat.
  assert (Hpos : (0 < inject_Z (Z.of_nat t))%Q).
  { unfold Qlt; simpl. lia. }
  assert (Hne : ~ (inject_Z (Z.of_nat t) == 0)%Q).
  { intros E. rewrite E in Hpos. revert Hpos. apply Qlt_irrefl. }
  assert (E : ((inject_Z (Z.of_nat n) / inject_Z (Z.of_nat t)) * 100
               == inject_Z (100 * Z.of_nat n) / inject_Z (Z.of_nat t))%Q).
  { rewrite inject_Z_mult. field. exact Hne. }
  rewrite E. split.
  - intros H.
    apply (Qmult_lt_compat_r _ _ _ Hpos) in H.
    rewrite Qmult_comm, (Qmult_comm (_ / _)), Qmult_div_r in H by exact Hne.
    rewrite <- inject_Z_mult, <- Zlt_Qlt in H. lia.
  - intros H. apply Qlt_shift_div_l; [exact Hpos|].
    rewrite <- inject_Z_mult, <- Zlt_Qlt. lia.
Qed.

Definition Priority_eqb (p q : Priority) : bool :=
  match p, q with
  | critical, critical | high, high | medium, medium | low, low => true
  | _, _ => false
  end.

(** The rule engine emits an insight of type [ty] and priority [p]. *)
Definition emits (ty : string) (p : Priority) (l : list Insights.Insight)
  : bool :=
  existsb (fun i => String.eqb (Insights.type i) ty
                    && Priority_eqb (Insights.priority i) p) l.

(** The same for the utility. *)
Definition utilEmits (ty : string) (p : Priority)
           (l : list InsightUtils.Insight) : bool :=
  existsb (fun i => String.eqb (InsightUtils.type i) ty
                    && Priority_eqb (InsightUtils.priority i) p) l.

Lemma emits_app ty p l1 l2 :
  emits ty p (l1 ++ l2) = emits ty p l1 || emits ty p l2.
Proof. apply existsb_app. Qed.

Lemma utilEmits_app ty p l1 l2 :
  utilEmits ty p (l1 ++ l2) = utilEmits ty p l1 || utilEmits ty p l2.
Proof. apply existsb_app. Qed.

(** ** The names a plain object inherits *)

Lemma inherited_names (k : string) :
  JSObject.inherited k = true
  <-> List.In k ["constructor"; "__proto__"; "hasOwnProperty";
                 "isPrototypeOf"; "propertyIsEnumerable"; "toLocaleString";
                 "toString"; "valueOf"; "__defineGetter__";
                 "__defineSetter__"; "__lookupGetter__";
                 "__lookupSetter__"]%string.
Proof.
  unfold JSObject.inherited. rewrite existsb_exists. split.
  - intros (x & Hin & E). apply String.eqb_eq in E. subst x. exact Hin.
  - intros Hin. exists k. split; [exact Hin | apply String.eqb_refl].
Qed.

(** The theme names of the data model and the product lines of the
    feedback form are not among them. *)
Lemma model_names_own :
  List.Forall (fun k => JSObject.inherited k = false)
              ["Comfort"; "Durability"; "Appearance"; "Other";
               "Rings"; "Earrings"; "Necklaces"; "Bracelets";
               "Pendants"]%string.
Proof. repeat constructor. Qed.

(** ** The conditions of the rules, on one record *)

(** One of the theme labels of the record is exactly [name]. *)
Definition hasTheme (name : string) (f : Feedback) : bool :=
  existsb (fun t => String.eqb t name) (themes f).

(** One of the theme labels of the record contains [word], whatever the
    case of its letters. *)
Definition themeContains (word : string) (f : Feedback) : bool :=
  existsb (fun t => JSString.includes (JSString.toLowerCase t) word)
          (themes f).

(** The sentiment label of the record is Negative. *)
Definition labelledNegative (f : Feedback) : bool :=
  String.eqb (label (sentiment f)) "Negative".

(** The sentiment confidence of the record is at least [c]. *)
Definition confidenceAtLeast (c : Q) (f : Feedback) : bool :=
  Qleb c (sentiment_confidence (sentiment f)).

(** The review text contains [word], whatever the case of its letters. *)
Definition textContains (word : string) (f : Feedback) : bool :=
  JSString.includes (JSString.toLowerCase (review_text f)) word.

Lemma hasTheme_In name f : hasTheme name f = true <-> List.In name (themes f).
Proof.
  unfold hasTheme. rewrite existsb_exists. split.
  - intros (t & Hin & E). apply String.eqb_eq in E. subst t. exact Hin.
  - intros Hin. exists name. split; [exact Hin | apply String.eqb_refl].
Qed.

Lemma labelledNegative_eq f :
  labelledNegative f = true <-> label (sentiment f) = "Negative"%string.
Proof. apply String.eqb_eq. Qed.

(** The records that meet a condition, counted. *)
Definition countOf (cond : Feedback -> bool) (fb : list Feedback) : nat :=
  length (List.filter cond fb).

(** The number of records tagged with a theme, and of those the ones
    whose label is Negative. *)
Definition taggedCount (themeName : string) (fb : list Feedback) : nat :=
  countOf (hasTheme themeName) fb.

Definition negativeCount (themeName : string) (fb : list Feedback) : nat :=
  countOf (fun f => hasTheme themeName f && labelledNegative f) fb.

Lemma filter_filter {A} (p q : A -> bool) (l : list A) :
  List.filter q (List.filter p l) = List.filter (fun x => p x && q x) l.
Proof.
  induction l as [|x l IH]; [reflexivity|]. cbn [List.filter].
  destruct (p x); cbn [List.filter andb]; [|exact IH].
  destruct (q x); rewrite IH; reflexivity.
Qed.

Lemma filter_ext_eq {A} (p q : A -> bool) (l : list A) :
  (forall x, p x = q x) -> List.filter p l = List.filter q l.
Proof.
  intros H. induction l as [|x l IH]; [reflexivity|].
  cbn [List.filter]. rewrite H, IH. reflexivity.
Qed.

Lemma tagged_hasTheme name f : Insights.tagged name f = hasTheme name f.
Proof.
  unfold Insights.tagged, hasTheme.
  induction (themes f) as [|t ts IH]; [reflexivity|].
  cbn [existsb]. rewrite IH, (String.eqb_sym name t). reflexivity.
Qed.

(** The statistics of a theme are these two counts and their ratio. *)
Lemma getThemeStats_counts fb themeName :
  Insights.getThemeStats fb themeName
  = if (taggedCount themeName fb =? 0)%nat then None
    else Some {| Insights.ts_total := taggedCount themeName fb;
                 Insights.ts_negative := negativeCount themeName fb;
                 Insights.percentage :=
                   ((Qof_nat (negativeCount themeName fb)
                     / Qof_nat (taggedCount themeName fb)) * 100)%Q |}.
Proof.
  unfold Insights.getThemeStats, taggedCount, negativeCount, countOf.
  rewrite filter_filter.
  rewrite (filter_ext_eq (Insights.tagged themeName) (hasTheme themeName))
    by (intros f; apply tagged_hasTheme).
  rewrite (filter_ext_eq
             (fun f => Insights.tagged themeName f && Insights.is_negative f)
             (fun f => hasTheme themeName f && labelledNegative f))
    by (intros f; rewrite tagged_hasTheme; reflexivity).
  reflexivity.
Qed.

(** A theme rule fires exactly when the theme has records and more than
    [th] percent of them are negative. *)
Lemma themeRule_fires fb themeName (th : Z) i :
  Insights.themeRule fb themeName (th # 1) i = [i]
  /\ (0 < taggedCount themeName fb)%nat
  /\ (th * Z.of_nat (taggedCount themeName fb)
      < 100 * Z.of_nat (negativeCount themeName fb))%Z
  \/
  Insights.themeRule fb themeName (th # 1) i = []
  /\ ~ ((0 < taggedCount themeName fb)%nat
        /\ (th * Z.of_nat (taggedCount themeName fb)
            < 100 * Z.of_nat (negativeCount themeName fb))%Z).
Proof.
  change (th # 1) with (inject_Z th).
  unfold Insights.themeRule. rewrite getThemeStats_counts.
  destruct (Nat.eqb_spec (taggedCount themeName fb) 0) as [E|E].
  - right. split; [reflexivity|]. intros [H _]. lia.
  - assert (Hpos : (0 < taggedCount themeName fb)%nat) by lia.
    cbn [Insights.percentage].
    destruct (Qltb _ _) eqn:Hq.
    + left. apply Qltb_lt in Hq.
      apply percentage_above in Hq; [|exact Hpos]. auto.
    + right. split; [reflexivity|]. intros [_ H].
      apply (percentage_above th _ _ Hpos) in H.
      apply Qltb_lt in H. congruence.
Qed.

Lemma tagged_nonempty themeName fb :
  (0 < taggedCount themeName fb)%nat -> (length fb =? 0)%nat = false.
Proof.
  intros H. destruct fb; [cbn in H; lia | reflexivity].
Qed.

(** The record [f] with the sentiment confidence [c]. *)
Definition withConfidence (c : Q) (f : Feedback) : Feedback :=
  {| product_id := product_id f;
     rating := rating f;
     review_text := review_text f;
     sentiment := {| label := label (sentiment f);
                     sentiment_confidence := c |};
     themes := themes f |}.

Lemma countOf_map (cond : Feedback -> bool) (g : Feedback -> Feedback) fb :
  (forall f, cond (g f) = cond f) ->
  countOf cond (List.map g fb) = countOf cond fb.
Proof.
  intros H. unfold countOf.
  induction fb as [|f fb IH]; [reflexivity|].
  cbn [List.map List.filter]. rewrite H.
  destruct (cond f); cbn [length]; rewrite IH; reflexivity.
Qed.

(** The theme rules of the panel do not read the confidence. *)
Lemma analyzeThemes_confidence tData fb c :
  Insights.analyzeThemes tData (Some (List.map (withConfidence c) fb))
  = Insights.analyzeThemes tData (Some fb).
Proof.
  unfold Insights.analyzeThemes, Insights.themeRule.
  rewrite !getThemeStats_counts. unfold taggedCount, negativeCount.
  rewrite !countOf_map by reflexivity.
  rewrite List.length_map. reflexivity.
Qed.

Lemma Qshare_above (th n T : Q) :
  (0 < T)%Q -> (th < (n / T) * 100)%Q <-> (th * T < 100 * n)%Q.
Proof.
  intros Hpos.
  assert (Hne : ~ (T == 0)%Q).
  { intros E. rewrite E in Hpos. revert Hpos. apply Qlt_irrefl. }
  assert (E : ((n / T) * 100 == (100 * n) / T)%Q) by (field; exact Hne).
  rewrite E. split.
  - intros H. apply (Qmult_lt_compat_r _ _ _ Hpos) in H.
    rewrite (Qmult_comm (_ / _)), Qmult_div_r in H by exact Hne. exact H.
  - intros H. apply Qlt_shift_div_l; assumption.
Qed.

(** A share rule of the utility fires exactly when the aggregated count
    is positive and the issues are more than [th] percent of it. *)
Lemma shareRule_fires (T : Q) fb issue (th : Q) i :
  (0 <= th)%Q ->
  InsightUtils.shareRule T fb issue th i = [i]
  /\ (0 < T)%Q
  /\ (th * T < 100 * Qof_nat (length (List.filter issue fb)))%Q
  \/
  InsightUtils.shareRule T fb issue th i = []
  /\ ~ ((0 < T)%Q
        /\ (th * T < 100 * Qof_nat (length (List.filter issue fb)))%Q).
Proof.
  intros Hth. unfold InsightUtils.shareRule.
  destruct (Qltb 0 T) eqn:HT; cbn [andb].
  - apply Qltb_lt in HT.
    destruct fb as [|f fb'].
    + right. split; [reflexivity|]. intros (_ & H). cbn in H.
      assert (H0 : (0 <= th * T)%Q).
      { apply Qmult_le_0_compat; [exact Hth | apply Qlt_le_weak, HT]. }
      apply (Qle_not_lt _ _ H0). exact H.
    + cbn [length Nat.ltb Nat.leb].
      destruct (Qltb th _) eqn:Hq.
      * left. apply Qltb_lt, Qshare_above in Hq; auto.
      * right. split; [reflexivity|]. intros (_ & H).
        apply (Qshare_above _ _ _ HT), Qltb_lt in H. congruence.
  - right. split; [reflexivity|]. intros (H & _).
    apply Qltb_lt in H. congruence.
Qed.

(** The negative share the specification describes for Durability: among
    the records tagged with the theme, those labelled Negative with a
    confidence of at least 0.6. *)
Definition confidentNegativeCount (themeName : string) (fb : list Feedback)
  : nat :=
  countOf (fun f => hasTheme themeName f && labelledNegative f
                    && confidenceAtLeast 0.6 f) fb.

(** The count of the utility rule set for a theme word: the records with
    a theme label that contains the word, labelled Negative, with a
    confidence of at least 0.6. *)
Definition utilityNegativeCount (word : string) (fb : list Feedback) : nat :=
  countOf (fun f => themeContains word f && labelledNegative f
                    && confidenceAtLeast 0.6 f) fb.

Lemma confidentNegative_count word fb :
  length (List.filter (InsightUtils.confidentNegative word) fb)
  = utilityNegativeCount word fb.
Proof. reflexivity. Qed.

(** The comfort issues of the utility rule set: the records with a theme
    label that contains [comfort] which are labelled Negative or whose
    text contains [heavy] or [uncomfortable]. *)
Definition comfortIssueCount (fb : list Feedback) : nat :=
  countOf (fun f => themeContains "comfort" f
                    && (labelledNegative f || textContains "heavy" f
                        || textContains "uncomfortable" f)) fb.

Lemma comfortIssue_count fb :
  length (List.filter InsightUtils.comfortIssue fb) = comfortIssueCount fb.
Proof. reflexivity. Qed.

(** A Durability record whose text was judged Negative with little
    confidence. *)
Definition hesitantDurability : Feedback :=
  {| product_id := "R-100";
     rating := 2;
     review_text := "the chain broke";
     sentiment := {| label := "Negative"; sentiment_confidence := 0.3 |};
     themes := ["Durability"] |}.

(** C1, as stated, fails: one record tagged Durability and labelled
    Negative with confidence 0.3.  Its share of confident negatives is
    0 of 1, which is not above 40%, yet the rule engine emits the
    high-priority durability insight. *)
Lemma C1_durability_counterexample :
  (0 < taggedCount "Durability" [hesitantDurability])%nat
  /\ ~ (emits "durability" high
          (Insights.analyzeThemes (Some []) (Some [hesitantDurability]))
        = true
        <-> (40 * Z.of_nat (taggedCount "Durability" [hesitantDurability])
             < 100 * Z.of_nat (confidentNegativeCount "Durability"
                                 [hesitantDurability]))%Z).
Proof.
  split; [vm_compute; lia|].
  intros [H _]. specialize (H eq_refl). vm_compute in H. discriminate H.
Qed.

(** C1, amended.  The rule engine of the panel counts every Durability
    record labelled Negative, whatever its confidence: with at least one
    record tagged Durability it emits the high-priority durability
    insight exactly when the records tagged Durability and labelled
    Negative are more than 40% of the records tagged Durability, and its
    answer is the same when the confidences are replaced by any other.
    The confidence floor of 0.6 belongs to the utility rule set alone,
    whose denominator is the aggregated count of the theme: given a
    positive aggregated count, it emits the high-priority durability
    insight exactly when the records with a theme label that contains
    [durability], labelled Negative and of confidence at least 0.6 are
    more than 40% of that count. *)
Theorem C1_durability_rules :
  (forall (tData : ThemeData) (fb : list Feedback),
      (0 < countOf (hasTheme "Durability") fb)%nat ->
      emits "durability" high (Insights.analyzeThemes (Some tData) (Some fb))
      = true
      <-> (40 * Z.of_nat (countOf (hasTheme "Durability") fb)
           < 100 * Z.of_nat
                     (countOf (fun f => hasTheme "Durability" f
                                        && labelledNegative f) fb))%Z)
  /\
  (forall (tData : ThemeData) (fb : list Feedback) (c : Q),
      Insights.analyzeThemes (Some tData)
                             (Some (List.map (withConfidence c) fb))
      = Insights.analyzeThemes (Some tData) (Some fb))
  /\
  (forall (s : SentimentData) (t : ThemeData) (fb : list Feedback),
      (0 < InsightUtils.themeTotal t "durability")%Q ->
      utilEmits "durability" high (InsightUtils.rules s t fb) = true
      <-> (40 * InsightUtils.themeTotal t "durability"
           < 100 * Qof_nat
                     (countOf (fun f => themeContains "durability" f
                                        && labelledNegative f
                                        && confidenceAtLeast 0.6 f) fb))%Q).
Proof.
  split; [|split].
  - intros tData fb Hpos. unfold Insights.analyzeThemes.
    rewrite (tagged_nonempty _ _ Hpos), !emits_app.
    destruct (themeRule_fires fb "Comfort" 30 Insights.comfortInsight)
      as [[-> _]|[-> _]];
      destruct (themeRule_fires fb "Appearance" 60 Insights.appearanceInsight)
        as [[-> _]|[-> _]];
      destruct (themeRule_fires fb "Durability" 40 Insights.durabilityInsight)
        as [[-> [_ H]]|[-> H]];
      cbn; split; intros H'; try reflexivity; try assumption;
        try discriminate H'; exfalso; apply H; split; assumption.
  - intros tData fb c. apply analyzeThemes_confidence.
  - intros s t fb Hpos. unfold InsightUtils.rules.
    rewrite !utilEmits_app.
    repeat match goal with
           | |- context [utilEmits _ _ (if ?c then _ else _)] =>
               destruct c; cbn [utilEmits existsb orb andb]
           end;
      destruct (shareRule_fires (InsightUtils.themeTotal t "comfort") fb
                  InsightUtils.comfortIssue 50
                  {| InsightUtils.type := "comfort";
                     InsightUtils.confidence := InsightUtils.or0 (average_confidence s);
                     InsightUtils.priority := medium |} ltac:(discriminate))
        as [[-> _]|[-> _]];
      destruct (shareRule_fires (InsightUtils.themeTotal t "appearance") fb
                  (InsightUtils.confidentNegative "appearance") 60
                  {| InsightUtils.type := "appearance";
                     InsightUtils.confidence := InsightUtils.or0 (average_confidence s);
                     InsightUtils.priority := high |} ltac:(discriminate))
        as [[-> _]|[-> _]];
      destruct (shareRule_fires (InsightUtils.themeTotal t "durability") fb
                  (InsightUtils.confidentNegative "durability") 40
                  {| InsightUtils.type := "durability";
                     InsightUtils.confidence := InsightUtils.or0 (average_confidence s);
                     InsightUtils.priority := high |} ltac:(discriminate))
        as [[-> [_ H]]|[-> H]];
      rewrite confidentNegative_count in H;
      cbn; split; intros H'; try reflexivity; try assumption;
        try discriminate H'; exfalso; apply H; repeat split; try assumption.
Qed.

(** A Durability record whose text was judged Negative with confidence. *)
Definition confidentDurability : Feedback :=
  {| product_id := "R-100";
     rating := 1;
     review_text := "broke after a week";
     sentiment := {| label := "Negative"; sentiment_confidence := 0.9 |};
     themes := ["Durability"] |}.

(** A record of theme [theme] whose text was judged [lab] with
    confidence 0.9. *)
Definition themed (theme lab : string) : Feedback :=
  {| product_id := "R-100";
     rating := 4;
     review_text := "as described";
     sentiment := {| label := lab; sentiment_confidence := 0.9 |};
     themes := [theme] |}.

Definition sampleSentimentData : SentimentData :=
  {| total := Some 2%Q; positive := Some 1%Q; negative := Some 1%Q;
     neutral := Some 0%Q; average_score := Some 0%Q;
     average_confidence := Some 0.5%Q |}.

(** Two Durability records, one of them Negative with confidence 0.3,
    among three records of other themes that are not Negative: the share
    is one of two. *)
Definition oneOfTwoDurability : list Feedback :=
  [hesitantDurability; themed "Durability" "Positive";
   themed "Comfort" "Positive"; themed "Comfort" "Positive";
   themed "Other" "Positive"].

(** Two Negative Durability records, one of them below the floor, and a
    Negative record of another theme. *)
Definition oneConfidentOfTwo : list Feedback :=
  [confidentDurability; hesitantDurability; themed "Comfort" "Negative"].

Lemma C1_durability_rules_witness :
  emits "durability" high
    (Insights.analyzeThemes (Some []) (Some oneOfTwoDurability)) = true
  /\ utilEmits "durability" high
       (InsightUtils.rules sampleSentimentData [("Durability", 2%Q)]
          oneConfidentOfTwo) = true
  /\ utilEmits "durability" high
       (InsightUtils.rules sampleSentimentData [("Durability", 3%Q)]
          oneConfidentOfTwo) <> true.
Proof.
  split; [|split].
  - apply (proj1 C1_durability_rules [] oneOfTwoDurability).
    + vm_compute. lia.
    + vm_compute. reflexivity.
  - apply (proj2 (proj2 C1_durability_rules) sampleSentimentData
             [("Durability", 2%Q)] oneConfidentOfTwo).
    + vm_compute. reflexivity.
    + vm_compute. reflexivity.
  - intros H.
    apply (proj2 (proj2 C1_durability_rules) sampleSentimentData
             [("Durability", 3%Q)] oneConfidentOfTwo) in H.
    + vm_compute in H. discriminate H.
    + vm_compute. reflexivity.
Defined.

(* ------------------------------------------------------------------ *)
(** ** Rating health *)

Lemma length_eqb_nonempty {A} (l : list A) :
  l <> [] -> (length l =? 0)%nat = false.
Proof. destruct l; [congruence | reflexivity]. Qed.

(** The ratings of the records, added up, and their mean. *)
Fixpoint ratingTotal (fb : list Feedback) : Q :=
  match fb with
  | [] => 0
  | f :: fb' => rating f + ratingTotal fb'
  end.

Definition meanRating (fb : list Feedback) : Q :=
  ratingTotal fb / Qof_nat (length fb).

Lemma sum_ratings_from fb : forall a,
  (fold_left (fun sum f => sum + rating f) fb a == a + ratingTotal fb)%Q.
Proof.
  induction fb as [|f fb IH]; intros a; cbn [fold_left ratingTotal].
  - ring.
  - rewrite IH. ring.
Qed.

Lemma avgRating_mean fb : (Insights.avgRating fb == meanRating fb)%Q.
Proof.
  unfold Insights.avgRating, meanRating, sum_ratings.
  rewrite sum_ratings_from. apply Qdiv_comp; [ring | reflexivity].
Qed.

Lemma Qltb_comp (x x' y : Q) : (x == x')%Q -> Qltb x y = Qltb x' y.
Proof.
  intros E. destruct (Qltb x' y) eqn:H.
  - apply Qltb_lt. rewrite E. apply Qltb_lt, H.
  - apply Qltb_ge. rewrite E. apply Qltb_ge, H.
Qed.

(** C7.  On a non-empty collection the rating-health rule emits exactly
    one insight, of priority critical, when the mean of the ratings (their
    sum divided by their number) is below 2.5; exactly one, of priority
    high, when the mean is at least 2.5 and below 3.5; and none when the
    mean is 3.5 or more.  A mean of 3.4 therefore gives the
    high-priority insight. *)
Theorem C7_rating_health (fb : list Feedback) :
  fb <> [] ->
  Insights.priority Insights.criticalRatingInsight = critical
  /\ Insights.priority Insights.belowAverageInsight = high
  /\ ((ratingTotal fb / Qof_nat (length fb) < 2.5)%Q ->
      Insights.analyzeRatings (Some fb) = [Insights.criticalRatingInsight])
  /\ ((2.5 <= ratingTotal fb / Qof_nat (length fb))%Q ->
      (ratingTotal fb / Qof_nat (length fb) < 3.5)%Q ->
      Insights.analyzeRatings (Some fb) = [Insights.belowAverageInsight])
  /\ ((3.5 <= ratingTotal fb / Qof_nat (length fb))%Q ->
      Insights.analyzeRatings (Some fb) = [])
  /\ ((ratingTotal fb / Qof_nat (length fb) == 3.4)%Q ->
      Insights.analyzeRatings (Some fb) = [Insights.belowAverageInsight]).
Proof.
  intros Hne. unfold Insights.analyzeRatings.
  rewrite (length_eqb_nonempty fb Hne).
  rewrite !(Qltb_comp _ _ _ (avgRating_mean fb)).
  fold (meanRating fb).
  repeat split; try reflexivity.
  - intros H. apply Qltb_lt in H. rewrite H. reflexivity.
  - intros Hge Hlt. apply Qltb_ge in Hge. apply Qltb_lt in Hlt.
    rewrite Hge, Hlt. reflexivity.
  - intros Hge.
    assert (H1 : Qltb (meanRating fb) 3.5 = false)
      by (apply Qltb_ge; exact Hge).
    assert (H2 : Qltb (meanRating fb) 2.5 = false).
    { apply Qltb_ge. apply Qle_trans with (2 := Hge). discriminate. }
    rewrite H1, H2. reflexivity.
  - intros E.
    assert (H1 : Qltb (meanRating fb) 3.5 = true).
    { apply Qltb_lt. rewrite E. reflexivity. }
    assert (H2 : Qltb (meanRating fb) 2.5 = false).
    { apply Qltb_ge. rewrite E. discriminate. }
    rewrite H1, H2. reflexivity.
Qed.

Definition rated (stars : Q) : Feedback :=
  {| product_id := "R-100";
     rating := stars;
     review_text := EmptyString;
     sentiment := {| label := "Neutral"; sentiment_confidence := 0 |};
     themes := ["Other"] |}.

(** Six records rated 5 and four rated 1: the mean is 3.4. *)
Definition sixFivesFourOnes : list Feedback :=
  repeat (rated 5) 6 ++ repeat (rated 1) 4.

(** Three records rated 5 and two rated 1: the mean is 3.4 again. *)
Definition threeFivesTwoOnes : list Feedback :=
  repeat (rated 5) 3 ++ repeat (rated 1) 2.

(** Four records rated 3, 2, 2 and 2: the sum is 9 and the mean 2.25. *)
Definition fourLow : list Feedback :=
  [rated 3; rated 2; rated 2; rated 2].

(** Three records rated 4, 4 and 3: the sum is 11 and the mean above
    3.5. *)
Definition threeGood : list Feedback :=
  [rated 4; rated 4; rated 3].

Lemma C7_rating_health_witness :
  Insights.analyzeRatings (Some sixFivesFourOnes)
  = [Insights.belowAverageInsight]
  /\ Insights.analyzeRatings (Some threeFivesTwoOnes)
     = [Insights.belowAverageInsight]
  /\ Insights.analyzeRatings (Some fourLow) = [Insights.criticalRatingInsight]
  /\ Insights.analyzeRatings (Some threeGood) = [].
Proof.
  split; [|split; [|split]].
  - apply (C7_rating_health sixFivesFourOnes).
    + discriminate.
    + vm_compute. reflexivity.
  - apply (C7_rating_health threeFivesTwoOnes).
    + discriminate.
    + vm_compute. reflexivity.
  - apply (C7_rating_health fourLow).
    + discriminate.
    + vm_compute. reflexivity.
  - apply (C7_rating_health threeGood).
    + discriminate.
    + vm_compute. discriminate.
Defined.

(* ------------------------------------------------------------------ *)
(** ** The two Comfort rules *)

Definition comfortRecord (lab : string) : Feedback :=
  {| product_id := "E-200";
     rating := 3;
     review_text := "fits fine";
     sentiment := {| label := lab; sentiment_confidence := 0.7 |};
     themes := ["Comfort"] |}.

(** A Comfort record that is not labelled Negative but whose text
    complains about the weight. *)
Definition heavyRecord : Feedback :=
  {| product_id := "E-200";
     rating := 3;
     review_text := "Lovely, but too HEAVY for me";
     sentiment := {| label := "Positive"; sentiment_confidence := 0.7 |};
     themes := ["Comfort"] |}.

(** Five Comfort records, two of them negative (a share of 40%), among
    three negative records of another theme. *)
Definition twoOfFiveComfort : list Feedback :=
  repeat (comfortRecord "Negative") 2 ++ repeat (themed "Durability" "Negative") 3
  ++ repeat (comfortRecord "Positive") 3.

(** Three Comfort records, none of them labelled Negative and two of
    them too heavy, and two negative records of another theme. *)
Definition twoHeavyOfThree : list Feedback :=
  [heavyRecord; themed "Durability" "Negative"; heavyRecord;
   comfortRecord "Positive"; themed "Other" "Negative"].

(** C8.  There are two Comfort rules.  The per-record rule of the panel
    emits the medium-priority comfort insight exactly when there are
    records tagged Comfort and more than 30% of them are labelled
    Negative.  The aggregate rule of the utility emits its
    medium-priority comfort insight exactly when the aggregated Comfort
    count is positive and more than 50% of that count are comfort issues:
    records with a theme label that contains [comfort] which are
    labelled Negative or whose text contains [heavy] or
    [uncomfortable].  The two rules differ, each way: with five Comfort
    records of which two are negative the first fires and the second
    does not; with three Comfort records none of which is negative and
    two of which are too heavy the second fires and the first does
    not. *)
Theorem C8_comfort_variants :
  (forall (tData : ThemeData) (fb : list Feedback),
      emits "comfort" medium (Insights.analyzeThemes (Some tData) (Some fb))
      = true
      <-> (0 < countOf (hasTheme "Comfort") fb)%nat
          /\ (30 * Z.of_nat (countOf (hasTheme "Comfort") fb)
              < 100 * Z.of_nat
                        (countOf (fun f => hasTheme "Comfort" f
                                           && labelledNegative f) fb))%Z)
  /\
  (forall (s : SentimentData) (t : ThemeData) (fb : list Feedback),
      utilEmits "comfort" medium (InsightUtils.rules s t fb) = true
      <-> (0 < InsightUtils.themeTotal t "comfort")%Q
          /\ (50 * InsightUtils.themeTotal t "comfort"
              < 100 * Qof_nat
                        (countOf
                           (fun f => themeContains "comfort" f
                                     && (labelledNegative f
                                         || textContains "heavy" f
                                         || textContains "uncomfortable" f))
                           fb))%Q)
  /\
  (emits "comfort" medium
     (Insights.analyzeThemes (Some [("Comfort", 5%Q)]) (Some twoOfFiveComfort))
   = true
   /\ utilEmits "comfort" medium
        (InsightUtils.rules sampleSentimentData [("Comfort", 5%Q)]
           twoOfFiveComfort)
      = false)
  /\
  (emits "comfort" medium
     (Insights.analyzeThemes (Some [("Comfort", 3%Q)]) (Some twoHeavyOfThree))
   = false
   /\ utilEmits "comfort" medium
        (InsightUtils.rules sampleSentimentData [("Comfort", 3%Q)]
           twoHeavyOfThree)
      = true).
Proof.
  split; [|split; [|split]].
  - intros tData fb. unfold Insights.analyzeThemes.
    destruct (Nat.eqb_spec (length fb) 0) as [E|E].
    + destruct fb; [|discriminate E]. cbn. split; [discriminate|].
      intros [H _]. lia.
    + rewrite !emits_app.
      destruct (themeRule_fires fb "Durability" 40 Insights.durabilityInsight)
        as [[-> _]|[-> _]];
        destruct (themeRule_fires fb "Appearance" 60
                    Insights.appearanceInsight) as [[-> _]|[-> _]];
        destruct (themeRule_fires fb "Comfort" 30 Insights.comfortInsight)
          as [[-> H]|[-> H]];
        cbn; split; intros H'; try reflexivity; try assumption;
          try discriminate H'; exfalso; apply H; assumption.
  - intros s t fb. unfold InsightUtils.rules.
    rewrite !utilEmits_app.
    repeat match goal with
           | |- context [utilEmits _ _ (if ?c then _ else _)] =>
               destruct c; cbn [utilEmits existsb orb andb]
           end;
      destruct (shareRule_fires (InsightUtils.themeTotal t "durability") fb
                  (InsightUtils.confidentNegative "durability") 40
                  {| InsightUtils.type := "durability";
                     InsightUtils.confidence :=
                       InsightUtils.or0 (average_confidence s);
                     InsightUtils.priority := high |} ltac:(discriminate))
        as [[-> _]|[-> _]];
      destruct (shareRule_fires (InsightUtils.themeTotal t "appearance") fb
                  (InsightUtils.confidentNegative "appearance") 60
                  {| InsightUtils.type := "appearance";
                     InsightUtils.confidence :=
                       InsightUtils.or0 (average_confidence s);
                     InsightUtils.priority := high |} ltac:(discriminate))
        as [[-> _]|[-> _]];
      destruct (shareRule_fires (InsightUtils.themeTotal t "comfort") fb
                  InsightUtils.comfortIssue 50
                  {| InsightUtils.type := "comfort";
                     InsightUtils.confidence :=
                       InsightUtils.or0 (average_confidence s);
                     InsightUtils.priority := medium |} ltac:(discriminate))
        as [[-> H]|[-> H]];
      rewrite comfortIssue_count in H;
      cbn; split; intros H'; try reflexivity; try assumption;
        try discriminate H'; exfalso; apply H; assumption.
  - split; vm_compute; reflexivity.
  - split; vm_compute; reflexivity.
Qed.

Lemma C8_comfort_variants_witness :
  emits "comfort" medium
    (Insights.analyzeThemes (Some [("Comfort", 5%Q)]) (Some twoOfFiveComfort))
  = true
  /\ utilEmits "comfort" medium
       (InsightUtils.rules sampleSentimentData [("Comfort", 3%Q)]
          twoHeavyOfThree)
     = true.
Proof.
  split.
  - apply (proj1 C8_comfort_variants [("Comfort", 5%Q)] twoOfFiveComfort).
    split; vm_compute; [lia | reflexivity].
  - apply (proj1 (proj2 C8_comfort_variants) sampleSentimentData
             [("Comfort", 3%Q)] twoHeavyOfThree).
    split; vm_compute; reflexivity.
Defined.

(* ------------------------------------------------------------------ *)
(** ** Missing inputs *)

(** What the specification expects of a call with a missing input: the
    rules that need it are skipped, and the insights of the others are
    returned in priority order. *)
Definition remainingRules (s : option SentimentData) (t : option ThemeData)
           (f : option (list Feedback)) : list Insights.Insight :=
  Insights.sortByPriority
    (Insights.analyzeOverallHealth s
     ++ Insights.analyzeThemes t f
     ++ Insights.analyzeRatings f
     ++ Insights.detectContradictions f
     ++ Insights.analyzeByProduct f
     ++ Insights.identifyQuickWins f).

(** The panel before its first run. *)
Definition freshState : Insights.State :=
  {| Insights.insights := []; Insights.showInsights := false;
     Insights.isGenerating := false; Insights.error := None |}.

(** Two one-star records, and no sentiment aggregate. *)
Definition noSentimentProps : Insights.Props :=
  {| Insights.sentimentData := None;
     Insights.themeData := Some [("Other", 2%Q)];
     Insights.allFeedback := Some [rated 1; rated 1];
     Insights.onRefresh := None |}.

Definition insufficient : string := "Insufficient data to generate insights.".

(** C9, as stated, fails: with the sentiment aggregate missing and two
    one-star records, the rating rule alone yields the critical insight,
    but the handler reports an error and shows no insight; the utility
    returns nothing either. *)
Lemma C9_missing_input_counterexample :
  Insights.analyzeRatings (Insights.allFeedback noSentimentProps)
  = [Insights.criticalRatingInsight]
  /\ In Insights.criticalRatingInsight
        (remainingRules (Insights.sentimentData noSentimentProps)
                        (Insights.themeData noSentimentProps)
                        (Insights.allFeedback noSentimentProps))
  /\ Insights.generate noSentimentProps = inr insufficient
  /\ Insights.generate noSentimentProps
     <> inl (remainingRules (Insights.sentimentData noSentimentProps)
                            (Insights.themeData noSentimentProps)
                            (Insights.allFeedback noSentimentProps))
  /\ Insights.insights (Insights.handleGenerateInsights noSentimentProps
                                                        freshState) = []
  /\ Insights.error (Insights.handleGenerateInsights noSentimentProps
                                                     freshState)
     = Some insufficient
  /\ InsightUtils.generateInsights None (Some [("Other", 2%Q)])
       (InsightUtils.Given [rated 1; rated 1]) = InsightUtils.Returns [].
Proof.
  repeat split; try reflexivity; try discriminate.
  vm_compute. left. reflexivity.
Qed.

(** C9, amended.  Each rule, called on its own without its input,
    returns no insight.  The engine as a whole does not go on with the
    remaining rules: when the sentiment aggregate, the theme aggregate or
    the record collection is still missing after the optional refresh,
    the handler keeps the insights it had, and records the error
    "Insufficient data to generate insights." in its state; the utility
    returns the empty list whenever the sentiment or the theme aggregate
    is missing, and reads a record collection that is left out as the
    empty collection. *)
Theorem C9_missing_inputs :
  (Insights.analyzeOverallHealth None = []
   /\ (forall f, Insights.analyzeThemes None f = [])
   /\ (forall t, Insights.analyzeThemes t None = [])
   /\ Insights.analyzeRatings None = []
   /\ Insights.detectContradictions None = []
   /\ Insights.analyzeByProduct None = []
   /\ Insights.identifyQuickWins None = [])
  /\
  (forall (p : Insights.Props) (st : Insights.State),
      Insights.isGenerating st = false ->
      Insights.onRefresh p = None
      \/ Insights.onRefresh p = Some (Insights.Resolved None) ->
      Insights.sentimentData p = None \/ Insights.themeData p = None
      \/ Insights.allFeedback p = None ->
      Insights.handleGenerateInsights p st
      = {| Insights.insights := Insights.insights st;
           Insights.showInsights := Insights.showInsights st;
           Insights.isGenerating := false;
           Insights.error := Some insufficient |})
  /\
  (forall (p : Insights.Props) (st : Insights.State) (data : Insights.Refreshed),
      Insights.isGenerating st = false ->
      Insights.dataMissing p = true ->
      Insights.onRefresh p = Some (Insights.Resolved (Some data)) ->
      Insights.r_sentiment data = None \/ Insights.r_themes data = None
      \/ Insights.r_feedback data = None ->
      Insights.handleGenerateInsights p st
      = {| Insights.insights := Insights.insights st;
           Insights.showInsights := Insights.showInsights st;
           Insights.isGenerating := false;
           Insights.error := Some insufficient |})
  /\
  (forall s t a, s = None \/ t = None ->
                 InsightUtils.generateInsights s t a = InsightUtils.Returns [])
  /\
  (forall s t,
      InsightUtils.generateInsights (Some s) (Some t) InsightUtils.Undefined
      = InsightUtils.generateInsights (Some s) (Some t) (InsightUtils.Given [])).
Proof.
  split; [|split; [|split; [|split]]].
  - repeat split; try reflexivity.
    intros [t|]; reflexivity.
  - intros p st Hg Hr Hm. unfold Insights.handleGenerateInsights.
    rewrite Hg.
    assert (E : Insights.generate p = inr insufficient).
    { unfold Insights.generate.
      assert (Hd : Insights.dataMissing p = true).
      { unfold Insights.dataMissing.
        destruct Hm as [-> | [-> | ->]]; [reflexivity | |].
        - destruct (Insights.sentimentData p); reflexivity.
        - destruct (Insights.sentimentData p), (Insights.themeData p);
            reflexivity. }
      rewrite Hd.
      destruct Hr as [-> | ->];
        destruct Hm as [-> | [-> | ->]];
        try reflexivity;
        destruct (Insights.sentimentData p); try reflexivity;
        destruct (Insights.themeData p); reflexivity. }
    rewrite E. reflexivity.
  - intros p st data Hg Hd Hr Hm. unfold Insights.handleGenerateInsights.
    rewrite Hg.
    assert (E : Insights.generate p = inr insufficient).
    { unfold Insights.generate. rewrite Hd, Hr.
      destruct Hm as [-> | [-> | ->]];
        try reflexivity;
        destruct (Insights.r_sentiment data); try reflexivity;
        destruct (Insights.r_themes data); reflexivity. }
    rewrite E. reflexivity.
  - intros s t a [-> | ->]; [reflexivity|]. destruct s; reflexivity.
  - reflexivity.
Qed.

Lemma C9_missing_inputs_witness :
  Insights.handleGenerateInsights noSentimentProps freshState
  = {| Insights.insights := [];
       Insights.showInsights := false;
       Insights.isGenerating := false;
       Insights.error := Some insufficient |}
  /\ InsightUtils.generateInsights None (Some [("Other", 2%Q)])
       InsightUtils.Null = InsightUtils.Returns [].
Proof.
  split.
  - apply (proj1 (proj2 C9_missing_inputs) noSentimentProps freshState).
    + reflexivity.
    + left. reflexivity.
    + left. reflexivity.
  - apply (proj1 (proj2 (proj2 (proj2 C9_missing_inputs)))).
    left. reflexivity.
Defined.

(* ================================================================== *)
(** * Properties of the weighted aggregates *)

Open Scope R_scope.

(** ** Objects *)

Lemma get_set_eq {V} (o : JSObject.obj V) k v :
  JSObject.get (JSObject.set o k v) k = Some v.
Proof.
  induction o as [|[k' v'] o IH]; cbn.
  - rewrite String.eqb_refl. reflexivity.
  - destruct (String.eqb k' k) eqn:E; cbn.
    + rewrite String.eqb_refl. reflexivity.
    + rewrite E. exact IH.
Qed.

Lemma get_set_ne {V} (o : JSObject.obj V) k k' v :
  k <> k' -> JSObject.get (JSObject.set o k v) k' = JSObject.get o k'.
Proof.
  intros Hne. induction o as [|[k0 v0] o IH]; cbn.
  - apply String.eqb_neq in Hne. rewrite Hne. reflexivity.
  - destruct (String.eqb k0 k) eqn:E; cbn.
    + apply String.eqb_eq in E. subst k0.
      apply String.eqb_neq in Hne. rewrite Hne. reflexivity.
    + destruct (String.eqb k0 k'); [reflexivity | exact IH].
Qed.

(** ** The duplicates met so far *)

(** The fingerprint of an element of the batch. *)
Definition fingerprintOf (elem : option Aggregates.RawFeedback) : string :=
  Aggregates.fingerprint (Aggregates.textOf (Aggregates.recordOf elem)).

(** How many elements of [seen] have the fingerprint [fp]. *)
Definition countFp (fp : string) (seen : list (option Aggregates.RawFeedback))
  : nat :=
  length (List.filter (fun e => String.eqb (fingerprintOf e) fp) seen).

(** The map of the loop counts, for every fingerprint, the records
    already met. *)
Definition counts (dedupeMap : gmap string nat)
           (seen : list (option Aggregates.RawFeedback)) : Prop :=
  forall fp, default 0%nat (dedupeMap !! fp) = countFp fp seen.

Lemma counts_init : counts ∅ [].
Proof. intros fp. rewrite lookup_empty. reflexivity. Qed.

Lemma countFp_snoc fp seen e :
  countFp fp (seen ++ [e])
  = (countFp fp seen + if String.eqb (fingerprintOf e) fp then 1 else 0)%nat.
Proof.
  unfold countFp. rewrite List.filter_app, List.length_app. cbn.
  destruct (String.eqb (fingerprintOf e) fp); reflexivity.
Qed.

Lemma counts_prevCount m seen r :
  counts m seen ->
  Aggregates.prevCount m r = countFp (fingerprintOf (Some r)) seen.
Proof. intros H. unfold Aggregates.prevCount. apply H. Qed.

Section AggregateFacts.

Variable now : R.
Variable Date_parse : string -> option R.
Variables halfLifeDays minConfidence neutralFactor : R.
Variable phraseLimit : nat.

Local Abbreviation step :=
  (Aggregates.step now Date_parse halfLifeDays minConfidence neutralFactor
                   phraseLimit).
Local Abbreviation loop :=
  (Aggregates.loop now Date_parse halfLifeDays minConfidence neutralFactor
                   phraseLimit).
Local Abbreviation reviewWeight :=
  (Aggregates.reviewWeight now Date_parse halfLifeDays minConfidence).

Lemma counts_step acc seen e :
  counts (Aggregates.dedupeMap acc) seen ->
  counts (Aggregates.dedupeMap (step acc e)) (seen ++ [e]).
Proof.
  intros H fp. cbn [Aggregates.step Aggregates.dedupeMap].
  rewrite countFp_snoc. fold (fingerprintOf e).
  unfold Aggregates.prevCount. fold (fingerprintOf e).
  destruct (String.eqb_spec (fingerprintOf e) fp) as [->|Hne].
  - rewrite lookup_insert_eq. cbn. rewrite H. reflexivity.
  - rewrite lookup_insert_ne by exact Hne. rewrite H. lia.
Qed.

Lemma loop_snoc l e : loop (l ++ [e]) = step (loop l) e.
Proof. unfold Aggregates.loop. apply fold_left_app. Qed.

Lemma counts_fold l : forall acc seen,
  counts (Aggregates.dedupeMap acc) seen ->
  counts (Aggregates.dedupeMap (fold_left step l acc)) (seen ++ l).
Proof.
  induction l as [|e l IH]; intros acc seen H; cbn [fold_left].
  - rewrite app_nil_r. exact H.
  - replace (seen ++ e :: l) with ((seen ++ [e]) ++ l)
      by (rewrite <- app_assoc; reflexivity).
    apply IH, counts_step, H.
Qed.

Lemma counts_loop l : counts (Aggregates.dedupeMap (loop l)) l.
Proof. apply (counts_fold l Aggregates.init []), counts_init. Qed.

(** The weight of an element of the batch that comes after [seen]. *)
Definition weightAt (seen : list (option Aggregates.RawFeedback))
           (elem : option Aggregates.RawFeedback) : R :=
  reviewWeight (Aggregates.recordOf elem) (countFp (fingerprintOf elem) seen).

(** The sum of [f r w] over the records [r] of [rest], each with its
    weight [w]; [seen] is the part of the batch before [rest]. *)
Fixpoint sumFrom (f : Aggregates.RawFeedback -> R -> R)
         (seen rest : list (option Aggregates.RawFeedback)) : R :=
  match rest with
  | [] => 0
  | e :: rest' =>
      f (Aggregates.recordOf e) (weightAt seen e)
      + sumFrom f (seen ++ [e]) rest'
  end.

Lemma step_weight acc seen e :
  counts (Aggregates.dedupeMap acc) seen ->
  reviewWeight (Aggregates.recordOf e)
               (Aggregates.prevCount (Aggregates.dedupeMap acc)
                                     (Aggregates.recordOf e))
  = weightAt seen e.
Proof.
  intros H. unfold weightAt. f_equal. apply H.
Qed.

Lemma fold_sums rest : forall acc seen,
  counts (Aggregates.dedupeMap acc) seen ->
  Aggregates.rawPos (fold_left step rest acc)
  = Aggregates.rawPos acc + sumFrom Aggregates.posContrib seen rest
  /\ Aggregates.rawNeg (fold_left step rest acc)
     = Aggregates.rawNeg acc + sumFrom Aggregates.negContrib seen rest
  /\ Aggregates.rawNeu (fold_left step rest acc)
     = Aggregates.rawNeu acc
       + sumFrom (Aggregates.neuContrib neutralFactor) seen rest
  /\ Aggregates.totalEff (fold_left step rest acc)
     = Aggregates.totalEff acc + sumFrom (fun _ w => w) seen rest.
Proof.
  induction rest as [|e rest IH]; intros acc seen H; cbn [fold_left sumFrom].
  - repeat split; lra.
  - destruct (IH (step acc e) (seen ++ [e]) (counts_step acc seen e H))
      as (Hp & Hn & Hu & Ht).
    rewrite Hp, Hn, Hu, Ht.
    cbn [Aggregates.step Aggregates.rawPos Aggregates.rawNeg
         Aggregates.rawNeu Aggregates.totalEff].
    rewrite (step_weight acc seen e H).
    repeat split; lra.
Qed.

Lemma loop_sums batch :
  Aggregates.rawPos (loop batch) = sumFrom Aggregates.posContrib [] batch
  /\ Aggregates.rawNeg (loop batch) = sumFrom Aggregates.negContrib [] batch
  /\ Aggregates.rawNeu (loop batch)
     = sumFrom (Aggregates.neuContrib neutralFactor) [] batch
  /\ Aggregates.totalEff (loop batch) = sumFrom (fun _ w => w) [] batch.
Proof.
  destruct (fold_sums batch Aggregates.init [] counts_init)
    as (Hp & Hn & Hu & Ht).
  unfold Aggregates.loop. rewrite Hp, Hn, Hu, Ht. cbn.
  repeat split; lra.
Qed.

Lemma dedupeFactor_0 : Aggregates.dedupeFactor 0 = 1.
Proof.
  unfold Aggregates.dedupeFactor. cbn [Nat.add INR].
  rewrite sqrt_1. lra.
Qed.

(** C2.  Within one batch, the record at position [i] is met after [k]
    records with its fingerprint, [k] being counted among the [i]
    records before it; its dedupe factor is [1 / sqrt (k + 1)], and this
    is the factor that enters the weight the loop adds for it.  In
    particular three records with one fingerprint, in a row from the
    start, get the factors 1, 1/sqrt 2 and 1/sqrt 3 in that order. *)
Theorem C2_dedupe_factor (batch : list (option Aggregates.RawFeedback))
        (i : nat) (elem : option Aggregates.RawFeedback) :
  batch !! i = Some elem ->
  let r := Aggregates.recordOf elem in
  let k := countFp (fingerprintOf elem) (take i batch) in
  Aggregates.prevCount (Aggregates.dedupeMap (loop (take i batch))) r = k
  /\ Aggregates.dedupeFactor k = 1 / sqrt (INR k + 1)
  /\ Aggregates.totalEff (loop (take (S i) batch))
     = Aggregates.totalEff (loop (take i batch))
       + Rmax (Aggregates.c_raw r) minConfidence
         * Aggregates.timeWeight halfLifeDays
             (Aggregates.daysSince now Date_parse (Aggregates.created_at r))
         * (1 / sqrt (INR k + 1))
  /\ (i = 2%nat ->
      (forall e, List.In e (take i batch) -> fingerprintOf e = fingerprintOf elem) ->
      List.map (fun j => Aggregates.dedupeFactor
                           (countFp (fingerprintOf elem) (take j batch)))
               [0; 1; 2]%nat
      = [1; 1 / sqrt 2; 1 / sqrt 3]).
Proof.
  intros Hi r k.
  assert (Hk : Aggregates.prevCount
                 (Aggregates.dedupeMap (loop (take i batch))) r = k).
  { apply (counts_loop). }
  assert (Hf : Aggregates.dedupeFactor k = 1 / sqrt (INR k + 1)).
  { unfold Aggregates.dedupeFactor. rewrite Nat.add_1_r, S_INR. reflexivity. }
  repeat split.
  - exact Hk.
  - exact Hf.
  - rewrite (take_S_r _ _ _ Hi), loop_snoc.
    cbn [Aggregates.step Aggregates.totalEff].
    fold r. rewrite Hk. unfold Aggregates.reviewWeight. rewrite Hf.
    reflexivity.
  - intros -> Hsame.
    destruct batch as [|e0 [|e1 [|e2 rest]]]; try discriminate Hi.
    cbn in Hi. injection Hi as ->.
    cbn [take] in Hsame.
    assert (H0 : fingerprintOf e0 = fingerprintOf elem)
      by (apply Hsame; left; reflexivity).
    assert (H1 : fingerprintOf e1 = fingerprintOf elem)
      by (apply Hsame; right; left; reflexivity).
    cbn [List.map take]. unfold countFp. cbn [List.filter].
    rewrite H0, H1, String.eqb_refl. cbn [length].
    rewrite dedupeFactor_0. unfold Aggregates.dedupeFactor.
    cbn [Nat.add]. repeat f_equal; cbn [INR]; lra.
Qed.

Lemma timeWeight_half_life :
  halfLifeDays <> 0 -> Aggregates.timeWeight halfLifeDays halfLifeDays = / 2.
Proof.
  intros Hne. unfold Aggregates.timeWeight.
  replace (- ln 2 * halfLifeDays / halfLifeDays) with (- ln 2)
    by (field; exact Hne).
  rewrite exp_Ropp, exp_ln by lra. reflexivity.
Qed.

(** C3.  For a record whose sentiment carries a numeric confidence [c],
    the weight that the loop adds to the effective total is
    [max c minConfidence * exp (- ln 2 * age / halfLifeDays) * dedupe],
    where [age] is the age in days read from [created_at]: 9999 when the
    field is missing, empty or cannot be parsed, and the distance to now
    otherwise.  When the half-life is not zero, a record aged exactly one
    half-life has time weight 0.5, within 1e-6. *)
Theorem C3_review_weight (acc : Aggregates.Acc) (r : Aggregates.RawFeedback)
        (s : Aggregates.RawSentiment) (c : R) :
  Aggregates.sentiment r = Some s ->
  Aggregates.confidence s = Some c ->
  let age := Aggregates.daysSince now Date_parse (Aggregates.created_at r) in
  let prev := Aggregates.prevCount (Aggregates.dedupeMap acc) r in
  let w := Rmax c minConfidence * exp (- ln 2 * age / halfLifeDays)
           * Aggregates.dedupeFactor prev in
  reviewWeight r prev = w
  /\ Aggregates.totalEff (step acc (Some r)) = Aggregates.totalEff acc + w
  /\ (Aggregates.created_at r = None -> age = 9999)
  /\ (Aggregates.created_at r = Some EmptyString -> age = 9999)
  /\ (forall iso, Aggregates.created_at r = Some iso ->
                  Date_parse iso = None -> age = 9999)
  /\ (forall iso t, Aggregates.created_at r = Some iso ->
                    iso <> EmptyString -> Date_parse iso = Some t ->
                    age = (now - t) / (1000 * 3600 * 24))
  /\ (halfLifeDays <> 0 -> age = halfLifeDays ->
      Rabs (Aggregates.timeWeight halfLifeDays age - 0.5) < 1e-6).
Proof.
  intros Hs Hc age prev w.
  assert (Hw : reviewWeight r prev = w).
  { unfold Aggregates.reviewWeight, Aggregates.c_raw, Aggregates.timeWeight.
    rewrite Hs, Hc. reflexivity. }
  repeat split.
  - exact Hw.
  - cbn [Aggregates.step Aggregates.totalEff Aggregates.recordOf].
    fold prev. rewrite Hw. reflexivity.
  - intros E. unfold age. rewrite E. reflexivity.
  - intros E. unfold age. rewrite E. reflexivity.
  - intros iso E Hp. unfold age, Aggregates.daysSince. rewrite E, Hp.
    destruct (String.eqb iso EmptyString); reflexivity.
  - intros iso t E Hne Hp. unfold age, Aggregates.daysSince.
    rewrite E, Hp. apply String.eqb_neq in Hne. rewrite Hne. reflexivity.
  - intros Hne ->. rewrite (timeWeight_half_life Hne).
    replace (/ 2 - 0.5) with 0 by lra. rewrite Rabs_R0. lra.
Qed.

(** The record [r] with its rating replaced by the number 3. *)
Definition withRating3 (r : Aggregates.RawFeedback) : Aggregates.RawFeedback :=
  {| Aggregates.rating := Some 3;
     Aggregates.sentiment := Aggregates.sentiment r;
     Aggregates.themes := Aggregates.themes r;
     Aggregates.review_text := Aggregates.review_text r;
     Aggregates.created_at := Aggregates.created_at r |}.

(** C10.  A record whose rating is not a number is processed as the same
    record with rating 3: its polarity is 0, it adds nothing to the
    positive and negative totals, its weight times the neutral factor to
    the neutral total, and its whole weight to the effective total. *)
Theorem C10_rating_not_a_number (acc : Aggregates.Acc)
        (r : Aggregates.RawFeedback) :
  Aggregates.rating r = None ->
  let w := reviewWeight r (Aggregates.prevCount (Aggregates.dedupeMap acc) r) in
  Aggregates.s_rating r = 0
  /\ step acc (Some r) = step acc (Some (withRating3 r))
  /\ Aggregates.rawPos (step acc (Some r)) = Aggregates.rawPos acc
  /\ Aggregates.rawNeg (step acc (Some r)) = Aggregates.rawNeg acc
  /\ Aggregates.rawNeu (step acc (Some r))
     = Aggregates.rawNeu acc + w * neutralFactor
  /\ Aggregates.totalEff (step acc (Some r)) = Aggregates.totalEff acc + w.
Proof.
  intros Hr w.
  assert (Hs : Aggregates.s_rating r = 0).
  { unfold Aggregates.s_rating, Aggregates.ratingOf. rewrite Hr. lra. }
  repeat split.
  - exact Hs.
  - destruct r as [rt se th tx cr]. cbn in Hr. subst rt. reflexivity.
  - cbn [Aggregates.step Aggregates.rawPos Aggregates.recordOf].
    unfold Aggregates.posContrib. rewrite Hs.
    rewrite Rmax_left by lra. lra.
  - cbn [Aggregates.step Aggregates.rawNeg Aggregates.recordOf].
    unfold Aggregates.negContrib. rewrite Hs, Ropp_0.
    rewrite Rmax_left by lra. lra.
  - cbn [Aggregates.step Aggregates.rawNeu Aggregates.recordOf].
    unfold Aggregates.neuContrib. rewrite Hs, Rabs_R0. fold w. lra.
Qed.

(** ** Theme attribution *)

(** The weighted count of a theme, 0 for a theme not met yet. *)
Definition weightedCountOf (tm : JSObject.obj Aggregates.ThemeEntry)
           (name : string) : R :=
  match JSObject.get tm name with
  | Some e => Aggregates.weightedCount e
  | None => 0
  end.

(** The weighted counts of all the themes, added up. *)
Definition totalWeighted (tm : JSObject.obj Aggregates.ThemeEntry) : R :=
  fold_right (fun e s => Aggregates.weightedCount (snd e) + s) 0 tm.

(** How many labels of [ts] stand for the theme [name]. *)
Definition occurrences (name : string) (ts : list (option string)) : nat :=
  length (List.filter (fun t => String.eqb (Aggregates.themeName t) name) ts).

(** How many labels of [ts] have a name that is not inherited. *)
Definition ownLabels (ts : list (option string)) : nat :=
  length (List.filter
            (fun t => negb (JSObject.inherited (Aggregates.themeName t))) ts).

Lemma addTheme_count r w tm t name :
  weightedCountOf (Aggregates.addTheme phraseLimit r w tm t) name
  = weightedCountOf tm name
    + (if String.eqb (Aggregates.themeName t) name
          && negb (JSObject.inherited name)
       then w else 0).
Proof.
  unfold Aggregates.addTheme, weightedCountOf.
  destruct (String.eqb_spec (Aggregates.themeName t) name) as [<-|Hne];
    destruct (JSObject.inherited (Aggregates.themeName t)) eqn:Hin;
    cbn [andb negb]; try lra.
  - rewrite get_set_eq. cbn [Aggregates.weightedCount].
    destruct (JSObject.get tm (Aggregates.themeName t)); cbn; lra.
  - rewrite get_set_ne by exact Hne.
    destruct (JSObject.inherited name); lra.
Qed.

Lemma totalWeighted_set tm k e :
  totalWeighted (JSObject.set tm k e)
  = totalWeighted tm - weightedCountOf tm k + Aggregates.weightedCount e.
Proof.
  unfold weightedCountOf, totalWeighted.
  induction tm as [|[k' e'] tm IH]; cbn.
  - lra.
  - destruct (String.eqb k' k); cbn; [lra|]. rewrite IH. lra.
Qed.

Lemma addTheme_total r w tm t :
  totalWeighted (Aggregates.addTheme phraseLimit r w tm t)
  = totalWeighted tm
    + (if JSObject.inherited (Aggregates.themeName t) then 0 else w).
Proof.
  unfold Aggregates.addTheme.
  destruct (JSObject.inherited (Aggregates.themeName t)); [lra|].
  rewrite totalWeighted_set.
  unfold weightedCountOf. cbn [Aggregates.weightedCount].
  destruct (JSObject.get tm (Aggregates.themeName t)); cbn; lra.
Qed.

Lemma fold_addTheme_count r w name ts : forall tm,
  weightedCountOf (fold_left (Aggregates.addTheme phraseLimit r w) ts tm) name
  = weightedCountOf tm name
    + (if JSObject.inherited name then 0 else INR (occurrences name ts) * w).
Proof.
  unfold occurrences.
  induction ts as [|t ts IH]; intros tm; cbn [fold_left List.filter].
  - destruct (JSObject.inherited name); cbn [length INR]; lra.
  - rewrite IH, addTheme_count.
    destruct (JSObject.inherited name); cbn [negb];
      [rewrite Bool.andb_false_r; lra|].
    rewrite Bool.andb_true_r.
    destruct (String.eqb (Aggregates.themeName t) name).
    + cbn [length]. rewrite S_INR. lra.
    + lra.
Qed.

Lemma fold_addTheme_total r w ts : forall tm,
  totalWeighted (fold_left (Aggregates.addTheme phraseLimit r w) ts tm)
  = totalWeighted tm + INR (ownLabels ts) * w.
Proof.
  unfold ownLabels.
  induction ts as [|t ts IH]; intros tm; cbn [fold_left List.filter].
  - cbn. lra.
  - rewrite IH, addTheme_total.
    destruct (JSObject.inherited (Aggregates.themeName t)); cbn [negb].
    + lra.
    + cbn [length]. rewrite S_INR. lra.
Qed.

Lemma ownLabels_all ts :
  List.Forall (fun t => JSObject.inherited (Aggregates.themeName t) = false) ts ->
  ownLabels ts = length ts.
Proof.
  unfold ownLabels. induction 1 as [|t ts Ht _ IH]; [reflexivity|].
  cbn [List.filter]. rewrite Ht. cbn [negb length]. rewrite IH. reflexivity.
Qed.

Lemma occurrences_absent name ts :
  ~ List.In name (List.map Aggregates.themeName ts) -> occurrences name ts = 0%nat.
Proof.
  unfold occurrences. induction ts as [|t ts IH]; intros H; cbn.
  - reflexivity.
  - destruct (String.eqb_spec (Aggregates.themeName t) name) as [E|_].
    + exfalso. apply H. left. exact E.
    + apply IH. intros Hin. apply H. right. exact Hin.
Qed.

Lemma occurrences_once ts : forall t,
  List.NoDup (List.map Aggregates.themeName ts) -> List.In t ts ->
  occurrences (Aggregates.themeName t) ts = 1%nat.
Proof.
  induction ts as [|a ts IH]; intros t Hnd Hin; [destruct Hin|].
  cbn [List.map] in Hnd. inversion Hnd as [|x l Hnotin Hnd' E]; subst.
  unfold occurrences. cbn [List.filter]. fold (occurrences (Aggregates.themeName t) ts).
  destruct Hin as [->|Hin].
  - rewrite String.eqb_refl. cbn [length].
    fold (occurrences (Aggregates.themeName t) ts).
    rewrite (occurrences_absent _ _ Hnotin). reflexivity.
  - destruct (String.eqb_spec (Aggregates.themeName a) (Aggregates.themeName t))
      as [E|_].
    + exfalso. apply Hnotin. rewrite E. apply in_map. exact Hin.
    + apply IH; assumption.
Qed.

Lemma fold_addTheme_inherited r w name ts : forall tm,
  JSObject.inherited name = true ->
  JSObject.get (fold_left (Aggregates.addTheme phraseLimit r w) ts tm) name
  = JSObject.get tm name.
Proof.
  induction ts as [|t ts IH]; intros tm Hin; [reflexivity|].
  cbn [fold_left]. rewrite IH by exact Hin.
  unfold Aggregates.addTheme.
  destruct (JSObject.inherited (Aggregates.themeName t)) eqn:Ht;
    [reflexivity|].
  apply get_set_ne. intros E. rewrite E in Ht. congruence.
Qed.

(** The inner loop runs to its end exactly when no label throws, and
    then it is the fold of [addTheme]. *)
Lemma themesLoop_fold r w ts : forall tm,
  Aggregates.themesLoop phraseLimit r w ts tm
  = if existsb (Aggregates.throwsAt r) ts then Aggregates.TypeError
    else Aggregates.Returns
           (fold_left (Aggregates.addTheme phraseLimit r w) ts tm).
Proof.
  induction ts as [|t ts IH]; intros tm; cbn [Aggregates.themesLoop existsb
                                               fold_left]; [reflexivity|].
  destruct (Aggregates.throwsAt r t); cbn [orb]; [reflexivity | apply IH].
Qed.

Lemma stepOutcome_step acc elem :
  Aggregates.stepOutcome now Date_parse halfLifeDays minConfidence
    neutralFactor phraseLimit acc elem
  = if existsb (Aggregates.throwsAt (Aggregates.recordOf elem))
               (Aggregates.themesOf (Aggregates.recordOf elem))
    then Aggregates.TypeError
    else Aggregates.Returns (step acc elem).
Proof.
  unfold Aggregates.stepOutcome. rewrite themesLoop_fold.
  destruct (existsb _ _); reflexivity.
Qed.

Lemma throwsAt_own r t :
  JSObject.inherited (Aggregates.themeName t) = false ->
  Aggregates.throwsAt r t = false.
Proof. intros H. unfold Aggregates.throwsAt. rewrite H. reflexivity. Qed.

Lemma existsb_throwsAt_own r ts :
  List.Forall (fun t => JSObject.inherited (Aggregates.themeName t) = false) ts ->
  existsb (Aggregates.throwsAt r) ts = false.
Proof.
  induction 1 as [|t ts Ht _ IH]; [reflexivity|].
  cbn [existsb]. rewrite (throwsAt_own r t Ht), IH. reflexivity.
Qed.

Lemma occurrences_inherited name ts :
  List.Forall
    (fun t => JSObject.inherited (Aggregates.themeName t) = false) ts ->
  JSObject.inherited name = true ->
  occurrences name ts = 0%nat.
Proof.
  intros Hown Hin. apply occurrences_absent. intros H.
  apply in_map_iff in H as (t & <- & Ht).
  rewrite (proj1 (List.Forall_forall _ _) Hown t Ht) in Hin. discriminate Hin.
Qed.

(** C6.  A record with a non-empty list of [n] theme labels and weight
    [w].  When no label has a name inherited from [Object.prototype] the
    loop does what the claim says: the iteration runs to its end and
    adds [w / n] to the weighted count of a theme for each label that
    stands for it, so that labels standing for distinct themes get
    exactly [w / n] each and the weighted counts of all the themes
    together grow by the whole weight [w].

    With a label whose name is inherited, such as [constructor], the
    code breaks the claim.  If the iteration runs to its end, the theme
    of that label has got no entry and no credit, and the increments of
    the record add up to [w / n] times the number of the other labels
    only.  And the iteration does not run to its end, but throws a
    TypeError, when the record is rated low enough for its text to be
    kept ([s_final < -0.1], a rating below 2.8) and has a text. *)
Theorem C6_theme_attribution (acc : Aggregates.Acc)
        (r : Aggregates.RawFeedback) (ts : list (option string)) :
  Aggregates.themes r = Some ts ->
  ts <> [] ->
  let w := reviewWeight r (Aggregates.prevCount (Aggregates.dedupeMap acc) r) in
  let n := INR (length ts) in
  let before := Aggregates.themeMap acc in
  let run := Aggregates.stepOutcome now Date_parse halfLifeDays minConfidence
               neutralFactor phraseLimit acc (Some r) in
  (List.Forall
     (fun t => JSObject.inherited (Aggregates.themeName t) = false) ts ->
   exists acc',
     run = Aggregates.Returns acc'
     /\ (forall name,
            weightedCountOf (Aggregates.themeMap acc') name
            = weightedCountOf before name
              + INR (occurrences name ts) * (w / n))
     /\ (List.NoDup (List.map Aggregates.themeName ts) ->
         forall t, List.In t ts ->
                   weightedCountOf (Aggregates.themeMap acc')
                                   (Aggregates.themeName t)
                   = weightedCountOf before (Aggregates.themeName t) + w / n)
     /\ totalWeighted (Aggregates.themeMap acc') = totalWeighted before + w)
  /\ (forall acc',
         run = Aggregates.Returns acc' ->
         (forall name,
             JSObject.inherited name = true ->
             JSObject.get (Aggregates.themeMap acc') name
             = JSObject.get before name)
         /\ (forall name,
                JSObject.inherited name = false ->
                weightedCountOf (Aggregates.themeMap acc') name
                = weightedCountOf before name
                  + INR (occurrences name ts) * (w / n))
         /\ totalWeighted (Aggregates.themeMap acc')
            = totalWeighted before + INR (ownLabels ts) * (w / n))
  /\ (Aggregates.s_rating r < -0.1 ->
      (exists txt, Aggregates.review_text r = Some txt /\ txt <> EmptyString) ->
      (exists t, List.In t ts
                 /\ JSObject.inherited (Aggregates.themeName t) = true) ->
      run = Aggregates.TypeError).
Proof.
  intros Hth Hne w n before run.
  assert (Hts : Aggregates.themesOf r = ts).
  { unfold Aggregates.themesOf. rewrite Hth. destruct ts; congruence. }
  assert (Hn : n <> 0).
  { unfold n. destruct ts; [congruence|].
    cbn [length]. apply not_0_INR. discriminate. }
  set (after := Aggregates.themeMap (step acc (Some r))).
  assert (Hafter : after
                   = fold_left (Aggregates.addTheme phraseLimit r (w * (1 / n)))
                               ts before).
  { unfold after. cbn [Aggregates.step Aggregates.themeMap Aggregates.recordOf].
    rewrite Hts. reflexivity. }
  assert (Hcount : forall name,
             JSObject.inherited name = false ->
             weightedCountOf after name
             = weightedCountOf before name
               + INR (occurrences name ts) * (w / n)).
  { intros name Hown. rewrite Hafter, fold_addTheme_count, Hown.
    unfold Rdiv. lra. }
  assert (Hsame : forall name,
             JSObject.inherited name = true ->
             JSObject.get after name = JSObject.get before name).
  { intros name Hin. rewrite Hafter. apply fold_addTheme_inherited, Hin. }
  assert (Htotal : totalWeighted after
                   = totalWeighted before + INR (ownLabels ts) * (w / n)).
  { rewrite Hafter, fold_addTheme_total. unfold Rdiv. lra. }
  assert (Hrun : run = if existsb (Aggregates.throwsAt r) ts
                       then Aggregates.TypeError
                       else Aggregates.Returns (step acc (Some r))).
  { unfold run. rewrite stepOutcome_step. cbn [Aggregates.recordOf].
    rewrite Hts. reflexivity. }
  split; [|split].
  - intros Hown. exists (step acc (Some r)). fold after.
    split; [|split; [|split]].
    + rewrite Hrun, (existsb_throwsAt_own r ts Hown). reflexivity.
    + intros name. destruct (JSObject.inherited name) eqn:Hin.
      * rewrite (occurrences_inherited name ts Hown Hin).
        unfold weightedCountOf. rewrite (Hsame name Hin). cbn [INR]. lra.
      * apply Hcount, Hin.
    + intros Hnd t Hin.
      rewrite Hcount, (occurrences_once ts t Hnd Hin).
      * cbn [INR]. lra.
      * apply (proj1 (List.Forall_forall _ _) Hown t Hin).
    + rewrite Htotal, (ownLabels_all ts Hown). fold n. field. exact Hn.
  - intros acc' Hacc'. rewrite Hrun in Hacc'.
    destruct (existsb (Aggregates.throwsAt r) ts); [discriminate Hacc'|].
    injection Hacc' as <-. fold after.
    split; [exact Hsame|]. split; [exact Hcount | exact Htotal].
  - intros Hlow (txt & Htxt & Hne') (t & Hin & Ht).
    rewrite Hrun.
    assert (E : existsb (Aggregates.throwsAt r) ts = true).
    { apply existsb_exists. exists t. split; [exact Hin|].
      unfold Aggregates.throwsAt. rewrite Ht, Htxt.
      destruct (Rlt_dec (Aggregates.s_rating r) (-0.1)); [|contradiction].
      apply String.eqb_neq in Hne'. rewrite Hne'. reflexivity. }
    rewrite E. reflexivity.
Qed.

End AggregateFacts.

(** ** Rounding *)

Lemma floor_bounds (x : R) :
  IZR (Aggregates.floor x) <= x < IZR (Aggregates.floor x) + 1.
Proof.
  unfold Aggregates.floor. rewrite minus_IZR.
  destruct (archimed x) as [H1 H2]. lra.
Qed.

Lemma floor_unique (x : R) (n : Z) :
  IZR n <= x < IZR n + 1 -> Aggregates.floor x = n.
Proof.
  intros [H1 H2]. unfold Aggregates.floor.
  rewrite <- (up_tech x n H1); [lia|]. rewrite plus_IZR. exact H2.
Qed.

(** [toFixed d] moves a number by at most half a unit of its last
    decimal. *)
Lemma toFixed_close (d : nat) (x : R) :
  Rabs (Aggregates.toFixed d x - x) <= / 2 / 10 ^ d.
Proof.
  assert (Hp : 0 < 10 ^ d) by (apply pow_lt; lra).
  assert (Hi : 0 < / 10 ^ d) by (apply Rinv_0_lt_compat, Hp).
  unfold Aggregates.toFixed.
  destruct (Rlt_dec x 0) as [Hneg|Hpos].
  - destruct (floor_bounds (- x * 10 ^ d + / 2)) as [H1 H2].
    set (F := IZR (Aggregates.floor (- x * 10 ^ d + / 2))) in *.
    replace (- (F / 10 ^ d) - x) with ((- x * 10 ^ d - F) * / 10 ^ d)
      by (field; lra).
    rewrite Rabs_mult, (Rabs_pos_eq (/ 10 ^ d)) by lra.
    unfold Rdiv. apply Rmult_le_compat_r; [lra|].
    apply Rabs_le. lra.
  - destruct (floor_bounds (x * 10 ^ d + / 2)) as [H1 H2].
    set (F := IZR (Aggregates.floor (x * 10 ^ d + / 2))) in *.
    replace (F / 10 ^ d - x) with ((F - x * 10 ^ d) * / 10 ^ d)
      by (field; lra).
    rewrite Rabs_mult, (Rabs_pos_eq (/ 10 ^ d)) by lra.
    unfold Rdiv. apply Rmult_le_compat_r; [lra|].
    apply Rabs_le. lra.
Qed.

(** ** The result of the whole function *)

(** The options with the defaults in. *)
Definition halfLifeOf (opts : Aggregates.Options) : R :=
  default 30 (Aggregates.opt_halfLifeDays opts).
Definition minConfidenceOf (opts : Aggregates.Options) : R :=
  default 0.2 (Aggregates.opt_minConfidence opts).
Definition neutralFactorOf (opts : Aggregates.Options) : R :=
  default 0.5 (Aggregates.opt_neutralFactor opts).
Definition phraseLimitOf (opts : Aggregates.Options) : nat :=
  default 200%nat (Aggregates.opt_phraseLimit opts).

(** The state of the loop at its end. *)
Definition finalAcc (now : R) (Date_parse : string -> option R)
           (batch : list (option Aggregates.RawFeedback))
           (opts : Aggregates.Options) : Aggregates.Acc :=
  Aggregates.loop now Date_parse (halfLifeOf opts) (minConfidenceOf opts)
                  (neutralFactorOf opts) (phraseLimitOf opts) batch.

(** The effective total: the review weights of all the records, added
    up. *)
Definition effectiveTotal (now : R) (Date_parse : string -> option R)
           (batch : list (option Aggregates.RawFeedback))
           (opts : Aggregates.Options) : R :=
  sumFrom now Date_parse (halfLifeOf opts) (minConfidenceOf opts)
          (fun _ w => w) [] batch.

(** C5.  The flag [insufficientData] is true exactly when the effective
    total, the sum of the review weights of all the records, is below 5;
    at exactly 5 it is false. *)
Theorem C5_insufficient_data (now : R) (Date_parse : string -> option R)
        (batch : list (option Aggregates.RawFeedback))
        (opts : Aggregates.Options) :
  Aggregates.totalEff (finalAcc now Date_parse batch opts)
  = effectiveTotal now Date_parse batch opts
  /\ (Aggregates.insufficientData
        (Aggregates.computeAdjustedAggregates now Date_parse batch opts) = true
      <-> effectiveTotal now Date_parse batch opts < 5)
  /\ (effectiveTotal now Date_parse batch opts = 5 ->
      Aggregates.insufficientData
        (Aggregates.computeAdjustedAggregates now Date_parse batch opts)
      = false).
Proof.
  assert (E : Aggregates.totalEff (finalAcc now Date_parse batch opts)
              = effectiveTotal now Date_parse batch opts).
  { apply loop_sums. }
  unfold Aggregates.computeAdjustedAggregates.
  cbn [Aggregates.finish Aggregates.insufficientData].
  fold (halfLifeOf opts) (minConfidenceOf opts) (neutralFactorOf opts)
       (phraseLimitOf opts).
  fold (finalAcc now Date_parse batch opts). rewrite E.
  split; [reflexivity|].
  destruct (Rlt_dec (effectiveTotal now Date_parse batch opts) 5) as [H|H].
  - split; [tauto|]. intros E5. lra.
  - split; [|reflexivity]. split; [discriminate | contradiction].
Qed.

(** ** A sample clock and sample records *)

(** Now is thirty days after the epoch. *)
Definition sampleNow : R := 2592000000.

(** A parser that knows two time stamps: the epoch and now. *)
Definition sampleParse (iso : string) : option R :=
  if String.eqb iso "1970-01-31T00:00:00Z" then Some 2592000000
  else if String.eqb iso "1970-01-01T00:00:00Z" then Some 0
  else None.

Definition defaults : Aggregates.Options :=
  {| Aggregates.opt_halfLifeDays := None;
     Aggregates.opt_minConfidence := None;
     Aggregates.opt_neutralFactor := None;
     Aggregates.opt_phraseLimit := None |}.

(** A record written now, with full confidence. *)
Definition fresh (stars : option R) (text : string)
           (labels : list (option string)) : Aggregates.RawFeedback :=
  {| Aggregates.rating := stars;
     Aggregates.sentiment := Some {| Aggregates.confidence := Some 1 |};
     Aggregates.themes := Some labels;
     Aggregates.review_text := Some text;
     Aggregates.created_at := Some "1970-01-31T00:00:00Z" |}.

(** A record written thirty days ago. *)
Definition monthOld : Aggregates.RawFeedback :=
  {| Aggregates.rating := Some 4;
     Aggregates.sentiment := Some {| Aggregates.confidence := Some 0.8 |};
     Aggregates.themes := Some [Some "Comfort"];
     Aggregates.review_text := Some "Light and easy to wear";
     Aggregates.created_at := Some "1970-01-01T00:00:00Z" |}.

Lemma fresh_weight (stars : option R) (text : string)
      (labels : list (option string)) :
  Aggregates.reviewWeight sampleNow sampleParse 30 0.2
                          (fresh stars text labels) 0 = 1.
Proof.
  unfold Aggregates.reviewWeight, Aggregates.timeWeight.
  rewrite dedupeFactor_0.
  change (Aggregates.c_raw (fresh stars text labels)) with 1.
  change (Aggregates.daysSince sampleNow sampleParse
            (Aggregates.created_at (fresh stars text labels)))
    with ((2592000000 - 2592000000) / (1000 * 3600 * 24)).
  replace (- ln 2 * ((2592000000 - 2592000000) / (1000 * 3600 * 24)) / 30)
    with 0 by lra.
  rewrite exp_0, Rmax_left by lra. lra.
Qed.

(** ** The reported percentages *)

Definition lovedIt : Aggregates.RawFeedback :=
  fresh (Some 5) "Love it" [Some "Appearance"].

Lemma lovedIt_totals :
  let acc := finalAcc sampleNow sampleParse [Some lovedIt] defaults in
  Aggregates.rawPos acc = 1 /\ Aggregates.rawNeg acc = 0
  /\ Aggregates.rawNeu acc = 0.
Proof.
  destruct (loop_sums sampleNow sampleParse 30 0.2 0.5 200%nat [Some lovedIt])
    as (Hp & Hn & Hu & _).
  unfold finalAcc.
  change (halfLifeOf defaults) with 30.
  change (minConfidenceOf defaults) with 0.2.
  change (neutralFactorOf defaults) with 0.5.
  change (phraseLimitOf defaults) with 200%nat.
  cbv zeta. rewrite Hp, Hn, Hu.
  cbn [sumFrom]. unfold weightAt.
  change (countFp (fingerprintOf (Some lovedIt)) []) with 0%nat.
  change (Aggregates.recordOf (Some lovedIt)) with lovedIt.
  unfold lovedIt. rewrite fresh_weight.
  unfold Aggregates.posContrib, Aggregates.negContrib, Aggregates.neuContrib.
  change (Aggregates.s_rating (fresh (Some 5) "Love it" [Some "Appearance"]))
    with ((5 - 3) / 2).
  replace ((5 - 3) / 2) with 1 by lra.
  rewrite (Rmax_right 0 1), (Rmax_left 0 (Ropp 1)), Rabs_R1 by lra.
  repeat split; lra.
Qed.

Lemma toFixed4_almost_one : Aggregates.toFixed 4 (1 / (1 + 0 + 0 + 1e-9)) = 1.
Proof.
  assert (H : 0.99995 < 1 / (1 + 0 + 0 + 1e-9) < 1) by lra.
  unfold Aggregates.toFixed.
  destruct (Rlt_dec (1 / (1 + 0 + 0 + 1e-9)) 0) as [Hneg|_]; [lra|].
  rewrite (floor_unique _ 10000); lra.
Qed.

(** C4, as stated, fails on the last step: for a single five-star record
    of weight 1 the positive contribution is 1 and the sum of the three
    contributions plus the epsilon is 1 + 1e-9, but the percentage that is
    reported is 1, not 1 / (1 + 1e-9). *)
Lemma C4_reported_percentage_counterexample :
  let acc := finalAcc sampleNow sampleParse [Some lovedIt] defaults in
  let out := Aggregates.res_sentiment
               (Aggregates.computeAdjustedAggregates sampleNow sampleParse
                  [Some lovedIt] defaults) in
  Aggregates.positive out = 1
  /\ Aggregates.positive out
     <> Aggregates.rawPos acc
        / (Aggregates.rawPos acc + Aggregates.rawNeg acc
           + Aggregates.rawNeu acc + 1e-9).
Proof.
  intros acc out.
  destruct lovedIt_totals as (Hp & Hn & Hu). fold acc in Hp, Hn, Hu.
  assert (Hout : Aggregates.positive out = 1).
  { unfold out, Aggregates.computeAdjustedAggregates.
    cbn [Aggregates.finish Aggregates.res_sentiment Aggregates.positive].
    fold (halfLifeOf defaults) (minConfidenceOf defaults)
         (neutralFactorOf defaults) (phraseLimitOf defaults).
    fold (finalAcc sampleNow sampleParse [Some lovedIt] defaults). fold acc.
    rewrite Hp, Hn, Hu. unfold Aggregates.tiny. apply toFixed4_almost_one. }
  split; [exact Hout|].
  rewrite Hout, Hp, Hn, Hu. lra.
Qed.

(** C4, amended.  The polarity of a record is [(rating - 3) / 2]; each
    record adds [max 0 polarity * weight] to the positive contribution,
    [max 0 (- polarity) * weight] to the negative one and
    [(1 - |polarity|) * weight * neutralFactor] to the neutral one; each
    percentage is the contribution divided by the sum of the three
    contributions plus 1e-9, and it is reported rounded to four decimals,
    so within 0.00005 of that quotient. *)
Theorem C4_sentiment_percentages (now : R) (Date_parse : string -> option R)
        (batch : list (option Aggregates.RawFeedback))
        (opts : Aggregates.Options) :
  let h := halfLifeOf opts in
  let m := minConfidenceOf opts in
  let nf := neutralFactorOf opts in
  let acc := finalAcc now Date_parse batch opts in
  let out := Aggregates.res_sentiment
               (Aggregates.computeAdjustedAggregates now Date_parse batch opts) in
  let sum := Aggregates.rawPos acc + Aggregates.rawNeg acc
             + Aggregates.rawNeu acc + 1e-9 in
  (forall r x, Aggregates.rating r = Some x ->
               Aggregates.s_rating r = (x - 3) / 2)
  /\ (forall a e,
         let r := Aggregates.recordOf e in
         let p := Aggregates.s_rating r in
         let w := Aggregates.reviewWeight now Date_parse h m r
                    (Aggregates.prevCount (Aggregates.dedupeMap a) r) in
         let a' := Aggregates.step now Date_parse h m nf (phraseLimitOf opts)
                                   a e in
         Aggregates.rawPos a' = Aggregates.rawPos a + Rmax 0 p * w
         /\ Aggregates.rawNeg a' = Aggregates.rawNeg a + Rmax 0 (- p) * w
         /\ Aggregates.rawNeu a' = Aggregates.rawNeu a + (1 - Rabs p) * w * nf)
  /\ (Aggregates.rawPos acc
      = sumFrom now Date_parse h m Aggregates.posContrib [] batch
      /\ Aggregates.rawNeg acc
         = sumFrom now Date_parse h m Aggregates.negContrib [] batch
      /\ Aggregates.rawNeu acc
         = sumFrom now Date_parse h m (Aggregates.neuContrib nf) [] batch)
  /\ (Aggregates.positive out = Aggregates.toFixed 4 (Aggregates.rawPos acc / sum)
      /\ Aggregates.negative out
         = Aggregates.toFixed 4 (Aggregates.rawNeg acc / sum)
      /\ Aggregates.neutral out
         = Aggregates.toFixed 4 (Aggregates.rawNeu acc / sum))
  /\ (Rabs (Aggregates.positive out - Aggregates.rawPos acc / sum) <= 0.00005
      /\ Rabs (Aggregates.negative out - Aggregates.rawNeg acc / sum) <= 0.00005
      /\ Rabs (Aggregates.neutral out - Aggregates.rawNeu acc / sum) <= 0.00005).
Proof.
  intros h m nf acc out sum.
  assert (Hout : Aggregates.positive out
                 = Aggregates.toFixed 4 (Aggregates.rawPos acc / sum)
                 /\ Aggregates.negative out
                    = Aggregates.toFixed 4 (Aggregates.rawNeg acc / sum)
                 /\ Aggregates.neutral out
                    = Aggregates.toFixed 4 (Aggregates.rawNeu acc / sum)).
  { repeat split. }
  assert (Hclose : forall x, Rabs (Aggregates.toFixed 4 x - x) <= 0.00005).
  { intros x. eapply Rle_trans; [apply toFixed_close|]. lra. }
  split; [|split; [|split; [|split]]].
  - intros r x Hr. unfold Aggregates.s_rating, Aggregates.ratingOf.
    rewrite Hr. reflexivity.
  - intros a e. repeat split.
  - destruct (loop_sums now Date_parse h m nf (phraseLimitOf opts) batch)
      as (Hp & Hn & Hu & _).
    repeat split; assumption.
  - exact Hout.
  - destruct Hout as (-> & -> & ->). repeat split; apply Hclose.
Qed.

Lemma C4_sentiment_percentages_witness :
  Aggregates.s_rating lovedIt = (5 - 3) / 2.
Proof.
  apply (proj1 (C4_sentiment_percentages sampleNow sampleParse
                  [Some lovedIt] defaults) lovedIt 5).
  reflexivity.
Defined.

(** ** Instances *)

(** One review, sent three times with small changes of case, spacing
    and punctuation. *)
Definition threeTimes : list (option Aggregates.RawFeedback) :=
  [ Some (fresh (Some 5) "Nice ring!" [Some "Appearance"]);
    Some (fresh (Some 5) "nice   ring" [Some "Appearance"]);
    Some (fresh (Some 4) "NICE RING." [Some "Appearance"]) ].

Lemma C2_dedupe_factor_witness :
  List.map (fun j => Aggregates.dedupeFactor
                       (countFp "nice ring" (take j threeTimes)))
           [0; 1; 2]%nat
  = [1; 1 / sqrt 2; 1 / sqrt 3].
Proof.
  apply (C2_dedupe_factor sampleNow sampleParse 30 0.2 0.5 200%nat
           threeTimes 2
           (Some (fresh (Some 4) "NICE RING." [Some "Appearance"]))).
  - reflexivity.
  - reflexivity.
  - intros e [<-|[<-|[]]]; reflexivity.
Defined.

Lemma C3_review_weight_witness :
  Rabs (Aggregates.timeWeight 30
          (Aggregates.daysSince sampleNow sampleParse
             (Aggregates.created_at monthOld)) - 0.5) < 1e-6.
Proof.
  apply (C3_review_weight sampleNow sampleParse 30 0.2 0.5 200%nat
           Aggregates.init monthOld {| Aggregates.confidence := Some 0.8 |} 0.8).
  - reflexivity.
  - reflexivity.
  - lra.
  - change (Aggregates.daysSince sampleNow sampleParse
              (Aggregates.created_at monthOld))
      with ((2592000000 - 0) / (1000 * 3600 * 24)).
    lra.
Defined.

(** Five different reviews, all written now with full confidence. *)
Definition fiveFresh : list (option Aggregates.RawFeedback) :=
  [ Some (fresh (Some 5) "lovely" [Some "Appearance"]);
    Some (fresh (Some 4) "comfortable" [Some "Comfort"]);
    Some (fresh (Some 3) "fine" [Some "Other"]);
    Some (fresh (Some 2) "scratched" [Some "Durability"]);
    Some (fresh (Some 1) "broke" [Some "Durability"]) ].

Lemma fiveFresh_total :
  effectiveTotal sampleNow sampleParse fiveFresh defaults = 5.
Proof.
  unfold effectiveTotal.
  change (halfLifeOf defaults) with 30.
  change (minConfidenceOf defaults) with 0.2.
  unfold fiveFresh. cbn [sumFrom app]. unfold weightAt.
  repeat match goal with
         | |- context [countFp ?a ?b] =>
             change (countFp a b) with 0%nat
         end.
  cbn [Aggregates.recordOf]. rewrite !fresh_weight. lra.
Qed.

Lemma C5_insufficient_data_witness :
  Aggregates.insufficientData
    (Aggregates.computeAdjustedAggregates sampleNow sampleParse fiveFresh
                                          defaults) = false.
Proof.
  apply (C5_insufficient_data sampleNow sampleParse fiveFresh defaults).
  exact fiveFresh_total.
Defined.

Definition twoThemes : Aggregates.RawFeedback :=
  fresh (Some 2) "heavy and the clasp broke"
        [Some "Comfort"; Some "Durability"].

(** A record whose only theme label is [constructor], rated 5, and the
    same record rated 1. *)
Definition byConstructor (stars : R) : Aggregates.RawFeedback :=
  fresh (Some stars) "the clasp broke" [Some "constructor"].

Lemma ownLabels_constructor : ownLabels [Some "constructor"] = 0%nat.
Proof. vm_compute. reflexivity. Qed.

Lemma byConstructor_runs :
  Aggregates.stepOutcome sampleNow sampleParse 30 0.2 0.5 200%nat
    Aggregates.init (Some (byConstructor 5))
  = Aggregates.Returns
      (Aggregates.step sampleNow sampleParse 30 0.2 0.5 200%nat
                       Aggregates.init (Some (byConstructor 5))).
Proof.
  rewrite stepOutcome_step.
  change (Aggregates.themesOf (Aggregates.recordOf (Some (byConstructor 5))))
    with [Some "constructor"].
  cbn [existsb]. unfold Aggregates.throwsAt.
  destruct (Rlt_dec _ _) as [H|_].
  - exfalso. revert H.
    unfold Aggregates.s_rating, Aggregates.ratingOf, byConstructor, fresh.
    cbn [Aggregates.recordOf Aggregates.rating]. lra.
  - rewrite Bool.andb_false_r. reflexivity.
Qed.

Lemma C6_theme_attribution_witness :
  (exists acc',
      Aggregates.stepOutcome sampleNow sampleParse 30 0.2 0.5 200%nat
        Aggregates.init (Some twoThemes)
      = Aggregates.Returns acc'
      /\ weightedCountOf (Aggregates.themeMap acc') "Durability"
         = weightedCountOf (Aggregates.themeMap Aggregates.init) "Durability"
           + Aggregates.reviewWeight sampleNow sampleParse 30 0.2 twoThemes
               (Aggregates.prevCount (Aggregates.dedupeMap Aggregates.init)
                                     twoThemes)
             / INR 2)
  /\ (exists acc',
         Aggregates.stepOutcome sampleNow sampleParse 30 0.2 0.5 200%nat
           Aggregates.init (Some (byConstructor 5))
         = Aggregates.Returns acc'
         /\ JSObject.get (Aggregates.themeMap acc') "constructor" = None
         /\ totalWeighted (Aggregates.themeMap acc') = 0)
  /\ Aggregates.stepOutcome sampleNow sampleParse 30 0.2 0.5 200%nat
       Aggregates.init (Some (byConstructor 1))
     = Aggregates.TypeError.
Proof.
  split; [|split].
  - destruct (proj1 (C6_theme_attribution sampleNow sampleParse 30
                       0.2 0.5 200%nat Aggregates.init twoThemes
                       [Some "Comfort"; Some "Durability"]
                       eq_refl ltac:(discriminate))
                ltac:(repeat constructor))
      as (acc' & Hrun & _ & Hone & _).
    exists acc'. split; [exact Hrun|].
    apply (Hone ltac:(change (List.NoDup ["Comfort"; "Durability"]);
                      constructor;
                      [ intros [H|[]]; discriminate H
                      | constructor; [intros [] | constructor] ])
                (Some "Durability")).
    right. left. reflexivity.
  - eexists. split; [exact byConstructor_runs|].
    destruct (proj1 (proj2 (C6_theme_attribution sampleNow sampleParse 30
                              0.2 0.5 200%nat Aggregates.init
                              (byConstructor 5) [Some "constructor"]
                              eq_refl ltac:(discriminate)))
                _ byConstructor_runs) as (Hsame & _ & Htot).
    split.
    + apply (Hsame "constructor" eq_refl).
    + rewrite Htot, ownLabels_constructor.
      cbn [INR Aggregates.themeMap Aggregates.init totalWeighted fold_right].
      lra.
  - apply (proj2 (proj2 (C6_theme_attribution sampleNow sampleParse 30 0.2
                           0.5 200%nat Aggregates.init (byConstructor 1)
                           [Some "constructor"]
                           eq_refl ltac:(discriminate)))).
    + unfold Aggregates.s_rating, Aggregates.ratingOf, byConstructor, fresh.
      cbn [Aggregates.rating]. lra.
    + exists "the clasp broke". split; [reflexivity | discriminate].
    + exists (Some "constructor"). split; [left; reflexivity | reflexivity].
Defined.

Definition unrated : Aggregates.RawFeedback :=
  fresh None "no stars given" [Some "Other"].

Lemma C10_rating_not_a_number_witness :
  Aggregates.s_rating unrated = 0
  /\ Aggregates.step sampleNow sampleParse 30 0.2 0.5 200%nat
                     Aggregates.init (Some unrated)
     = Aggregates.step sampleNow sampleParse 30 0.2 0.5 200%nat
                       Aggregates.init (Some (withRating3 unrated)).
Proof.
  destruct (C10_rating_not_a_number sampleNow sampleParse 30 0.2 0.5 200%nat
              Aggregates.init unrated eq_refl) as (H1 & H2 & _).
  split; [exact H1 | exact H2].
Defined.

(* ================================================================== *)
(** * Further properties of the rule engine *)

Close Scope R_scope.

(** ** The order of the insights *)

Definition hasPriority (p : Priority) (i : Insights.Insight) : bool :=
  Priority_eqb (Insights.priority i) p.

(** [x] does not rank below [y]. *)
Definition ranksBefore (x y : Insights.Insight) : Prop :=
  (Insights.priorityScore (Insights.priority y)
   <= Insights.priorityScore (Insights.priority x))%nat.

Lemma Priority_eqb_eq p q : Priority_eqb p q = true <-> p = q.
Proof. destruct p, q; cbn; split; congruence. Qed.

Lemma insertByPriority_perm x l :
  Permutation (Insights.insertByPriority x l) (x :: l).
Proof.
  induction l as [|y l IH]; cbn.
  - reflexivity.
  - destruct (_ <=? _)%nat; [reflexivity|].
    rewrite IH. apply perm_swap.
Qed.

Lemma insertByPriority_sorted x l :
  StronglySorted ranksBefore l ->
  StronglySorted ranksBefore (Insights.insertByPriority x l).
Proof.
  induction 1 as [|y l Hs IH Hall]; cbn.
  - repeat constructor.
  - destruct (Nat.leb_spec (Insights.priorityScore (Insights.priority y))
                           (Insights.priorityScore (Insights.priority x)))
      as [Hle|Hlt].
    + constructor; [constructor; assumption|].
      constructor; [exact Hle|].
      rewrite List.Forall_forall in *. intros z Hz.
      unfold ranksBefore in *. specialize (Hall z Hz). lia.
    + constructor; [exact IH|].
      rewrite List.Forall_forall in *. intros z Hz.
      apply (Permutation_in _ (insertByPriority_perm x l)) in Hz.
      destruct Hz as [<-|Hz]; [unfold ranksBefore; lia | apply Hall, Hz].
Qed.

Lemma insertByPriority_filter p x l :
  List.filter (hasPriority p) (Insights.insertByPriority x l)
  = List.filter (hasPriority p) (x :: l).
Proof.
  induction l as [|y l IH]; [reflexivity|].
  cbn [Insights.insertByPriority].
  destruct (Nat.leb_spec (Insights.priorityScore (Insights.priority y))
                         (Insights.priorityScore (Insights.priority x)))
    as [Hle|Hlt]; [reflexivity|].
  cbn [List.filter] in *. rewrite IH.
  unfold hasPriority.
  destruct (Priority_eqb (Insights.priority y) p) eqn:Ey;
    destruct (Priority_eqb (Insights.priority x) p) eqn:Ex; try reflexivity.
  apply Priority_eqb_eq in Ey, Ex. rewrite Ey, Ex in Hlt. lia.
Qed.

(** The list handed to the panel holds the insights of the rules, each
    once, by decreasing priority (critical, high, medium, low); insights
    of one priority keep the order in which the rules produced them. *)
Theorem sortByPriority_stable_sort (l : list Insights.Insight) :
  Permutation (Insights.sortByPriority l) l
  /\ StronglySorted ranksBefore (Insights.sortByPriority l)
  /\ forall p, List.filter (hasPriority p) (Insights.sortByPriority l)
               = List.filter (hasPriority p) l.
Proof.
  unfold Insights.sortByPriority.
  induction l as [|x l (IHp & IHs & IHf)]; cbn [fold_right].
  - repeat split; constructor.
  - repeat split.
    + rewrite insertByPriority_perm. constructor. exact IHp.
    + apply insertByPriority_sorted, IHs.
    + intros p. rewrite insertByPriority_filter. cbn [List.filter].
      rewrite IHf. reflexivity.
Qed.

(** ** The handler on complete and on empty data *)

Definition withRefresh (p : Insights.Props)
           (r : option Insights.RefreshOutcome) : Insights.Props :=
  {| Insights.sentimentData := Insights.sentimentData p;
     Insights.themeData := Insights.themeData p;
     Insights.allFeedback := Insights.allFeedback p;
     Insights.onRefresh := r |}.

(** When the two aggregates and a non-empty collection are at hand, the
    handler does not wait for a refresh: whatever [onRefresh] would give,
    even a failure, it shows the sorted insights of the six rules on the
    data it has, and clears the error.  While a run is in progress a
    second call leaves the state as it is. *)
Theorem handler_on_complete_data (p : Insights.Props) (st : Insights.State)
        (r : option Insights.RefreshOutcome) :
  Insights.dataMissing p = false ->
  (Insights.isGenerating st = false ->
   Insights.handleGenerateInsights (withRefresh p r) st
   = {| Insights.insights :=
          remainingRules (Insights.sentimentData p) (Insights.themeData p)
                         (Insights.allFeedback p);
        Insights.showInsights := true;
        Insights.isGenerating := false;
        Insights.error := None |})
  /\ (Insights.isGenerating st = true ->
      Insights.handleGenerateInsights (withRefresh p r) st = st).
Proof.
  intros Hd. split; intros Hg; unfold Insights.handleGenerateInsights;
    rewrite Hg; [|reflexivity].
  unfold Insights.generate.
  change (Insights.dataMissing (withRefresh p r)) with (Insights.dataMissing p).
  rewrite Hd. cbn [withRefresh Insights.sentimentData Insights.themeData
                   Insights.allFeedback].
  unfold Insights.dataMissing in Hd.
  destruct (Insights.sentimentData p) as [s|]; [|discriminate Hd].
  destruct (Insights.themeData p) as [t|]; [|discriminate Hd].
  destruct (Insights.allFeedback p) as [f|]; [|discriminate Hd].
  reflexivity.
Qed.

Definition completeProps : Insights.Props :=
  {| Insights.sentimentData := Some sampleSentimentData;
     Insights.themeData := Some [("Durability", 1%Q)];
     Insights.allFeedback := Some [confidentDurability];
     Insights.onRefresh := None |}.

Lemma handler_on_complete_data_witness :
  Insights.error
    (Insights.handleGenerateInsights
       (withRefresh completeProps (Some (Insights.Rejected None))) freshState)
  = None.
Proof.
  rewrite (proj1 (handler_on_complete_data completeProps freshState
                    (Some (Insights.Rejected None)) eq_refl) eq_refl).
  reflexivity.
Defined.

Lemma sortByPriority_short (l : list Insights.Insight) :
  (length l <= 1)%nat -> Insights.sortByPriority l = l.
Proof.
  destruct l as [|x [|y l]]; cbn; intros H; try reflexivity. lia.
Qed.

Lemma analyzeOverallHealth_short s :
  (length (Insights.analyzeOverallHealth s) <= 1)%nat.
Proof.
  unfold Insights.analyzeOverallHealth.
  destruct s as [s|]; [|cbn; lia].
  destruct (negative s), (positive s); try (cbn; lia).
  destruct (Qltb _ _); cbn; lia.
Qed.

(** An empty collection is not an error.  With both aggregates at hand,
    an empty array of records and no refresh to call (or one that gives
    nothing), the run succeeds, and the only insight that can appear is
    the warning of the overall-health rule, which reads the sentiment
    aggregate alone. *)
Theorem handler_on_empty_collection (p : Insights.Props) (st : Insights.State)
        (s : SentimentData) (t : ThemeData) :
  Insights.isGenerating st = false ->
  Insights.sentimentData p = Some s ->
  Insights.themeData p = Some t ->
  Insights.allFeedback p = Some [] ->
  Insights.onRefresh p = None
  \/ Insights.onRefresh p = Some (Insights.Resolved None) ->
  Insights.handleGenerateInsights p st
  = {| Insights.insights := Insights.analyzeOverallHealth (Some s);
       Insights.showInsights := true;
       Insights.isGenerating := false;
       Insights.error := None |}.
Proof.
  intros Hg Hs Ht Hf Hr. unfold Insights.handleGenerateInsights.
  rewrite Hg.
  assert (E : Insights.generate p = inl (Insights.analyzeOverallHealth (Some s))).
  { unfold Insights.generate, Insights.dataMissing.
    rewrite Hs, Ht, Hf. cbn [length Nat.eqb].
    assert (E : Insights.analyzeOverallHealth (Some s)
                ++ Insights.analyzeThemes (Some t) (Some [])
                ++ Insights.analyzeRatings (Some [])
                ++ Insights.detectContradictions (Some [])
                ++ Insights.analyzeByProduct (Some [])
                ++ Insights.identifyQuickWins (Some [])
                = Insights.analyzeOverallHealth (Some s)).
    { cbn. apply app_nil_r. }
    destruct Hr as [-> | ->]; rewrite E;
      rewrite sortByPriority_short by apply analyzeOverallHealth_short;
      reflexivity. }
  rewrite E. reflexivity.
Qed.

Definition emptyCollectionProps : Insights.Props :=
  {| Insights.sentimentData := Some sampleSentimentData;
     Insights.themeData := Some [];
     Insights.allFeedback := Some [];
     Insights.onRefresh := None |}.

Lemma handler_on_empty_collection_witness :
  Insights.handleGenerateInsights emptyCollectionProps freshState
  = {| Insights.insights := [];
       Insights.showInsights := true;
       Insights.isGenerating := false;
       Insights.error := None |}.
Proof.
  apply (handler_on_empty_collection emptyCollectionProps freshState
           sampleSentimentData []); try reflexivity.
  left. reflexivity.
Defined.

(** ** Contradictions *)

Lemma filter_nonempty_existsb {A} (f : A -> bool) (l : list A) :
  (0 <? length (List.filter f l))%nat = existsb f l.
Proof.
  induction l as [|x l IH]; cbn; [reflexivity|].
  destruct (f x); cbn; [reflexivity | exact IH].
Qed.

Definition positiveRatingNegativeText : Insights.Insight :=
  Insights.contradictionInsight
    "Rating/Sentiment Contradiction (Positive Rating, Negative Text)"
    "Read these reviews manually - customers might be sarcastic or mixed.".

Definition negativeRatingPositiveText : Insights.Insight :=
  Insights.contradictionInsight
    "Rating/Sentiment Contradiction (Negative Rating, Positive Text)"
    "Check for delivery/service issues unrelated to product quality.".

(** The contradiction rule gives at most two insights, both of medium
    priority.  The first appears exactly when some record is rated 4 or
    more while its text is labelled Negative with confidence above 0.5;
    the second exactly when some record is rated 2 or less while its
    text is labelled Positive with confidence above 0.5. *)
Theorem detectContradictions_fires (fb : list Feedback) :
  let out := Insights.detectContradictions (Some fb) in
  (length out <= 2)%nat
  /\ (forall i, List.In i out -> Insights.priority i = medium)
  /\ (List.In positiveRatingNegativeText out
      <-> exists f, List.In f fb
                    /\ (4 <= rating f)%Q
                    /\ label (sentiment f) = "Negative"
                    /\ (0.5 < sentiment_confidence (sentiment f))%Q)
  /\ (List.In negativeRatingPositiveText out
      <-> exists f, List.In f fb
                    /\ (rating f <= 2)%Q
                    /\ label (sentiment f) = "Positive"
                    /\ (0.5 < sentiment_confidence (sentiment f))%Q).
Proof.
  cbv zeta. unfold Insights.detectContradictions.
  rewrite !filter_nonempty_existsb.
  fold positiveRatingNegativeText negativeRatingPositiveText.
  assert (Ha : existsb Insights.happyButSad fb = true
               <-> exists f, List.In f fb
                             /\ (4 <= rating f)%Q
                             /\ label (sentiment f) = "Negative"
                             /\ (0.5 < sentiment_confidence (sentiment f))%Q).
  { rewrite existsb_exists. unfold Insights.happyButSad.
    split; intros (f & Hin & H); exists f; (split; [exact Hin|]).
    - apply andb_prop in H as [H H3]. apply andb_prop in H as [H1 H2].
      apply Qleb_le in H1. apply String.eqb_eq in H2. apply Qltb_lt in H3.
      auto.
    - destruct H as (H1 & H2 & H3).
      apply Qleb_le in H1. apply String.eqb_eq in H2. apply Qltb_lt in H3.
      rewrite H1, H2, H3. reflexivity. }
  assert (Hb : existsb Insights.sadButHappy fb = true
               <-> exists f, List.In f fb
                             /\ (rating f <= 2)%Q
                             /\ label (sentiment f) = "Positive"
                             /\ (0.5 < sentiment_confidence (sentiment f))%Q).
  { rewrite existsb_exists. unfold Insights.sadButHappy.
    split; intros (f & Hin & H); exists f; (split; [exact Hin|]).
    - apply andb_prop in H as [H H3]. apply andb_prop in H as [H1 H2].
      apply Qleb_le in H1. apply String.eqb_eq in H2. apply Qltb_lt in H3.
      auto.
    - destruct H as (H1 & H2 & H3).
      apply Qleb_le in H1. apply String.eqb_eq in H2. apply Qltb_lt in H3.
      rewrite H1, H2, H3. reflexivity. }
  rewrite <- Ha, <- Hb.
  destruct (existsb Insights.happyButSad fb),
           (existsb Insights.sadButHappy fb); cbn.
  all: repeat split; try lia; try tauto; try discriminate.
  all: try (intros i Hi; repeat destruct Hi as [<-|Hi]; try reflexivity;
            destruct Hi).
  all: try (intros [H|H]; [discriminate H | destruct H]).
Qed.

(** ** The rollup by product *)

(** The records of one product. *)
Definition recordsOf (pid : string) (fb : list Feedback) : list Feedback :=
  List.filter (fun f => String.eqb (product_id f) pid) fb.

(** The statistics of a group of records: their number, the sum of
    their ratings, and the number of them labelled Negative. *)
Definition statsOf (fs : list Feedback) : Insights.ProductStats :=
  {| Insights.count := length fs;
     Insights.totalRating := sum_ratings fs;
     Insights.negativeCount := countOf labelledNegative fs |}.

Definition noStats : Insights.ProductStats :=
  {| Insights.count := 0; Insights.totalRating := 0%Q;
     Insights.negativeCount := 0 |}.

(** The update of the statistics of a product by one of its records. *)
Definition tally (st : Insights.ProductStats) (f : Feedback)
  : Insights.ProductStats :=
  {| Insights.count := S (Insights.count st);
     Insights.totalRating := (Insights.totalRating st + rating f)%Q;
     Insights.negativeCount :=
       if labelledNegative f then S (Insights.negativeCount st)
       else Insights.negativeCount st |}.

Definition productStatsOf (fb : list Feedback)
  : JSObject.obj Insights.ProductStats :=
  fold_left Insights.addToProduct fb [].

Lemma tally_fold fs : forall st,
  fold_left tally fs st
  = {| Insights.count := Insights.count st + length fs;
       Insights.totalRating :=
         fold_left (fun sum f => (sum + rating f)%Q) fs
                   (Insights.totalRating st);
       Insights.negativeCount :=
         Insights.negativeCount st + countOf labelledNegative fs |}.
Proof.
  unfold countOf.
  induction fs as [|f fs IH]; intros [c t n]; cbn [fold_left].
  - cbn. f_equal; lia.
  - rewrite IH. cbn [tally Insights.count Insights.totalRating
                      Insights.negativeCount List.filter length].
    destruct (labelledNegative f); cbn [length]; f_equal; lia.
Qed.

Lemma addToProduct_tally o f :
  Insights.addToProduct o f
  = if JSObject.inherited (product_id f) then o
    else JSObject.set o (product_id f)
           (tally (default noStats (JSObject.get o (product_id f))) f).
Proof. reflexivity. Qed.

Lemma productStats_fold fb : forall o pid,
  JSObject.get (fold_left Insights.addToProduct fb o) pid
  = if JSObject.inherited pid then JSObject.get o pid
    else match recordsOf pid fb with
         | [] => JSObject.get o pid
         | fs => Some (fold_left tally fs
                                 (default noStats (JSObject.get o pid)))
         end.
Proof.
  induction fb as [|f fb IH]; intros o pid.
  - destruct (JSObject.inherited pid); reflexivity.
  - cbn [fold_left]. rewrite IH, addToProduct_tally.
    unfold recordsOf. cbn [List.filter]. fold (recordsOf pid fb).
    destruct (JSObject.inherited pid) eqn:Hpid.
    + destruct (JSObject.inherited (product_id f)) eqn:Hf; [reflexivity|].
      apply get_set_ne. intros E. rewrite E in Hf. congruence.
    + destruct (String.eqb_spec (product_id f) pid) as [->|Hne].
      * rewrite Hpid, get_set_eq. destruct (recordsOf pid fb); reflexivity.
      * destruct (JSObject.inherited (product_id f)); [reflexivity|].
        rewrite get_set_ne by exact Hne. reflexivity.
Qed.

(** After the grouping pass, the entry of a product whose id is not the
    name of an inherited member holds the number of its records, the sum
    of their ratings and the number of them that are labelled Negative;
    a product without records has no entry, and neither has a product
    whose id is the name of an inherited member, whatever its records. *)
Theorem productStats_groups (fb : list Feedback) (pid : string) :
  JSObject.get (productStatsOf fb) pid
  = if JSObject.inherited pid then None
    else match List.filter (fun f => String.eqb (product_id f) pid) fb with
         | [] => None
         | fs =>
             Some {| Insights.count := length fs;
                     Insights.totalRating := sum_ratings fs;
                     Insights.negativeCount :=
                       length (List.filter
                                 (fun f => String.eqb (label (sentiment f))
                                                      "Negative") fs) |}
         end.
Proof.
  unfold productStatsOf. rewrite productStats_fold.
  fold (recordsOf pid fb).
  destruct (JSObject.inherited pid); [reflexivity|].
  destruct (recordsOf pid fb) as [|f fs] eqn:E; [reflexivity|].
  rewrite tally_fold. reflexivity.
Qed.

Lemma productStats_get (fb : list Feedback) (pid : string) :
  JSObject.get (productStatsOf fb) pid
  = if JSObject.inherited pid then None
    else match recordsOf pid fb with
         | [] => None
         | fs => Some (statsOf fs)
         end.
Proof.
  unfold productStatsOf. rewrite productStats_fold.
  destruct (JSObject.inherited pid); [reflexivity|].
  destruct (recordsOf pid fb) as [|f fs] eqn:E; [reflexivity|].
  rewrite tally_fold. reflexivity.
Qed.

(** *** Keys and entries of an object *)

Lemma set_keys {V} (o : JSObject.obj V) k v :
  List.map fst (JSObject.set o k v)
  = if existsb (String.eqb k) (List.map fst o) then List.map fst o
    else List.map fst o ++ [k].
Proof.
  induction o as [|[k' v'] o IH]; cbn; [reflexivity|].
  rewrite (String.eqb_sym k k').
  destruct (String.eqb_spec k' k) as [->|Hne]; cbn; [reflexivity|].
  rewrite IH. destruct (existsb _ _); reflexivity.
Qed.

Lemma set_keys_NoDup {V} (o : JSObject.obj V) k v :
  List.NoDup (List.map fst o) -> List.NoDup (List.map fst (JSObject.set o k v)).
Proof.
  intros H. rewrite set_keys.
  destruct (existsb (String.eqb k) (List.map fst o)) eqn:E; [exact H|].
  apply List.NoDup_app.
  - exact H.
  - constructor; [intros [] | constructor].
  - intros x Hx [<-|[]].
    assert (existsb (String.eqb k) (List.map fst o) = true).
    { apply existsb_exists. exists k. split; [exact Hx|].
      apply String.eqb_refl. }
    congruence.
Qed.

Lemma productStats_NoDup fb : forall o,
  List.NoDup (List.map fst o) ->
  List.NoDup (List.map fst (fold_left Insights.addToProduct fb o)).
Proof.
  induction fb as [|f fb IH]; intros o H; [exact H|].
  cbn [fold_left]. apply IH. rewrite addToProduct_tally.
  destruct (JSObject.inherited (product_id f)); [exact H|].
  apply set_keys_NoDup, H.
Qed.

Lemma In_get {V} (o : JSObject.obj V) k v :
  List.NoDup (List.map fst o) ->
  List.In (k, v) o <-> JSObject.get o k = Some v.
Proof.
  induction o as [|[k' v'] o IH]; cbn; intros Hnd.
  - split; [tauto | discriminate].
  - inversion Hnd as [|x l Hnotin Hnd' E]; subst.
    destruct (String.eqb_spec k' k) as [->|Hne].
    + split.
      * intros [H|H]; [congruence|].
        exfalso. apply Hnotin. apply (in_map fst) in H. exact H.
      * intros H. left. congruence.
    + rewrite <- (IH Hnd'). split.
      * intros [H|H]; [congruence | exact H].
      * intros H. right. exact H.
Qed.

Lemma insert_index_perm {V} n (e : string * V) l :
  Permutation (List.map snd (JSObject.insert_index n e l))
              (e :: List.map snd l).
Proof.
  induction l as [|[m e'] l IH]; cbn; [reflexivity|].
  destruct (n <? m)%N; cbn; [reflexivity|].
  rewrite IH. apply perm_swap.
Qed.

Lemma entries_perm {V} (o : JSObject.obj V) :
  Permutation (JSObject.entries o) o.
Proof.
  unfold JSObject.entries.
  induction o as [|[k v] o IH]; cbn; [reflexivity|].
  destruct (JSObject.array_index k) as [n|]; cbn.
  - rewrite insert_index_perm. cbn. constructor. exact IH.
  - rewrite <- Permutation_middle. constructor. exact IH.
Qed.

Definition underperforming (pid : string) : Insights.Insight :=
  {| Insights.category := "Product Performance";
     Insights.type := "product";
     Insights.message := "Underperforming Product: " ++ pid;
     Insights.action := "Consider halting sales or redesigning " ++ pid ++ ".";
     Insights.priority := critical;
     Insights.confidence := 0.9%Q;
     Insights.impact := "high";
     Insights.effort := "high" |}.

Definition starProduct (pid : string) : Insights.Insight :=
  {| Insights.category := "Product Performance";
     Insights.type := "star";
     Insights.message := "Star Product: " ++ pid;
     Insights.action := "Promote this product in marketing campaigns.";
     Insights.priority := low;
     Insights.confidence := 0.9%Q;
     Insights.impact := "high";
     Insights.effort := "low" |}.

Lemma In_analyzeByProduct (fb : list Feedback) (i : Insights.Insight) :
  List.In i (Insights.analyzeByProduct (Some fb))
  <-> exists pid fs,
        JSObject.inherited pid = false
        /\ recordsOf pid fb = fs /\ fs <> []
        /\ List.In i (Insights.productRules (pid, statsOf fs)).
Proof.
  unfold Insights.analyzeByProduct. fold (productStatsOf fb).
  rewrite in_flat_map.
  assert (Hnd : List.NoDup (List.map fst (productStatsOf fb))).
  { apply productStats_NoDup. constructor. }
  split.
  - intros ([pid st] & Hin & Hi).
    apply (Permutation_in _ (entries_perm _)) in Hin.
    apply (In_get _ _ _ Hnd) in Hin.
    rewrite productStats_get in Hin.
    exists pid, (recordsOf pid fb).
    destruct (JSObject.inherited pid); [discriminate Hin|].
    destruct (recordsOf pid fb) as [|f fs]; [discriminate Hin|].
    injection Hin as <-. repeat split; [discriminate | exact Hi].
  - intros (pid & fs & Hown & <- & Hne & Hi).
    exists (pid, statsOf (recordsOf pid fb)). split; [|exact Hi].
    apply (Permutation_in _ (Permutation_sym (entries_perm _))).
    apply (In_get _ _ _ Hnd). rewrite productStats_get, Hown.
    destruct (recordsOf pid fb); [congruence | reflexivity].
Qed.

(** The rollup reports a product as underperforming exactly when its id
    is not the name of an inherited member and it has at least two
    records, a mean rating below 3 and more than half of its records
    labelled Negative; as a star exactly when its id is not the name of
    an inherited member and it has at least three records and a mean
    rating of 4.5 or more.  No product is reported as both, and a
    product whose id is the name of an inherited member, such as
    [constructor], is never reported. *)
Theorem analyzeByProduct_fires (fb : list Feedback) (pid : string) :
  let fs := List.filter (fun f => String.eqb (product_id f) pid) fb in
  let avg := (sum_ratings fs / Qof_nat (length fs))%Q in
  let negatives :=
    length (List.filter
              (fun f => String.eqb (label (sentiment f)) "Negative") fs) in
  (List.In (underperforming pid) (Insights.analyzeByProduct (Some fb))
   <-> JSObject.inherited pid = false
       /\ (2 <= length fs)%nat /\ (avg < 3)%Q
       /\ (50 * length fs < 100 * negatives)%nat)
  /\ (List.In (starProduct pid) (Insights.analyzeByProduct (Some fb))
      <-> JSObject.inherited pid = false
          /\ (3 <= length fs)%nat /\ (4.5 <= avg)%Q)
  /\ ~ (List.In (underperforming pid) (Insights.analyzeByProduct (Some fb))
        /\ List.In (starProduct pid) (Insights.analyzeByProduct (Some fb)))
  /\ (JSObject.inherited pid = true ->
      forall i, List.In i (Insights.analyzeByProduct (Some fb)) ->
                i <> underperforming pid /\ i <> starProduct pid).
Proof.
  intros fs avg negatives.
  change (List.filter (fun f => String.eqb (product_id f) pid) fb)
    with (recordsOf pid fb) in fs.
  change (length (List.filter
                    (fun f => String.eqb (label (sentiment f)) "Negative") fs))
    with (countOf labelledNegative fs) in negatives.
  assert (Hrules : forall pid' fs',
             Insights.productRules (pid', statsOf fs')
             = if (length fs' <? 2)%nat then []
               else
                 (if Qltb (sum_ratings fs' / Qof_nat (length fs')) 3.0
                     && Qltb 50 ((Qof_nat (countOf labelledNegative fs')
                                  / Qof_nat (length fs')) * 100)
                  then [underperforming pid'] else [])
                 ++ (if Qleb 4.5 (sum_ratings fs' / Qof_nat (length fs'))
                        && (3 <=? length fs')%nat
                     then [starProduct pid'] else [])) by reflexivity.
  assert (Hunder : List.In (underperforming pid)
                     (Insights.analyzeByProduct (Some fb))
                   <-> JSObject.inherited pid = false
                       /\ (2 <= length fs)%nat /\ (avg < 3)%Q
                       /\ (50 * length fs < 100 * negatives)%nat).
  { rewrite In_analyzeByProduct. split.
    - intros (pid' & fs' & Hown & Hfs & Hne & Hi). rewrite Hrules in Hi.
      destruct (Nat.ltb_spec (length fs') 2) as [Hlt|Hge]; [destruct Hi|].
      apply in_app_or in Hi as [Hi|Hi].
      + destruct (_ && _) eqn:Hc in Hi; [|destruct Hi].
        destruct Hi as [Hi|[]].
        assert (pid' = pid).
        { apply (f_equal Insights.message) in Hi. cbn in Hi.
          injection Hi as Hi. exact Hi. }
        subst pid'. fold fs in Hfs. subst fs'.
        apply andb_prop in Hc as [H1 H2].
        apply Qltb_lt in H1, H2.
        apply (percentage_above 50) in H2; [|lia].
        assert (E30 : (3.0 == 3)%Q) by reflexivity. rewrite E30 in H1.
        repeat split; [exact Hown | lia | exact H1 | fold negatives in H2; lia].
      + destruct (_ && _) in Hi; [|destruct Hi].
        destruct Hi as [Hi|[]]. discriminate Hi.
    - intros (Hown & H2 & Havg & Hneg).
      exists pid, fs. repeat split.
      + exact Hown.
      + intros E. rewrite E in H2. cbn in H2. lia.
      + rewrite Hrules.
        destruct (Nat.ltb_spec (length fs) 2) as [Hlt|_]; [lia|].
        apply in_or_app. left.
        assert (H1 : Qltb (sum_ratings fs / Qof_nat (length fs)) 3.0 = true).
        { apply Qltb_lt. assert (E30 : (3.0 == 3)%Q) by reflexivity.
          rewrite E30. exact Havg. }
        assert (H3 : Qltb 50 ((Qof_nat (countOf labelledNegative fs)
                               / Qof_nat (length fs)) * 100) = true).
        { apply Qltb_lt. apply (percentage_above 50); [lia|].
          fold negatives. lia. }
        rewrite H1, H3. left. reflexivity. }
  assert (Hstar : List.In (starProduct pid)
                    (Insights.analyzeByProduct (Some fb))
                  <-> JSObject.inherited pid = false
                      /\ (3 <= length fs)%nat /\ (4.5 <= avg)%Q).
  { rewrite In_analyzeByProduct. split.
    - intros (pid' & fs' & Hown & Hfs & Hne & Hi). rewrite Hrules in Hi.
      destruct (Nat.ltb_spec (length fs') 2) as [Hlt|Hge]; [destruct Hi|].
      apply in_app_or in Hi as [Hi|Hi].
      + destruct (_ && _) in Hi; [|destruct Hi].
        destruct Hi as [Hi|[]]. discriminate Hi.
      + destruct (_ && _) eqn:Hc in Hi; [|destruct Hi].
        destruct Hi as [Hi|[]].
        assert (pid' = pid).
        { apply (f_equal Insights.message) in Hi. cbn in Hi.
          injection Hi as Hi. exact Hi. }
        subst pid'. fold fs in Hfs. subst fs'.
        apply andb_prop in Hc as [H1 H2].
        apply Qleb_le in H1. apply Nat.leb_le in H2.
        repeat split; assumption.
    - intros (Hown & H3 & Havg).
      exists pid, fs. repeat split.
      + exact Hown.
      + intros E. rewrite E in H3. cbn in H3. lia.
      + rewrite Hrules.
        destruct (Nat.ltb_spec (length fs) 2) as [Hlt|_]; [lia|].
        apply in_or_app. right.
        assert (H1 : Qleb 4.5 (sum_ratings fs / Qof_nat (length fs)) = true).
        { apply Qleb_le. exact Havg. }
        assert (H2 : (3 <=? length fs)%nat = true) by (apply Nat.leb_le; lia).
        rewrite H1, H2. left. reflexivity. }
  split; [exact Hunder|]. split; [exact Hstar|]. split.
  - rewrite Hunder, Hstar. intros [(_ & _ & Hlt & _) (_ & _ & Hge)].
    apply (Qlt_not_le _ _ Hlt). apply Qle_trans with (2 := Hge). discriminate.
  - intros Hin i Hi. split; intros ->.
    + apply Hunder in Hi as (Hown & _). congruence.
    + apply Hstar in Hi as (Hown & _). congruence.
Qed.

(** ** Quick wins *)

Definition quickWinInsight (pattern : Insights.Pattern) : Insights.Insight :=
  {| Insights.category := "Quick Win";
     Insights.type := "quick-win";
     Insights.message :=
       "Recurring Issue: " ++ Insights.dquote ++ Insights.phrase pattern
                           ++ Insights.dquote;
     Insights.action := Insights.p_action pattern;
     Insights.priority := medium;
     Insights.confidence := 0.85%Q;
     Insights.impact := Insights.p_impact pattern;
     Insights.effort := Insights.p_effort pattern |}.

(** The records whose text, in lower case, contains the phrase. *)
Definition matchCount (fb : list Feedback) (pattern : Insights.Pattern) : nat :=
  length (List.filter
            (fun f => JSString.includes (JSString.toLowerCase (review_text f))
                                        (Insights.phrase pattern)) fb).

Definition lowerText (f : Feedback) : Feedback :=
  {| product_id := product_id f;
     rating := rating f;
     review_text := JSString.toLowerCase (review_text f);
     sentiment := sentiment f;
     themes := themes f |}.

Lemma lower_ascii_idem c :
  JSString.lower_ascii (JSString.lower_ascii c) = JSString.lower_ascii c.
Proof. destruct c as [[] [] [] [] [] [] [] []]; reflexivity. Qed.

Lemma toLowerCase_idem s :
  JSString.toLowerCase (JSString.toLowerCase s) = JSString.toLowerCase s.
Proof.
  induction s as [|c s IH]; cbn; [reflexivity|].
  rewrite lower_ascii_idem, IH. reflexivity.
Qed.

Lemma quickWin_cases fb pattern :
  Insights.quickWin fb pattern
  = if (2 <=? matchCount fb pattern)%nat then [quickWinInsight pattern] else [].
Proof. reflexivity. Qed.

Lemma quickWinInsight_inj p q :
  List.In p Insights.patterns -> List.In q Insights.patterns ->
  quickWinInsight p = quickWinInsight q -> p = q.
Proof.
  intros Hp Hq E. apply (f_equal Insights.action) in E. cbn in E.
  cbn in Hp, Hq.
  repeat (destruct Hp as [<-|Hp]; [|]); try destruct Hp;
    repeat (destruct Hq as [<-|Hq]; [|]); try destruct Hq;
    first [reflexivity | discriminate E].
Qed.

(** A quick-win pattern is reported exactly when its phrase occurs in
    the text of at least two records, letter case in the text being
    ignored: putting all the texts in lower case changes nothing.  The
    rule gives at most one insight per pattern, six at most, all of
    medium priority. *)
Theorem identifyQuickWins_fires (fb : list Feedback) :
  (forall pattern,
      List.In pattern Insights.patterns ->
      List.In (quickWinInsight pattern) (Insights.identifyQuickWins (Some fb))
      <-> (2 <= matchCount fb pattern)%nat)
  /\ Insights.identifyQuickWins (Some (List.map lowerText fb))
     = Insights.identifyQuickWins (Some fb)
  /\ (length (Insights.identifyQuickWins (Some fb)) <= 6)%nat
  /\ (forall i, List.In i (Insights.identifyQuickWins (Some fb)) ->
                Insights.priority i = medium).
Proof.
  unfold Insights.identifyQuickWins. repeat split.
  - intros Hin. apply in_flat_map in Hin as (q & Hq & Hi).
    rewrite quickWin_cases in Hi.
    destruct (Nat.leb_spec 2 (matchCount fb q)) as [Hge|_]; [|destruct Hi].
    destruct Hi as [Hi|[]].
    rewrite (quickWinInsight_inj _ _ H Hq (eq_sym Hi)). exact Hge.
  - intros Hge. apply in_flat_map. exists pattern. split; [exact H|].
    rewrite quickWin_cases.
    destruct (Nat.leb_spec 2 (matchCount fb pattern)); [left; reflexivity|lia].
  - apply flat_map_ext. intros pattern. rewrite !quickWin_cases.
    assert (E : matchCount (List.map lowerText fb) pattern
                = matchCount fb pattern).
    { unfold matchCount. induction fb as [|f fb IH]; [reflexivity|].
      cbn [List.map List.filter lowerText review_text].
      rewrite toLowerCase_idem.
      destruct (JSString.includes _ _); cbn [length]; rewrite IH;
        reflexivity. }
    rewrite E. reflexivity.
  - cbn [flat_map Insights.patterns]. rewrite !quickWin_cases.
    repeat match goal with
           | |- context [(2 <=? ?n)%nat] => destruct (2 <=? n)%nat
           end; cbn; lia.
  - intros i Hin. apply in_flat_map in Hin as (q & _ & Hi).
    rewrite quickWin_cases in Hi.
    destruct (2 <=? matchCount fb q)%nat; [|destruct Hi].
    destruct Hi as [<-|[]]. reflexivity.
Qed.

Definition tarnishPattern : Insights.Pattern :=
  {| Insights.phrase := "tarnish";
     Insights.p_action := "Add anti-tarnish coating or care kit";
     Insights.p_effort := "low"; Insights.p_impact := "high" |}.

Definition tarnished (text : string) : Feedback :=
  {| product_id := "N-300";
     rating := 2%Q;
     review_text := text;
     sentiment := {| label := "Negative"; sentiment_confidence := 0.7%Q |};
     themes := ["Durability"] |}.

Lemma identifyQuickWins_fires_witness :
  List.In (quickWinInsight tarnishPattern)
          (Insights.identifyQuickWins
             (Some [tarnished "Started to TARNISH in a week";
                    tarnished "tarnished quickly"])).
Proof.
  apply (proj1 (identifyQuickWins_fires
                  [tarnished "Started to TARNISH in a week";
                   tarnished "tarnished quickly"]) tarnishPattern).
  - right. right. right. right. left. reflexivity.
  - vm_compute. lia.
Defined.

(** ** The Appearance rules *)

(** With a theme aggregate at hand, the rule engine of the panel emits
    the high-priority appearance insight exactly when there are records
    tagged Appearance and more than 60% of them are labelled Negative.
    The utility emits its high-priority appearance insight exactly when
    the aggregated Appearance count is positive and the records with a
    theme label that contains [appearance], labelled Negative and of
    confidence at least 0.6 are more than 60% of that count. *)
Theorem appearance_rules :
  (forall (tData : ThemeData) (fb : list Feedback),
      emits "appearance" high (Insights.analyzeThemes (Some tData) (Some fb))
      = true
      <-> (0 < countOf (hasTheme "Appearance") fb)%nat
          /\ (60 * Z.of_nat (countOf (hasTheme "Appearance") fb)
              < 100 * Z.of_nat
                        (countOf (fun f => hasTheme "Appearance" f
                                           && labelledNegative f) fb))%Z)
  /\
  (forall (s : SentimentData) (t : ThemeData) (fb : list Feedback),
      utilEmits "appearance" high (InsightUtils.rules s t fb) = true
      <-> (0 < InsightUtils.themeTotal t "appearance")%Q
          /\ (60 * InsightUtils.themeTotal t "appearance"
              < 100 * Qof_nat
                        (countOf (fun f => themeContains "appearance" f
                                           && labelledNegative f
                                           && confidenceAtLeast 0.6 f)
                                 fb))%Q).
Proof.
  split.
  - intros tData fb. unfold Insights.analyzeThemes.
    destruct (Nat.eqb_spec (length fb) 0) as [E|E].
    + destruct fb; [|discriminate E]. cbn. split; [discriminate|].
      intros [H _]. lia.
    + rewrite !emits_app.
      destruct (themeRule_fires fb "Durability" 40 Insights.durabilityInsight)
        as [[-> _]|[-> _]];
        destruct (themeRule_fires fb "Comfort" 30 Insights.comfortInsight)
          as [[-> _]|[-> _]];
        destruct (themeRule_fires fb "Appearance" 60
                    Insights.appearanceInsight) as [[-> H]|[-> H]];
        cbn; split; intros H'; try reflexivity; try assumption;
          try discriminate H'; exfalso; apply H; assumption.
  - intros s t fb. unfold InsightUtils.rules.
    rewrite !utilEmits_app.
    repeat match goal with
           | |- context [utilEmits _ _ (if ?c then _ else _)] =>
               destruct c; cbn [utilEmits existsb orb andb]
           end;
      destruct (shareRule_fires (InsightUtils.themeTotal t "durability") fb
                  (InsightUtils.confidentNegative "durability") 40
                  {| InsightUtils.type := "durability";
                     InsightUtils.confidence :=
                       InsightUtils.or0 (average_confidence s);
                     InsightUtils.priority := high |} ltac:(discriminate))
        as [[-> _]|[-> _]];
      destruct (shareRule_fires (InsightUtils.themeTotal t "comfort") fb
                  InsightUtils.comfortIssue 50
                  {| InsightUtils.type := "comfort";
                     InsightUtils.confidence :=
                       InsightUtils.or0 (average_confidence s);
                     InsightUtils.priority := medium |} ltac:(discriminate))
        as [[-> _]|[-> _]];
      destruct (shareRule_fires (InsightUtils.themeTotal t "appearance") fb
                  (InsightUtils.confidentNegative "appearance") 60
                  {| InsightUtils.type := "appearance";
                     InsightUtils.confidence :=
                       InsightUtils.or0 (average_confidence s);
                     InsightUtils.priority := high |} ltac:(discriminate))
        as [[-> H]|[-> H]];
      rewrite confidentNegative_count in H;
      cbn; split; intros H'; try reflexivity; try assumption;
        try discriminate H'; exfalso; apply H; assumption.
Qed.

(** ** The rules of the utility that read the aggregates *)

Lemma utilEmits_if ty p (c : bool) i :
  utilEmits ty p (if c then [i] else [])
  = c && (String.eqb (InsightUtils.type i) ty
          && Priority_eqb (InsightUtils.priority i) p).
Proof. destruct c; cbn; [apply Bool.orb_false_r | reflexivity]. Qed.

Lemma shareRule_short T fb issue th i :
  (length (InsightUtils.shareRule T fb issue th i) <= 1)%nat
  /\ forall x, List.In x (InsightUtils.shareRule T fb issue th i) -> x = i.
Proof.
  unfold InsightUtils.shareRule.
  destruct (_ && _); [|cbn; split; [lia | intros x []]].
  destruct (Qltb _ _); cbn; split; try lia; intros x; intuition.
Qed.

(** The utility never gives an insight of critical or low priority, and
    never more than seven insights: its first two rules, on a positive and
    on a negative average score, exclude each other.  It reports a
    high-priority negative insight exactly when the average score is
    below -0.1, or the collection is not empty and its average rating is
    below 3.5. *)
Theorem utility_rules_summary (s : SentimentData) (t : ThemeData)
        (fb : list Feedback) :
  let out := InsightUtils.rules s t fb in
  (forall i, List.In i out ->
             InsightUtils.priority i = high
             \/ InsightUtils.priority i = medium)
  /\ (length out <= 7)%nat
  /\ (utilEmits "negative" high out = true
      <-> (InsightUtils.or0 (average_score s) < -0.1)%Q
          \/ (fb <> []
              /\ (sum_ratings fb / Qof_nat (length fb) < 3.5)%Q)).
Proof.
  cbv zeta. unfold InsightUtils.rules.
  destruct (shareRule_short (InsightUtils.themeTotal t "durability") fb
              (InsightUtils.confidentNegative "durability") 40
              {| InsightUtils.type := "durability";
                 InsightUtils.confidence :=
                   InsightUtils.or0 (average_confidence s);
                 InsightUtils.priority := high |}) as [Ld Hd].
  destruct (shareRule_short (InsightUtils.themeTotal t "comfort") fb
              InsightUtils.comfortIssue 50
              {| InsightUtils.type := "comfort";
                 InsightUtils.confidence :=
                   InsightUtils.or0 (average_confidence s);
                 InsightUtils.priority := medium |}) as [Lc Hc].
  destruct (shareRule_short (InsightUtils.themeTotal t "appearance") fb
              (InsightUtils.confidentNegative "appearance") 60
              {| InsightUtils.type := "appearance";
                 InsightUtils.confidence :=
                   InsightUtils.or0 (average_confidence s);
                 InsightUtils.priority := high |}) as [La Ha].
  set (D := InsightUtils.shareRule (InsightUtils.themeTotal t "durability")
              _ _ _ _) in *.
  set (C := InsightUtils.shareRule (InsightUtils.themeTotal t "comfort")
              _ _ _ _) in *.
  set (A := InsightUtils.shareRule (InsightUtils.themeTotal t "appearance")
              _ _ _ _) in *.
  assert (Hexcl : Qltb 0.2 (InsightUtils.or0 (average_score s)) = true ->
                  Qltb (InsightUtils.or0 (average_score s)) (-0.1) = true ->
                  False).
  { intros H1 H2. apply Qltb_lt in H1, H2.
    apply (Qlt_irrefl 0.2). eapply Qlt_trans; [exact H1|].
    eapply Qlt_trans; [exact H2|]. reflexivity. }
  assert (HD : utilEmits "negative" high D = false).
  { destruct D as [|x D']; [reflexivity|].
    destruct D' as [|y D']; [|cbn in Ld; lia].
    rewrite (Hd x (or_introl eq_refl)). reflexivity. }
  assert (HC : utilEmits "negative" high C = false).
  { destruct C as [|x C']; [reflexivity|].
    destruct C' as [|y C']; [|cbn in Lc; lia].
    rewrite (Hc x (or_introl eq_refl)). reflexivity. }
  assert (HA : utilEmits "negative" high A = false).
  { destruct A as [|x A']; [reflexivity|].
    destruct A' as [|y A']; [|cbn in La; lia].
    rewrite (Ha x (or_introl eq_refl)). reflexivity. }
  split; [|split].
  - intros i Hi.
    repeat (apply in_app_or in Hi as [Hi|Hi]);
      try (apply Hd in Hi; subst i; left; reflexivity);
      try (apply Hc in Hi; subst i; right; reflexivity);
      try (apply Ha in Hi; subst i; left; reflexivity);
      repeat match type of Hi with
             | List.In _ (if ?c then _ else _) => destruct c
             end;
      try destruct Hi as [<-|[]]; try destruct Hi; cbn; auto.
  - rewrite !List.length_app.
    destruct (Qltb 0.2 (InsightUtils.or0 (average_score s))) eqn:E1;
      destruct (Qltb (InsightUtils.or0 (average_score s)) (-0.1)) eqn:E2;
      try (exfalso; apply Hexcl; reflexivity);
      repeat match goal with
             | |- context [length (if ?c then _ else _)] => destruct c
             end; cbn [length]; lia.
  - rewrite !utilEmits_app, HD, HC, HA.
    assert (H4 : utilEmits "negative" high
                   (if (0 <? length fb)%nat
                    then
                      let avgRating :=
                        (sum_ratings fb / Qof_nat (length fb))%Q in
                      if Qltb avgRating 3.5
                      then [ {| InsightUtils.type := "negative";
                                InsightUtils.confidence := 0.8%Q;
                                InsightUtils.priority := high |} ]
                      else []
                    else []) = true
                 <-> fb <> []
                     /\ (sum_ratings fb / Qof_nat (length fb) < 3.5)%Q).
    { destruct fb as [|f fb'].
      - cbn. split; [discriminate | intros [H _]; congruence].
      - cbn [length Nat.ltb Nat.leb]. cbv zeta.
        rewrite utilEmits_if. cbn [InsightUtils.type InsightUtils.priority].
        change (String.eqb "negative" "negative" && Priority_eqb high high)
          with true.
        rewrite Bool.andb_true_r, Qltb_lt.
        split; [intros H; split; [discriminate | exact H] | tauto]. }
    rewrite !utilEmits_if.
    cbn [InsightUtils.type InsightUtils.priority].
    change (String.eqb "positive" "negative") with false.
    change (String.eqb "neutral" "negative") with false.
    change (String.eqb "negative" "negative" && Priority_eqb high high)
      with true.
    rewrite ?Bool.andb_false_l, ?Bool.andb_false_r, ?Bool.andb_true_r,
      ?Bool.orb_false_r, ?Bool.orb_false_l.
    rewrite Bool.orb_true_iff, H4, Qltb_lt. reflexivity.
Qed.

Lemma themeTotal_no_key (t : ThemeData) (word : string) :
  (forall k, List.In k (JSObject.keys t) ->
             JSString.includes (JSString.toLowerCase k) word = false) ->
  InsightUtils.themeTotal t word = 0%Q.
Proof.
  unfold InsightUtils.themeTotal.
  generalize (JSObject.keys t). intros ks H.
  assert (G : forall acc,
             fold_left
               (fun sum theme =>
                  if JSString.includes (JSString.toLowerCase theme) word
                  then (sum + InsightUtils.or0 (JSObject.get t theme))%Q
                  else sum) ks acc = acc).
  { induction ks as [|k ks IH]; intros acc; [reflexivity|].
    cbn [fold_left]. rewrite (H k (or_introl eq_refl)).
    apply IH. intros k' Hk'. apply H. right. exact Hk'. }
  apply G.
Qed.

(** The theme rules of the utility depend on the theme aggregate, not on
    the tags of the records: when no key of the aggregate contains the
    word durability (letter case ignored), the utility gives no
    durability insight, whatever the records say. *)
Theorem utility_needs_theme_key (s : SentimentData) (t : ThemeData)
        (fb : list Feedback) :
  (forall k, List.In k (JSObject.keys t) ->
             JSString.includes (JSString.toLowerCase k) "durability" = false) ->
  forall i, List.In i (InsightUtils.rules s t fb) ->
            InsightUtils.type i <> "durability".
Proof.
  intros Hk i Hi. unfold InsightUtils.rules in Hi.
  rewrite (themeTotal_no_key t "durability" Hk) in Hi.
  change (InsightUtils.shareRule 0 fb
            (InsightUtils.confidentNegative "durability") 40
            {| InsightUtils.type := "durability";
               InsightUtils.confidence :=
                 InsightUtils.or0 (average_confidence s);
               InsightUtils.priority := high |}) with (@nil InsightUtils.Insight)
    in Hi.
  destruct (shareRule_short (InsightUtils.themeTotal t "comfort") fb
              InsightUtils.comfortIssue 50
              {| InsightUtils.type := "comfort";
                 InsightUtils.confidence :=
                   InsightUtils.or0 (average_confidence s);
                 InsightUtils.priority := medium |}) as [_ Hc].
  destruct (shareRule_short (InsightUtils.themeTotal t "appearance") fb
              (InsightUtils.confidentNegative "appearance") 60
              {| InsightUtils.type := "appearance";
                 InsightUtils.confidence :=
                   InsightUtils.or0 (average_confidence s);
                 InsightUtils.priority := high |}) as [_ Ha].
  repeat (apply in_app_or in Hi as [Hi|Hi]);
    try (apply Hc in Hi; subst i; discriminate);
    try (apply Ha in Hi; subst i; discriminate);
    repeat match type of Hi with
           | List.In _ (if ?c then _ else _) => destruct c
           end;
    try destruct Hi as [<-|[]]; try destruct Hi; discriminate.
Qed.

Definition comfortOnlyAggregate : ThemeData :=
  [("Comfort", 4%Q); ("Other", 1%Q)].

Lemma utility_needs_theme_key_witness :
  List.Forall (fun i => InsightUtils.type i <> "durability")
              (InsightUtils.rules sampleSentimentData comfortOnlyAggregate
                                  [confidentDurability]).
Proof.
  apply List.Forall_forall.
  apply (utility_needs_theme_key sampleSentimentData comfortOnlyAggregate
           [confidentDurability]).
  intros k [<-|[<-|[]]]; reflexivity.
Defined.

(* ================================================================== *)
(** * Further properties of the weighted aggregates *)

(** ** The normal form of a text *)

(** A lower-case letter, a digit or the underscore. *)
Definition plain (c : ascii) : bool :=
  JSString.is_word c && Ascii.eqb (JSString.lower_ascii c) c.

Definition plainOrSpace (c : ascii) : bool := plain c || Ascii.eqb c " ".

Fixpoint allChars (Q : ascii -> bool) (s : string) : bool :=
  match s with
  | EmptyString => true
  | String c s' => Q c && allChars Q s'
  end.

(** No two white-space characters in a row. *)
Fixpoint singleSpaced (s : string) : bool :=
  match s with
  | EmptyString => true
  | String a t =>
      match t with
      | String b _ => negb (JSString.is_space a && JSString.is_space b)
      | EmptyString => true
      end && singleSpaced t
  end.

Definition startsWithSpace (s : string) : bool :=
  match s with
  | String c _ => JSString.is_space c
  | EmptyString => false
  end.

Fixpoint endsWithSpace (s : string) : bool :=
  match s with
  | EmptyString => false
  | String c EmptyString => JSString.is_space c
  | String _ t => endsWithSpace t
  end.

(** The normal form: lower-case words separated by single spaces. *)
Definition normalText (s : string) : bool :=
  allChars plainOrSpace s && singleSpaced s
  && negb (startsWithSpace s) && negb (endsWithSpace s).

Lemma replaced_char c :
  let l := JSString.lower_ascii c in
  let c' := if JSString.is_word l || JSString.is_space l then l else " "%char in
  plain c' || JSString.is_space c' = true.
Proof. destruct c as [[] [] [] [] [] [] [] []]; reflexivity. Qed.

Lemma plain_facts c :
  plain c = true ->
  JSString.is_space c = false /\ JSString.lower_ascii c = c
  /\ JSString.is_word c = true.
Proof.
  destruct c as [[] [] [] [] [] [] [] []]; cbn; intros H;
    try discriminate H; repeat split.
Qed.

Lemma plainOrSpace_cases c :
  plainOrSpace c = true ->
  (plain c = true /\ JSString.is_space c = false) \/ c = " "%char.
Proof.
  unfold plainOrSpace. intros H. apply Bool.orb_true_iff in H as [H|H].
  - left. split; [exact H | apply plain_facts, H].
  - right. apply Ascii.eqb_eq, H.
Qed.

Lemma replaced_ok s :
  allChars (fun c => plain c || JSString.is_space c)
           (JSString.replace_punct (JSString.toLowerCase s)) = true.
Proof.
  induction s as [|c s IH]; [reflexivity|].
  cbn [JSString.toLowerCase JSString.replace_punct allChars].
  rewrite IH, Bool.andb_true_r. apply replaced_char.
Qed.

Lemma collapse_ok s :
  allChars (fun c => plain c || JSString.is_space c) s = true ->
  allChars plainOrSpace (JSString.collapse_spaces s) = true
  /\ singleSpaced (JSString.collapse_spaces s) = true.
Proof.
  induction s as [|c s IH]; [intros _; split; reflexivity|].
  cbn [allChars]. intros H. apply andb_prop in H as [Hc Hs].
  specialize (IH Hs). destruct IH as [IHa IHs].
  cbn [JSString.collapse_spaces].
  destruct (JSString.is_space c) eqn:Ec.
  - destruct s as [|c' s']; [split; reflexivity|].
    destruct (JSString.is_space c') eqn:Ec'; [split; assumption|].
    cbn [JSString.collapse_spaces] in *. rewrite Ec' in *.
    split.
    + cbn [allChars]. cbn [allChars] in IHa. rewrite IHa. reflexivity.
    + cbn [singleSpaced]. cbn [singleSpaced] in IHs. rewrite IHs, Ec'.
      rewrite Bool.andb_false_r. reflexivity.
  - rewrite Bool.orb_false_r in Hc. split.
    + cbn [allChars]. unfold plainOrSpace at 1. rewrite Hc, IHa. reflexivity.
    + cbn [singleSpaced]. rewrite Ec, IHs.
      destruct (JSString.collapse_spaces s); reflexivity.
Qed.

Lemma singleSpaced_tail c s :
  singleSpaced (String c s) = true -> singleSpaced s = true.
Proof. cbn [singleSpaced]. intros H. apply andb_prop in H as [_ H]. exact H. Qed.

Lemma trimStart_ok Q s :
  allChars Q s = true -> singleSpaced s = true ->
  allChars Q (JSString.trimStart s) = true
  /\ singleSpaced (JSString.trimStart s) = true
  /\ startsWithSpace (JSString.trimStart s) = false.
Proof.
  induction s as [|c s IH]; [intros _ _; repeat split|].
  intros Ha Hs. cbn [JSString.trimStart].
  destruct (JSString.is_space c) eqn:Ec.
  - cbn [allChars] in Ha. apply andb_prop in Ha as [_ Ha].
    apply IH; [exact Ha | exact (singleSpaced_tail _ _ Hs)].
  - repeat split; [exact Ha | exact Hs | exact Ec].
Qed.

Lemma trimEnd_empty s :
  JSString.trimEnd s = EmptyString -> allChars JSString.is_space s = true.
Proof.
  induction s as [|c s IH]; [reflexivity|].
  cbn [JSString.trimEnd allChars].
  destruct (JSString.trimEnd s) eqn:E; [|discriminate].
  destruct (JSString.is_space c); [|discriminate].
  intros _. apply IH. reflexivity.
Qed.

Lemma trimEnd_ok Q s :
  allChars Q s = true -> singleSpaced s = true ->
  allChars Q (JSString.trimEnd s) = true
  /\ singleSpaced (JSString.trimEnd s) = true
  /\ endsWithSpace (JSString.trimEnd s) = false
  /\ (startsWithSpace s = false ->
      startsWithSpace (JSString.trimEnd s) = false).
Proof.
  induction s as [|c s IH]; [intros _ _; repeat split|].
  intros Ha Hs. cbn [allChars] in Ha. apply andb_prop in Ha as [Hc Ha].
  pose proof (singleSpaced_tail _ _ Hs) as Hs'.
  destruct (IH Ha Hs') as (IHa & IHs & IHe & _).
  cbn [JSString.trimEnd].
  destruct (JSString.trimEnd s) as [|d t] eqn:E.
  - destruct (JSString.is_space c) eqn:Ec.
    + repeat split.
    + cbn. rewrite Hc, Ec. repeat split.
  - repeat split.
    + cbn [allChars]. rewrite Hc. exact IHa.
    + change (singleSpaced (String c (String d t)))
        with (negb (JSString.is_space c && JSString.is_space d)
              && singleSpaced (String d t)).
      rewrite IHs, Bool.andb_true_r.
      destruct s as [|d' s']; [discriminate E|].
      cbn [JSString.trimEnd] in E.
      assert (d = d').
      { destruct (JSString.trimEnd s');
          [destruct (JSString.is_space d'); [discriminate E|]|];
          injection E as E _; congruence. }
      subst d'. cbn [singleSpaced] in Hs.
      apply andb_prop in Hs as [Hs _]. exact Hs.
    + exact IHe.
    + cbn. tauto.
Qed.

Lemma sanitizeText_normal s : normalText (Aggregates.sanitizeText s) = true.
Proof.
  unfold Aggregates.sanitizeText, JSString.trim, normalText.
  destruct (collapse_ok _ (replaced_ok s)) as [Ha Hs].
  destruct (trimStart_ok _ _ Ha Hs) as (Ha1 & Hs1 & Hh1).
  destruct (trimEnd_ok _ _ Ha1 Hs1) as (Ha2 & Hs2 & He2 & Hh2).
  rewrite Ha2, Hs2, He2, (Hh2 Hh1). reflexivity.
Qed.

Lemma toLowerCase_id s :
  allChars plainOrSpace s = true -> JSString.toLowerCase s = s.
Proof.
  induction s as [|c s IH]; [reflexivity|].
  cbn [allChars JSString.toLowerCase]. intros H.
  apply andb_prop in H as [Hc Hs]. rewrite (IH Hs). f_equal.
  destruct (plainOrSpace_cases c Hc) as [[Hp _]| ->];
    [apply plain_facts, Hp | reflexivity].
Qed.

Lemma replace_punct_id s :
  allChars plainOrSpace s = true -> JSString.replace_punct s = s.
Proof.
  induction s as [|c s IH]; [reflexivity|].
  cbn [allChars JSString.replace_punct]. intros H.
  apply andb_prop in H as [Hc Hs]. rewrite (IH Hs). f_equal.
  destruct (plainOrSpace_cases c Hc) as [[Hp _]| ->]; [|reflexivity].
  destruct (plain_facts c Hp) as (_ & _ & ->). reflexivity.
Qed.

Lemma collapse_spaces_id s :
  allChars plainOrSpace s = true -> singleSpaced s = true ->
  JSString.collapse_spaces s = s.
Proof.
  induction s as [|c s IH]; [reflexivity|].
  intros Ha Hs. pose proof (singleSpaced_tail _ _ Hs) as Hs'.
  cbn [allChars] in Ha. apply andb_prop in Ha as [Hc Ha].
  specialize (IH Ha Hs').
  cbn [JSString.collapse_spaces].
  destruct (plainOrSpace_cases c Hc) as [[_ Ec]| ->].
  - rewrite Ec, IH. reflexivity.
  - change (JSString.is_space " ") with true. cbv iota.
    destruct s as [|c' s']; [reflexivity|].
    cbn [singleSpaced] in Hs. apply andb_prop in Hs as [Hs _].
    change (JSString.is_space " ") with true in Hs. cbn [andb] in Hs.
    apply Bool.negb_true_iff in Hs. rewrite Hs, IH. reflexivity.
Qed.

Lemma trimStart_id s :
  startsWithSpace s = false -> JSString.trimStart s = s.
Proof.
  destruct s as [|c s]; [reflexivity|]. cbn. intros ->. reflexivity.
Qed.

Lemma trimEnd_id s :
  endsWithSpace s = false -> JSString.trimEnd s = s.
Proof.
  induction s as [|c s IH]; [reflexivity|].
  destruct s as [|d t].
  - cbn. intros ->. reflexivity.
  - intros H. change (endsWithSpace (String d t) = false) in H.
    cbn [JSString.trimEnd] in *. rewrite (IH H). reflexivity.
Qed.

Lemma normalText_fixed s :
  normalText s = true ->
  Aggregates.sanitizeText s = s /\ JSString.collapse_spaces s = s.
Proof.
  unfold normalText. intros H.
  apply andb_prop in H as [H He]. apply andb_prop in H as [H Hh].
  apply andb_prop in H as [Ha Hs].
  apply Bool.negb_true_iff in He, Hh.
  unfold Aggregates.sanitizeText, JSString.trim.
  rewrite (toLowerCase_id s Ha), (replace_punct_id s Ha),
    (collapse_spaces_id s Ha Hs), (trimStart_id s Hh), (trimEnd_id s He).
  split; reflexivity.
Qed.

(** The text normalisation gives lower-case words (letters, digits,
    underscores) separated by single spaces, with no space at either end.
    It leaves such a text as it is, so it is idempotent; the extra
    white-space pass of [fingerprint] changes nothing; and the
    fingerprint of a text does not depend on its letter case. *)
Theorem fingerprint_normal_form (s : string) :
  normalText (Aggregates.sanitizeText s) = true
  /\ Aggregates.sanitizeText (Aggregates.sanitizeText s)
     = Aggregates.sanitizeText s
  /\ Aggregates.fingerprint s = Aggregates.sanitizeText s
  /\ Aggregates.fingerprint (Aggregates.fingerprint s)
     = Aggregates.fingerprint s
  /\ Aggregates.fingerprint (JSString.toLowerCase s)
     = Aggregates.fingerprint s.
Proof.
  pose proof (sanitizeText_normal s) as Hn.
  destruct (normalText_fixed _ Hn) as [Hfix Hcol].
  assert (Hfp : Aggregates.fingerprint s = Aggregates.sanitizeText s).
  { unfold Aggregates.fingerprint. exact Hcol. }
  repeat split.
  - exact Hn.
  - exact Hfix.
  - exact Hfp.
  - rewrite Hfp. unfold Aggregates.fingerprint. rewrite Hfix. exact Hcol.
  - unfold Aggregates.fingerprint, Aggregates.sanitizeText.
    rewrite toLowerCase_idem. reflexivity.
Qed.

Open Scope R_scope.

(** ** Bounds on the weights *)

Lemma exp_monotone (x y : R) : x <= y -> exp x <= exp y.
Proof.
  intros [H| ->]; [left; apply exp_increasing, H | right; reflexivity].
Qed.

Lemma ln2_pos : 0 < ln 2.
Proof. pose proof ln_lt_2. lra. Qed.

Lemma INR_succ_ge_1 (k : nat) : 1 <= INR (k + 1).
Proof. rewrite Nat.add_1_r, S_INR. pose proof (pos_INR k). lra. Qed.

Lemma dedupeFactor_range (k : nat) : 0 < Aggregates.dedupeFactor k <= 1.
Proof.
  unfold Aggregates.dedupeFactor.
  pose proof (INR_succ_ge_1 k) as H1.
  assert (Hs : 1 <= sqrt (INR (k + 1))).
  { rewrite <- sqrt_1 at 1. apply sqrt_le_1_alt, H1. }
  split.
  - apply Rdiv_lt_0_compat; lra.
  - unfold Rdiv. rewrite Rmult_1_l.
    apply Rle_trans with (/ 1); [|rewrite Rinv_1; lra].
    apply Rinv_le_contravar; lra.
Qed.

Lemma dedupeFactor_decreasing (k k' : nat) :
  (k < k')%nat -> Aggregates.dedupeFactor k' < Aggregates.dedupeFactor k.
Proof.
  intros Hlt. unfold Aggregates.dedupeFactor.
  pose proof (INR_succ_ge_1 k) as H1.
  assert (Hs : 1 <= sqrt (INR (k + 1))).
  { rewrite <- sqrt_1 at 1. apply sqrt_le_1_alt, H1. }
  assert (Hlt' : sqrt (INR (k + 1)) < sqrt (INR (k' + 1))).
  { apply sqrt_lt_1_alt. split; [lra|]. apply lt_INR. lia. }
  unfold Rdiv. rewrite !Rmult_1_l.
  apply Rinv_lt_contravar; [|exact Hlt'].
  apply Rmult_lt_0_compat; lra.
Qed.

Lemma timeWeight_range (h days : R) :
  0 < h -> 0 <= days -> 0 < Aggregates.timeWeight h days <= 1.
Proof.
  intros Hh Hd. unfold Aggregates.timeWeight. split; [apply exp_pos|].
  rewrite <- exp_0. apply exp_monotone.
  pose proof ln2_pos as Hl.
  assert (H : 0 <= ln 2 * days / h).
  { apply Rmult_le_pos; [apply Rmult_le_pos; lra|].
    left. apply Rinv_0_lt_compat, Hh. }
  replace (- ln 2 * days / h) with (- (ln 2 * days / h))
    by (unfold Rdiv; ring).
  lra.
Qed.

(** No time stamp lies in the future. *)
Definition pastStamps (now : R) (Date_parse : string -> option R) : Prop :=
  forall iso t, Date_parse iso = Some t -> t <= now.

Lemma daysSince_nonneg now Date_parse iso :
  pastStamps now Date_parse ->
  0 <= Aggregates.daysSince now Date_parse iso.
Proof.
  intros Hp. unfold Aggregates.daysSince.
  destruct iso as [s|]; [|lra].
  destruct (String.eqb s EmptyString); [lra|].
  destruct (Date_parse s) as [t|] eqn:E; [|lra].
  specialize (Hp s t E).
  apply Rmult_le_pos; [lra|]. left. apply Rinv_0_lt_compat. lra.
Qed.

Lemma reviewWeight_nonneg now Date_parse h m r k :
  0 <= m -> 0 <= Aggregates.reviewWeight now Date_parse h m r k.
Proof.
  intros Hm. unfold Aggregates.reviewWeight.
  pose proof (Rmax_r (Aggregates.c_raw r) m) as Hc.
  pose proof (dedupeFactor_range k) as [Hd _].
  apply Rmult_le_pos; [|lra].
  apply Rmult_le_pos; [lra|]. left. apply exp_pos.
Qed.

Lemma reviewWeight_at_most_1 now Date_parse h m r k :
  pastStamps now Date_parse -> 0 < h -> 0 <= m <= 1 ->
  Aggregates.c_raw r <= 1 ->
  Aggregates.reviewWeight now Date_parse h m r k <= 1.
Proof.
  intros Hp Hh Hm Hc. unfold Aggregates.reviewWeight.
  pose proof (dedupeFactor_range k) as [Hd0 Hd1].
  pose proof (timeWeight_range h _ Hh
                (daysSince_nonneg now Date_parse
                   (Aggregates.created_at r) Hp)) as [Ht0 Ht1].
  assert (Hmax : 0 <= Rmax (Aggregates.c_raw r) m <= 1).
  { split; [pose proof (Rmax_r (Aggregates.c_raw r) m); lra|].
    apply Rmax_lub; lra. }
  set (a := Rmax (Aggregates.c_raw r) m) in *.
  set (b := Aggregates.timeWeight h _) in *.
  set (d := Aggregates.dedupeFactor k) in *.
  assert (Hab : a * b <= 1).
  { replace 1 with (1 * 1) by ring.
    apply Rmult_le_compat; lra. }
  replace 1 with (1 * 1) by ring.
  apply Rmult_le_compat; try lra.
  apply Rmult_le_pos; lra.
Qed.

Lemma sumFrom_weights_bounds now Date_parse h m rest : forall seen,
  pastStamps now Date_parse -> 0 < h -> 0 <= m <= 1 ->
  (forall e, List.In e rest -> Aggregates.c_raw (Aggregates.recordOf e) <= 1) ->
  0 <= sumFrom now Date_parse h m (fun _ w => w) seen rest
  <= INR (length rest).
Proof.
  induction rest as [|e rest IH]; intros seen Hp Hh Hm Hc.
  - cbn. lra.
  - cbn [sumFrom length]. rewrite S_INR.
    assert (Hc' : forall e', List.In e' rest ->
                             Aggregates.c_raw (Aggregates.recordOf e') <= 1).
    { intros e' He'. apply Hc. right. exact He'. }
    specialize (IH (seen ++ [e]) Hp Hh Hm Hc').
    unfold weightAt.
    pose proof (reviewWeight_nonneg now Date_parse h m (Aggregates.recordOf e)
                  (countFp (fingerprintOf e) seen) (proj1 Hm)) as H0.
    pose proof (reviewWeight_at_most_1 now Date_parse h m
                  (Aggregates.recordOf e)
                  (countFp (fingerprintOf e) seen) Hp Hh Hm
                  (Hc e (or_introl eq_refl))) as H1.
    lra.
Qed.

(** No weight is negative as soon as the confidence floor is not; and
    when no time stamp lies in the future, the half-life is positive,
    the floor is at most 1 and no confidence is above 1, no weight is
    above 1, so that the effective total lies between 0 and the number
    of records.  A later duplicate weighs less than an earlier one: the
    dedupe factor is 1 for a first occurrence, lies in (0, 1] and
    decreases with the number of duplicates already met. *)
Theorem effective_total_bounds (now : R) (Date_parse : string -> option R)
        (h m nf : R) (pl : nat) (batch : list (option Aggregates.RawFeedback)) :
  pastStamps now Date_parse ->
  0 < h ->
  0 <= m <= 1 ->
  (forall e, List.In e batch ->
             Aggregates.c_raw (Aggregates.recordOf e) <= 1) ->
  (forall r k, 0 <= Aggregates.reviewWeight now Date_parse h m r k)
  /\ (forall r k, Aggregates.c_raw r <= 1 ->
                  Aggregates.reviewWeight now Date_parse h m r k <= 1)
  /\ Aggregates.dedupeFactor 0 = 1
  /\ (forall k k', (k < k')%nat ->
                   0 < Aggregates.dedupeFactor k'
                   /\ Aggregates.dedupeFactor k' < Aggregates.dedupeFactor k
                   /\ Aggregates.dedupeFactor k <= 1)
  /\ 0 <= Aggregates.totalEff
            (Aggregates.loop now Date_parse h m nf pl batch)
     <= INR (length batch).
Proof.
  intros Hp Hh Hm Hc. split; [|split; [|split; [|split]]].
  - intros r k. apply reviewWeight_nonneg, Hm.
  - intros r k Hr. apply reviewWeight_at_most_1; assumption.
  - apply dedupeFactor_0.
  - intros k k' Hlt. split; [apply dedupeFactor_range|].
    split; [apply dedupeFactor_decreasing, Hlt | apply dedupeFactor_range].
  - destruct (loop_sums now Date_parse h m nf pl batch) as (_ & _ & _ & ->).
    apply sumFrom_weights_bounds; assumption.
Qed.

(** ** The three contributions *)

(** Every rating that is a number lies between 1 and 5. *)
Definition ratingsInRange (batch : list (option Aggregates.RawFeedback))
  : Prop :=
  forall e x, List.In e batch ->
              Aggregates.rating (Aggregates.recordOf e) = Some x ->
              1 <= x <= 5.

Lemma s_rating_range r :
  (forall x, Aggregates.rating r = Some x -> 1 <= x <= 5) ->
  -1 <= Aggregates.s_rating r <= 1.
Proof.
  intros H. unfold Aggregates.s_rating, Aggregates.ratingOf.
  destruct (Aggregates.rating r) as [x|]; [specialize (H x eq_refl)|]; lra.
Qed.

Lemma polarity_parts (p : R) :
  -1 <= p <= 1 ->
  0 <= Rmax 0 p /\ 0 <= Rmax 0 (- p) /\ 0 <= 1 - Rabs p
  /\ Rmax 0 p + Rmax 0 (- p) + (1 - Rabs p) = 1.
Proof.
  intros Hp. unfold Rmax, Rabs.
  destruct (Rle_dec 0 p), (Rle_dec 0 (- p)), (Rcase_abs p); lra.
Qed.

Lemma polarity_exclusive (p : R) : Rmax 0 p = 0 \/ Rmax 0 (- p) = 0.
Proof.
  unfold Rmax. destruct (Rle_dec 0 p), (Rle_dec 0 (- p)); lra.
Qed.

Lemma contributions_range nf r w :
  0 <= nf <= 1 -> 0 <= w ->
  -1 <= Aggregates.s_rating r <= 1 ->
  0 <= Aggregates.posContrib r w
  /\ 0 <= Aggregates.negContrib r w
  /\ 0 <= Aggregates.neuContrib nf r w
  /\ Aggregates.posContrib r w + Aggregates.negContrib r w
     + Aggregates.neuContrib nf r w <= w.
Proof.
  intros Hnf Hw Hp.
  unfold Aggregates.posContrib, Aggregates.negContrib, Aggregates.neuContrib.
  destruct (polarity_parts _ Hp) as (Ha & Hb & Hc & Hsum).
  set (a := Rmax 0 (Aggregates.s_rating r)) in *.
  set (b := Rmax 0 (- Aggregates.s_rating r)) in *.
  set (c := 1 - Rabs (Aggregates.s_rating r)) in *.
  assert (Haw : 0 <= a * w) by (apply Rmult_le_pos; assumption).
  assert (Hbw : 0 <= b * w) by (apply Rmult_le_pos; assumption).
  assert (Hcw : 0 <= c * w) by (apply Rmult_le_pos; assumption).
  assert (Hcn : 0 <= c * w * nf) by (apply Rmult_le_pos; lra).
  assert (Hcn1 : c * w * nf <= c * w).
  { rewrite <- (Rmult_1_r (c * w)) at 2.
    apply Rmult_le_compat_l; lra. }
  assert (E : a * w + b * w + c * w = w).
  { replace (a * w + b * w + c * w) with ((a + b + c) * w) by ring.
    rewrite Hsum. ring. }
  repeat split; lra.
Qed.

Lemma sumFrom_contributions now Date_parse h m nf rest : forall seen,
  0 <= m -> 0 <= nf <= 1 -> ratingsInRange rest ->
  0 <= sumFrom now Date_parse h m Aggregates.posContrib seen rest
  /\ 0 <= sumFrom now Date_parse h m Aggregates.negContrib seen rest
  /\ 0 <= sumFrom now Date_parse h m (Aggregates.neuContrib nf) seen rest
  /\ sumFrom now Date_parse h m Aggregates.posContrib seen rest
     + sumFrom now Date_parse h m Aggregates.negContrib seen rest
     + sumFrom now Date_parse h m (Aggregates.neuContrib nf) seen rest
     <= sumFrom now Date_parse h m (fun _ w => w) seen rest.
Proof.
  induction rest as [|e rest IH]; intros seen Hm Hnf Hr.
  - cbn. lra.
  - cbn [sumFrom].
    assert (Hr' : ratingsInRange rest).
    { intros e' x He'. apply Hr. right. exact He'. }
    destruct (IH (seen ++ [e]) Hm Hnf Hr') as (I1 & I2 & I3 & I4).
    assert (Hw : 0 <= weightAt now Date_parse h m seen e).
    { unfold weightAt, Aggregates.reviewWeight.
      pose proof (Rmax_r (Aggregates.c_raw (Aggregates.recordOf e)) m).
      pose proof (dedupeFactor_range (countFp (fingerprintOf e) seen))
        as [Hd _].
      apply Rmult_le_pos; [|lra].
      apply Rmult_le_pos; [lra|]. left. apply exp_pos. }
    destruct (contributions_range nf (Aggregates.recordOf e)
                (weightAt now Date_parse h m seen e) Hnf Hw)
      as (C1 & C2 & C3 & C4).
    { apply s_rating_range. intros x Hx.
      apply (Hr e x (or_introl eq_refl) Hx). }
    repeat split; lra.
Qed.

(** A record never adds to the positive and to the negative contribution
    at once.  When the confidence floor is not negative, the neutral
    factor lies between 0 and 1 and the ratings lie between 1 and 5, the
    three contributions are not negative and together do not exceed the
    effective total, and the three percentages, before rounding, lie in
    [0, 1) and add up to less than 1. *)
Theorem sentiment_shares (now : R) (Date_parse : string -> option R)
        (h m nf : R) (pl : nat) (batch : list (option Aggregates.RawFeedback)) :
  0 <= m ->
  0 <= nf <= 1 ->
  ratingsInRange batch ->
  let acc := Aggregates.loop now Date_parse h m nf pl batch in
  let sum := Aggregates.rawPos acc + Aggregates.rawNeg acc
             + Aggregates.rawNeu acc + Aggregates.tiny in
  (forall r w, Aggregates.posContrib r w = 0 \/ Aggregates.negContrib r w = 0)
  /\ (0 <= Aggregates.rawPos acc /\ 0 <= Aggregates.rawNeg acc
      /\ 0 <= Aggregates.rawNeu acc)
  /\ Aggregates.rawPos acc + Aggregates.rawNeg acc + Aggregates.rawNeu acc
     <= Aggregates.totalEff acc
  /\ (0 <= Aggregates.rawPos acc / sum < 1
      /\ 0 <= Aggregates.rawNeg acc / sum < 1
      /\ 0 <= Aggregates.rawNeu acc / sum < 1)
  /\ Aggregates.rawPos acc / sum + Aggregates.rawNeg acc / sum
     + Aggregates.rawNeu acc / sum < 1.
Proof.
  intros Hm Hnf Hr acc sum.
  destruct (loop_sums now Date_parse h m nf pl batch) as (Ep & En & Eu & Et).
  fold acc in Ep, En, Eu, Et.
  destruct (sumFrom_contributions now Date_parse h m nf batch [] Hm Hnf Hr)
    as (Hp & Hn & Hu & Hle).
  rewrite <- Ep, <- En, <- Eu, <- Et in *.
  assert (Hsum : 0 < sum) by (unfold sum, Aggregates.tiny; lra).
  assert (Hinv : 0 < / sum) by (apply Rinv_0_lt_compat, Hsum).
  assert (Hq : forall x, 0 <= x -> x < sum -> 0 <= x / sum < 1).
  { intros x H0 H1. unfold Rdiv. split; [apply Rmult_le_pos; lra|].
    apply (Rmult_lt_reg_r sum); [exact Hsum|].
    rewrite Rmult_assoc, Rinv_l by lra. lra. }
  split; [|split; [|split; [|split]]].
  - intros r w. unfold Aggregates.posContrib, Aggregates.negContrib.
    destruct (polarity_exclusive (Aggregates.s_rating r)) as [-> | ->];
      [left | right]; ring.
  - repeat split; assumption.
  - exact Hle.
  - unfold sum in *. unfold Aggregates.tiny in *.
    repeat split; apply Hq; lra.
  - replace (Aggregates.rawPos acc / sum + Aggregates.rawNeg acc / sum
             + Aggregates.rawNeu acc / sum)
      with ((Aggregates.rawPos acc + Aggregates.rawNeg acc
             + Aggregates.rawNeu acc) / sum) by (unfold Rdiv; ring).
    apply Hq; unfold sum, Aggregates.tiny; lra.
Qed.

(** ** The empty batch *)

Lemma floor_half : Aggregates.floor (/ 2) = 0%Z.
Proof. apply floor_unique. lra. Qed.

Lemma toFixed_0 (d : nat) : Aggregates.toFixed d 0 = 0.
Proof.
  unfold Aggregates.toFixed.
  destruct (Rlt_dec 0 0) as [H|_]; [lra|].
  rewrite Rmult_0_l, Rplus_0_l, floor_half. unfold Rdiv. ring.
Qed.

(** On an empty collection the function returns zeros everywhere, no
    theme, no phrase, and raises the flag of insufficient data; the
    epsilon in the denominator keeps the percentages defined. *)
Theorem empty_batch (now : R) (Date_parse : string -> option R)
        (opts : Aggregates.Options) :
  Aggregates.computeAdjustedAggregates now Date_parse [] opts
  = {| Aggregates.res_sentiment :=
         {| Aggregates.positive := 0; Aggregates.negative := 0;
            Aggregates.neutral := 0; Aggregates.rawPositive := 0;
            Aggregates.rawNegative := 0; Aggregates.rawNeutral := 0;
            Aggregates.totalEffective := 0 |};
       Aggregates.res_themes :=
         {| Aggregates.positiveThemes := [];
            Aggregates.negativeThemes := [];
            Aggregates.themeStats := [] |};
       Aggregates.topPhrasesByTheme := [];
       Aggregates.insufficientData := true |}.
Proof.
  unfold Aggregates.computeAdjustedAggregates, Aggregates.loop.
  cbn [fold_left]. unfold Aggregates.finish.
  cbn [Aggregates.init Aggregates.rawPos Aggregates.rawNeg Aggregates.rawNeu
       Aggregates.totalEff Aggregates.themeMap].
  replace (0 / (0 + 0 + 0 + Aggregates.tiny)) with 0
    by (unfold Aggregates.tiny; lra).
  rewrite !toFixed_0.
  destruct (Rlt_dec 0 5) as [_|H]; [reflexivity | lra].
Qed.

(** ** The theme map *)

Definition zeroEntry : Aggregates.ThemeEntry :=
  {| Aggregates.weightedCount := 0; Aggregates.effCount := 0;
     Aggregates.negTexts := [] |}.

Lemma set_In {V} (o : JSObject.obj V) k v k' v' :
  List.In (k', v') (JSObject.set o k v) ->
  (k' = k /\ v' = v) \/ List.In (k', v') o.
Proof.
  induction o as [|[k0 v0] o IH]; cbn.
  - intros [H|[]]. left. split; congruence.
  - destruct (String.eqb k0 k).
    + intros [H|H]; [left; split; congruence | right; right; exact H].
    + intros [H|H]; [right; left; exact H|].
      destruct (IH H) as [H'|H']; [left; exact H' | right; right; exact H'].
Qed.

Lemma get_In {V} (o : JSObject.obj V) k v :
  JSObject.get o k = Some v -> List.In (k, v) o.
Proof.
  induction o as [|[k0 v0] o IH]; cbn; [discriminate|].
  destruct (String.eqb_spec k0 k) as [->|Hne].
  - intros H. left. congruence.
  - intros H. right. apply IH, H.
Qed.

(** The text [txt] comes from a record of [seen] whose rating is below
    2.8. *)
Definition lowRated (seen : list (option Aggregates.RawFeedback))
           (txt : string) : Prop :=
  exists e, List.In e seen
            /\ Aggregates.review_text (Aggregates.recordOf e) = Some txt
            /\ txt <> EmptyString
            /\ Aggregates.ratingOf (Aggregates.recordOf e) < 2.8.

(** What holds of every entry of the theme map once the records of
    [seen] are processed. *)
Definition entryOk (pl : nat) (seen : list (option Aggregates.RawFeedback))
           (e : Aggregates.ThemeEntry) : Prop :=
  Aggregates.effCount e = Aggregates.weightedCount e
  /\ (length (Aggregates.negTexts e) <= pl)%nat
  /\ forall txt, List.In txt (Aggregates.negTexts e) -> lowRated seen txt.

Definition entriesOk (pl : nat) (seen : list (option Aggregates.RawFeedback))
           (tm : JSObject.obj Aggregates.ThemeEntry) : Prop :=
  forall k e, List.In (k, e) tm -> entryOk pl seen e.

Lemma entryOk_mono pl seen elem e :
  entryOk pl seen e -> entryOk pl (seen ++ [elem]) e.
Proof.
  intros (H1 & H2 & H3). repeat split; [exact H1 | exact H2|].
  intros txt Ht. destruct (H3 txt Ht) as (x & Hx & Hr).
  exists x. split; [apply in_or_app; left; exact Hx | exact Hr].
Qed.

Lemma addTheme_ok pl seen elem w tm t :
  entriesOk pl (seen ++ [elem]) tm ->
  entriesOk pl (seen ++ [elem])
            (Aggregates.addTheme pl (Aggregates.recordOf elem) w tm t).
Proof.
  intros Htm k e Hin. unfold Aggregates.addTheme in Hin.
  destruct (JSObject.inherited (Aggregates.themeName t));
    [apply (Htm k e Hin)|].
  apply set_In in Hin as [[_ ->]|Hin]; [|apply (Htm k e Hin)].
  set (r := Aggregates.recordOf elem) in *.
  assert (H0 : entryOk pl (seen ++ [elem])
                 match JSObject.get tm (Aggregates.themeName t) with
                 | Some e0 => e0
                 | None => zeroEntry
                 end).
  { destruct (JSObject.get tm (Aggregates.themeName t)) as [e0|] eqn:E.
    - apply (Htm _ _ (get_In _ _ _ E)).
    - repeat split; cbn; [lia | intros txt []]. }
  fold zeroEntry.
  destruct H0 as (H1 & H2 & H3).
  set (e0 := match JSObject.get tm (Aggregates.themeName t) with
             | Some e0 => e0
             | None => zeroEntry
             end) in *.
  repeat split; cbn [Aggregates.effCount Aggregates.weightedCount
                     Aggregates.negTexts].
  - rewrite H1. reflexivity.
  - destruct (Rlt_dec (Aggregates.s_rating r) (-0.1)); [|exact H2].
    destruct (Aggregates.review_text r) as [txt|]; [|exact H2].
    destruct (negb (String.eqb txt EmptyString)); cbn [andb]; [|exact H2].
    destruct (Nat.ltb_spec (length (Aggregates.negTexts e0)) pl);
      [|exact H2].
    rewrite List.length_app. cbn. lia.
  - intros txt' Hin'.
    destruct (Rlt_dec (Aggregates.s_rating r) (-0.1)) as [Hlow|];
      [|apply H3, Hin'].
    destruct (Aggregates.review_text r) as [txt|] eqn:Etxt;
      [|apply H3, Hin'].
    destruct (String.eqb_spec txt EmptyString) as [|Hne]; cbn [negb andb] in Hin';
      [apply H3, Hin'|].
    destruct (length (Aggregates.negTexts e0) <? pl)%nat; [|apply H3, Hin'].
    apply in_app_or in Hin' as [Hin'|[<-|[]]]; [apply H3, Hin'|].
    exists elem. repeat split.
    + apply in_or_app. right. left. reflexivity.
    + exact Etxt.
    + exact Hne.
    + unfold Aggregates.s_rating in Hlow. fold r. lra.
Qed.

Lemma fold_addTheme_ok pl seen elem w ts : forall tm,
  entriesOk pl (seen ++ [elem]) tm ->
  entriesOk pl (seen ++ [elem])
            (fold_left (Aggregates.addTheme pl (Aggregates.recordOf elem) w)
                       ts tm).
Proof.
  induction ts as [|t ts IH]; intros tm H; [exact H|].
  cbn [fold_left]. apply IH, addTheme_ok, H.
Qed.

Lemma themesOf_length r : (1 <= length (Aggregates.themesOf r))%nat.
Proof.
  unfold Aggregates.themesOf.
  destruct (Aggregates.themes r) as [[|t ts]|]; cbn; lia.
Qed.

(** The part of the weight [w] of record [r] that reaches the theme
    map: its share [w / n] for every label whose name is not inherited. *)
Definition ownShare (r : Aggregates.RawFeedback) (w : R) : R :=
  INR (ownLabels (Aggregates.themesOf r))
  * (w / INR (length (Aggregates.themesOf r))).

(** No theme label of the batch has an inherited name. *)
Definition ownThemes (batch : list (option Aggregates.RawFeedback)) : Prop :=
  forall e t,
    List.In e batch ->
    List.In t (Aggregates.themesOf (Aggregates.recordOf e)) ->
    JSObject.inherited (Aggregates.themeName t) = false.

Lemma ownShare_all r w :
  (forall t, List.In t (Aggregates.themesOf r) ->
             JSObject.inherited (Aggregates.themeName t) = false) ->
  ownShare r w = w.
Proof.
  intros H. unfold ownShare.
  rewrite ownLabels_all by (apply List.Forall_forall; exact H).
  pose proof (themesOf_length r) as Hl.
  assert (Hn : INR (length (Aggregates.themesOf r)) <> 0).
  { apply not_0_INR. lia. }
  field. exact Hn.
Qed.

Section ThemeMapFacts.

Variable now : R.
Variable Date_parse : string -> option R.
Variables halfLifeDays minConfidence neutralFactor : R.
Variable phraseLimit : nat.

Local Abbreviation step' :=
  (Aggregates.step now Date_parse halfLifeDays minConfidence neutralFactor
                   phraseLimit).

Lemma step_entriesOk acc seen elem :
  entriesOk phraseLimit seen (Aggregates.themeMap acc) ->
  entriesOk phraseLimit (seen ++ [elem])
            (Aggregates.themeMap (step' acc elem)).
Proof.
  intros H. cbn [Aggregates.step Aggregates.themeMap].
  apply fold_addTheme_ok.
  intros k e Hin. apply entryOk_mono, (H k e Hin).
Qed.

Lemma step_inherited acc elem name :
  JSObject.inherited name = true ->
  JSObject.get (Aggregates.themeMap (step' acc elem)) name
  = JSObject.get (Aggregates.themeMap acc) name.
Proof.
  intros H. cbn [Aggregates.step Aggregates.themeMap].
  apply fold_addTheme_inherited, H.
Qed.

Lemma step_totalWeighted acc seen elem :
  counts (Aggregates.dedupeMap acc) seen ->
  totalWeighted (Aggregates.themeMap (step' acc elem))
  = totalWeighted (Aggregates.themeMap acc)
    + ownShare (Aggregates.recordOf elem)
               (weightAt now Date_parse halfLifeDays minConfidence seen elem).
Proof.
  intros Hc. cbn [Aggregates.step Aggregates.themeMap].
  rewrite fold_addTheme_total, (step_weight _ _ _ _ acc seen elem Hc).
  unfold ownShare, Rdiv. ring.
Qed.

Lemma fold_theme_invariants l : forall acc seen,
  entriesOk phraseLimit seen (Aggregates.themeMap acc) ->
  entriesOk phraseLimit (seen ++ l)
            (Aggregates.themeMap (fold_left step' l acc)).
Proof.
  induction l as [|e l IH]; intros acc seen H; cbn [fold_left].
  - rewrite app_nil_r. exact H.
  - pose proof (IH (step' acc e) (seen ++ [e]) (step_entriesOk acc seen e H))
      as I1.
    rewrite <- app_assoc in I1. exact I1.
Qed.

Lemma fold_inherited l name : forall acc,
  JSObject.inherited name = true ->
  JSObject.get (Aggregates.themeMap (fold_left step' l acc)) name
  = JSObject.get (Aggregates.themeMap acc) name.
Proof.
  induction l as [|e l IH]; intros acc H; cbn [fold_left]; [reflexivity|].
  rewrite IH by exact H. apply step_inherited, H.
Qed.

Lemma fold_totalWeighted l : forall acc seen,
  counts (Aggregates.dedupeMap acc) seen ->
  totalWeighted (Aggregates.themeMap (fold_left step' l acc))
  = totalWeighted (Aggregates.themeMap acc)
    + sumFrom now Date_parse halfLifeDays minConfidence ownShare seen l.
Proof.
  induction l as [|e l IH]; intros acc seen H; cbn [fold_left sumFrom].
  - lra.
  - rewrite (IH (step' acc e) (seen ++ [e])
                (counts_step _ _ _ _ _ _ acc seen e H)).
    rewrite (step_totalWeighted acc seen e H). lra.
Qed.

Lemma sumFrom_ext (f g : Aggregates.RawFeedback -> R -> R) l : forall seen,
  (forall e w, List.In e l ->
               f (Aggregates.recordOf e) w = g (Aggregates.recordOf e) w) ->
  sumFrom now Date_parse halfLifeDays minConfidence f seen l
  = sumFrom now Date_parse halfLifeDays minConfidence g seen l.
Proof.
  induction l as [|e l IH]; intros seen H; cbn [sumFrom]; [reflexivity|].
  rewrite (H e _ (or_introl eq_refl)), (IH (seen ++ [e])); [reflexivity|].
  intros e' w He'. apply H. right. exact He'.
Qed.

(** The loop with its throw returns what [loop] computes, unless an
    iteration throws. *)
Lemma loopFrom_fold l : forall acc,
  Aggregates.loopFrom now Date_parse halfLifeDays minConfidence neutralFactor
                      phraseLimit acc l
  = if existsb (fun e => existsb (Aggregates.throwsAt (Aggregates.recordOf e))
                                 (Aggregates.themesOf (Aggregates.recordOf e)))
               l
    then Aggregates.TypeError
    else Aggregates.Returns (fold_left step' l acc).
Proof.
  induction l as [|e l IH]; intros acc;
    cbn [Aggregates.loopFrom existsb fold_left]; [reflexivity|].
  rewrite stepOutcome_step.
  destruct (existsb (Aggregates.throwsAt (Aggregates.recordOf e)) _);
    cbn [orb]; [reflexivity | apply IH].
Qed.

End ThemeMapFacts.

Lemma loopFrom_returns now Date_parse h m nf pl batch acc :
  Aggregates.loopFrom now Date_parse h m nf pl Aggregates.init batch
  = Aggregates.Returns acc ->
  acc = Aggregates.loop now Date_parse h m nf pl batch.
Proof.
  rewrite loopFrom_fold. destruct (existsb _ batch); [discriminate|].
  intros H. injection H as <-. reflexivity.
Qed.

Lemma loopFrom_own now Date_parse h m nf pl batch :
  ownThemes batch ->
  Aggregates.loopFrom now Date_parse h m nf pl Aggregates.init batch
  = Aggregates.Returns (Aggregates.loop now Date_parse h m nf pl batch).
Proof.
  intros Hown. rewrite loopFrom_fold.
  assert (E : existsb
                (fun e => existsb
                            (Aggregates.throwsAt (Aggregates.recordOf e))
                            (Aggregates.themesOf (Aggregates.recordOf e)))
                batch = false).
  { apply Bool.not_true_iff_false. intros H.
    apply existsb_exists in H as (e & He & H).
    apply existsb_exists in H as (t & Ht & H).
    rewrite (throwsAt_own _ t (Hown e t He Ht)) in H. discriminate H. }
  rewrite E. reflexivity.
Qed.

(** Fractional attribution and the theme map, for a call that runs to
    its end.  The weighted counts of all the themes add up to the shares
    of the labels whose name is not inherited; when no label of the
    batch has an inherited name this is the effective total (a record
    without a usable theme list goes to the theme Other).  No theme with
    an inherited name has an entry, and in every entry the effective
    count equals the weighted count.  A batch of one record whose only
    label is [constructor] leaves the theme map empty, although the
    effective total is the weight of the record. *)
Theorem theme_counts_total (now : R) (Date_parse : string -> option R)
        (h m nf : R) (pl : nat) (batch : list (option Aggregates.RawFeedback))
        (acc : Aggregates.Acc) :
  Aggregates.loopFrom now Date_parse h m nf pl Aggregates.init batch
  = Aggregates.Returns acc ->
  totalWeighted (Aggregates.themeMap acc)
  = sumFrom now Date_parse h m
      (fun r w =>
         INR (length (List.filter
                        (fun t => negb (JSObject.inherited
                                          (Aggregates.themeName t)))
                        (Aggregates.themesOf r)))
         * (w / INR (length (Aggregates.themesOf r))))
      [] batch
  /\ ((forall e t,
          List.In e batch ->
          List.In t (Aggregates.themesOf (Aggregates.recordOf e)) ->
          JSObject.inherited (Aggregates.themeName t) = false) ->
      totalWeighted (Aggregates.themeMap acc) = Aggregates.totalEff acc)
  /\ (forall name e,
         JSObject.get (Aggregates.themeMap acc) name = Some e ->
         JSObject.inherited name = false
         /\ Aggregates.effCount e = Aggregates.weightedCount e)
  /\ (forall r,
         batch = [Some r] ->
         Aggregates.themes r = Some [Some "constructor"] ->
         Aggregates.themeMap acc = []
         /\ Aggregates.totalEff acc
            = Aggregates.reviewWeight now Date_parse h m r 0).
Proof.
  intros Hrun. apply loopFrom_returns in Hrun.
  pose proof (fold_theme_invariants now Date_parse h m nf pl batch
                Aggregates.init []) as Hok.
  pose proof (fold_totalWeighted now Date_parse h m nf pl batch
                Aggregates.init [] counts_init) as Htot.
  fold (Aggregates.loop now Date_parse h m nf pl batch) in Hok, Htot.
  rewrite <- Hrun in Hok, Htot.
  cbn [Aggregates.init Aggregates.themeMap totalWeighted fold_right] in Htot.
  assert (Htot' : totalWeighted (Aggregates.themeMap acc)
                  = sumFrom now Date_parse h m ownShare [] batch)
    by (rewrite Htot; lra).
  split; [exact Htot'|]. split; [|split].
  - intros Hown. rewrite Htot'.
    destruct (loop_sums now Date_parse h m nf pl batch) as (_ & _ & _ & Ht).
    rewrite <- Hrun in Ht. rewrite Ht.
    apply sumFrom_ext. intros e w He.
    apply ownShare_all. intros t Ht'. apply (Hown e t He Ht').
  - intros name e Hget. split.
    + destruct (JSObject.inherited name) eqn:Hin; [|reflexivity].
      rewrite Hrun in Hget. unfold Aggregates.loop in Hget.
      rewrite (fold_inherited now Date_parse h m nf pl batch name
                 Aggregates.init Hin) in Hget.
      discriminate Hget.
    + apply (Hok ltac:(intros k e' []) name e (get_In _ _ _ Hget)).
  - intros r -> Hr. rewrite Hrun. split.
    + unfold Aggregates.loop.
      cbn [fold_left Aggregates.step Aggregates.themeMap Aggregates.recordOf].
      unfold Aggregates.themesOf. rewrite Hr. cbn [fold_left].
      unfold Aggregates.addTheme.
      change (JSObject.inherited (Aggregates.themeName (Some "constructor")))
        with true.
      reflexivity.
    + unfold Aggregates.loop.
      cbn [fold_left Aggregates.step Aggregates.totalEff Aggregates.recordOf
           Aggregates.init Aggregates.dedupeMap].
      unfold Aggregates.prevCount. rewrite lookup_empty.
      cbn [default from_option]. lra.
Qed.

(** The call as a whole.  When no theme label of the batch has an
    inherited name the call returns the result of the loop.  When a
    record rated below 2.8 has a text and a label whose name is
    inherited, the call throws a TypeError and returns nothing. *)
Theorem outcome_of_call (now : R) (Date_parse : string -> option R)
        (batch : list (option Aggregates.RawFeedback))
        (opts : Aggregates.Options) :
  ((forall e t,
       List.In e batch ->
       List.In t (Aggregates.themesOf (Aggregates.recordOf e)) ->
       JSObject.inherited (Aggregates.themeName t) = false) ->
   Aggregates.outcome now Date_parse batch opts
   = Aggregates.Returns
       (Aggregates.computeAdjustedAggregates now Date_parse batch opts))
  /\ (forall e t txt,
         List.In e batch ->
         List.In t (Aggregates.themesOf (Aggregates.recordOf e)) ->
         JSObject.inherited (Aggregates.themeName t) = true ->
         Aggregates.ratingOf (Aggregates.recordOf e) < 2.8 ->
         Aggregates.review_text (Aggregates.recordOf e) = Some txt ->
         txt <> EmptyString ->
         Aggregates.outcome now Date_parse batch opts = Aggregates.TypeError).
Proof.
  unfold Aggregates.outcome, Aggregates.computeAdjustedAggregates.
  split.
  - intros Hown. rewrite (loopFrom_own _ _ _ _ _ _ batch Hown). reflexivity.
  - intros e t txt He Ht Hin Hlow Htxt Hne. rewrite loopFrom_fold.
    assert (E : existsb
                  (fun e => existsb
                              (Aggregates.throwsAt (Aggregates.recordOf e))
                              (Aggregates.themesOf (Aggregates.recordOf e)))
                  batch = true).
    { apply existsb_exists. exists e. split; [exact He|].
      apply existsb_exists. exists t. split; [exact Ht|].
      unfold Aggregates.throwsAt. rewrite Hin, Htxt.
      destruct (Rlt_dec (Aggregates.s_rating (Aggregates.recordOf e)) (-0.1))
        as [_|Hn].
      - apply String.eqb_neq in Hne. rewrite Hne. reflexivity.
      - exfalso. apply Hn. unfold Aggregates.s_rating. lra. }
    rewrite E. reflexivity.
Qed.

(** The texts kept for phrase mining are bounded and come from low
    ratings only: no theme keeps more than [phraseLimit] texts, and every
    text kept is the non-empty text of a record of the batch whose rating
    is below 2.8 (ratings 1 and 2, on whole stars). *)
Theorem negative_texts_bounded (now : R) (Date_parse : string -> option R)
        (h m nf : R) (pl : nat) (batch : list (option Aggregates.RawFeedback))
        (name : string) (e : Aggregates.ThemeEntry) :
  JSObject.get
    (Aggregates.themeMap (Aggregates.loop now Date_parse h m nf pl batch))
    name = Some e ->
  (length (Aggregates.negTexts e) <= pl)%nat
  /\ forall txt, List.In txt (Aggregates.negTexts e) -> lowRated batch txt.
Proof.
  intros Hget.
  pose proof (fold_theme_invariants now Date_parse h m nf pl batch
                Aggregates.init [] ltac:(intros k e' [])) as Hok.
  apply get_In in Hget. destruct (Hok name e Hget) as (_ & H2 & H3).
  split; assumption.
Qed.

(** ** Frequent phrases *)

(** The counts of a table of phrases, added up. *)
Definition gramTotal (gramCounts : list (string * nat)) : nat :=
  fold_right (fun e s => (snd e + s)%nat) 0%nat gramCounts.

Lemma bump_total gc g : gramTotal (Aggregates.bump gc g) = S (gramTotal gc).
Proof.
  unfold Aggregates.bump, gramTotal.
  induction gc as [|[k n] gc IH];
    cbn [JSObject.set JSObject.get fold_right snd]; [reflexivity|].
  destruct (String.eqb k g); cbn [fold_right snd default];
    [reflexivity|].
  rewrite IH. lia.
Qed.

Lemma countGrams_cons2 a b rest gc :
  Aggregates.countGrams (a :: b :: rest) gc
  = Aggregates.countGrams (b :: rest)
      match rest with
      | c :: _ =>
          Aggregates.bump (Aggregates.bump gc (a ++ " " ++ b))
                          (a ++ " " ++ b ++ " " ++ c)
      | [] => Aggregates.bump gc (a ++ " " ++ b)
      end.
Proof. reflexivity. Qed.

Lemma countGrams_total tokens : forall gc,
  gramTotal (Aggregates.countGrams tokens gc)
  = (gramTotal gc + (length tokens - 1) + (length tokens - 2))%nat.
Proof.
  induction tokens as [|a tokens IH]; intros gc;
    [cbn [Aggregates.countGrams length]; lia|].
  destruct tokens as [|b rest]; [cbn [Aggregates.countGrams length]; lia|].
  rewrite countGrams_cons2, IH.
  destruct rest as [|c rest'].
  - rewrite bump_total. cbn [length]. lia.
  - rewrite !bump_total. cbn [length]. lia.
Qed.

Lemma insertByCount_perm x l :
  Permutation (Aggregates.insertByCount x l) (x :: l).
Proof.
  induction l as [|y l IH]; cbn; [reflexivity|].
  destruct (_ <=? _)%nat; [reflexivity|].
  rewrite IH. apply perm_swap.
Qed.

Definition countNotBelow (x y : string * nat) : Prop := (snd y <= snd x)%nat.

Lemma insertByCount_sorted x l :
  StronglySorted countNotBelow l ->
  StronglySorted countNotBelow (Aggregates.insertByCount x l).
Proof.
  induction 1 as [|y l Hs IH Hall]; cbn.
  - repeat constructor.
  - destruct (Nat.leb_spec (snd y) (snd x)) as [Hle|Hlt].
    + constructor; [constructor; assumption|].
      constructor; [exact Hle|].
      rewrite List.Forall_forall in *. intros z Hz.
      unfold countNotBelow in *. specialize (Hall z Hz). lia.
    + constructor; [exact IH|].
      rewrite List.Forall_forall in *. intros z Hz.
      apply (Permutation_in _ (insertByCount_perm x l)) in Hz.
      destruct Hz as [<-|Hz]; [unfold countNotBelow; lia | apply Hall, Hz].
Qed.

Lemma sortByCount_sorted l :
  StronglySorted countNotBelow (fold_right Aggregates.insertByCount [] l).
Proof.
  induction l as [|x l IH]; cbn; [constructor|].
  apply insertByCount_sorted, IH.
Qed.

Lemma StronglySorted_firstn {A} (R : A -> A -> Prop) n : forall l,
  StronglySorted R l -> StronglySorted R (firstn n l).
Proof.
  induction n as [|n IH]; intros l H; [constructor|].
  destruct l as [|x l]; [constructor|].
  inversion H as [|y l' Hs Hall E]; subst. cbn [firstn].
  constructor; [apply IH, Hs|].
  rewrite List.Forall_forall in *. intros z Hz.
  apply Hall. rewrite <- (firstn_skipn n l). apply in_or_app. left. exact Hz.
Qed.

(** A text of [n] words (stop words set aside) gives [n - 1] two-word
    and [n - 2] three-word phrases, each occurrence counted once; a text
    of fewer than two words gives none.  Of the phrases of a theme at
    most four are reported, the most frequent first. *)
Theorem phrase_mining (pl : nat) (texts : list string) (tokens : list string) :
  gramTotal (Aggregates.countGrams tokens [])
  = ((length tokens - 1) + (length tokens - 2))%nat
  /\ ((length tokens < 2)%nat -> Aggregates.countGrams tokens [] = [])
  /\ (length (Aggregates.topPhrases pl texts) <= 4)%nat
  /\ StronglySorted
       (fun x y => (Aggregates.count y <= Aggregates.count x)%nat)
       (Aggregates.topPhrases pl texts).
Proof.
  repeat split.
  - rewrite countGrams_total. reflexivity.
  - destruct tokens as [|a [|b rest]]; cbn; intros H; try reflexivity. lia.
  - unfold Aggregates.topPhrases. rewrite List.length_map.
    apply firstn_le_length.
  - unfold Aggregates.topPhrases.
    set (gc := fold_left _ _ _).
    pose proof (StronglySorted_firstn countNotBelow 4 _
                  (sortByCount_sorted gc)) as Hs.
    induction Hs as [|x l Hs IH Hall]; cbn [List.map]; constructor.
    + exact IH.
    + rewrite List.Forall_forall in *. intros z Hz.
      apply in_map_iff in Hz as (y & <- & Hy). cbn. apply (Hall y Hy).
Qed.

Lemma phrase_mining_witness :
  Aggregates.countGrams ["broke"] [] = [].
Proof.
  apply (phrase_mining 200 [] ["broke"]). cbn. lia.
Defined.

(** ** Rounding to a number of decimals *)

Lemma floor_int_half (n : Z) : Aggregates.floor (IZR n + / 2) = n.
Proof. apply floor_unique. lra. Qed.

Lemma floor_monotone (x y : R) :
  x <= y -> (Aggregates.floor x <= Aggregates.floor y)%Z.
Proof.
  intros H. destruct (floor_bounds x) as [Hx _].
  destruct (floor_bounds y) as [_ Hy].
  assert (Hlt : IZR (Aggregates.floor x) < IZR (Aggregates.floor y + 1)).
  { rewrite plus_IZR. lra. }
  apply lt_IZR in Hlt. lia.
Qed.

Lemma floor_nonneg (x : R) : 0 <= x -> (0 <= Aggregates.floor x)%Z.
Proof.
  intros H. destruct (floor_bounds x) as [_ Hx].
  assert (Hlt : IZR (-1) < IZR (Aggregates.floor x)) by lra.
  apply lt_IZR in Hlt. lia.
Qed.

Lemma toFixed_grid_point (d : nat) (n : Z) :
  Aggregates.toFixed d (IZR n / 10 ^ d) = IZR n / 10 ^ d.
Proof.
  assert (Hp : 0 < 10 ^ d) by (apply pow_lt; lra).
  unfold Aggregates.toFixed.
  destruct (Rlt_dec (IZR n / 10 ^ d) 0) as [Hneg|Hpos].
  - replace (- (IZR n / 10 ^ d) * 10 ^ d + / 2) with (IZR (- n) + / 2)
      by (rewrite opp_IZR; field; lra).
    rewrite floor_int_half, opp_IZR. field. lra.
  - replace (IZR n / 10 ^ d * 10 ^ d + / 2) with (IZR n + / 2)
      by (field; lra).
    rewrite floor_int_half. reflexivity.
Qed.

Lemma toFixed_on_grid (d : nat) (x : R) :
  exists n : Z, Aggregates.toFixed d x = IZR n / 10 ^ d.
Proof.
  unfold Aggregates.toFixed. destruct (Rlt_dec x 0).
  - exists (- Aggregates.floor (- x * 10 ^ d + / 2))%Z.
    rewrite opp_IZR. unfold Rdiv. ring.
  - eexists. reflexivity.
Qed.

Lemma toFixed_monotone (d : nat) (x y : R) :
  x <= y -> Aggregates.toFixed d x <= Aggregates.toFixed d y.
Proof.
  intros Hxy.
  assert (Hp : 0 < 10 ^ d) by (apply pow_lt; lra).
  assert (Hi : 0 < / 10 ^ d) by (apply Rinv_0_lt_compat, Hp).
  assert (Hpos : forall z, 0 <= z ->
                           0 <= IZR (Aggregates.floor (z * 10 ^ d + / 2))).
  { intros z Hz. apply IZR_le, floor_nonneg.
    assert (0 <= z * 10 ^ d) by (apply Rmult_le_pos; lra). lra. }
  unfold Aggregates.toFixed.
  destruct (Rlt_dec x 0) as [Hx|Hx], (Rlt_dec y 0) as [Hy|Hy]; try lra.
  - assert (Hm : - y * 10 ^ d + / 2 <= - x * 10 ^ d + / 2).
    { apply Rplus_le_compat_r. apply Rmult_le_compat_r; lra. }
    apply floor_monotone, IZR_le in Hm.
    unfold Rdiv. apply Ropp_le_contravar.
    apply Rmult_le_compat_r; lra.
  - pose proof (Hpos (- x) ltac:(lra)) as Hx'.
    pose proof (Hpos y ltac:(lra)) as Hy'.
    assert (H1 : 0 <= IZR (Aggregates.floor (- x * 10 ^ d + / 2)) / 10 ^ d).
    { unfold Rdiv. apply Rmult_le_pos; lra. }
    assert (H2 : 0 <= IZR (Aggregates.floor (y * 10 ^ d + / 2)) / 10 ^ d).
    { unfold Rdiv. apply Rmult_le_pos; lra. }
    lra.
  - assert (Hm : x * 10 ^ d + / 2 <= y * 10 ^ d + / 2).
    { apply Rplus_le_compat_r. apply Rmult_le_compat_r; lra. }
    apply floor_monotone, IZR_le in Hm.
    unfold Rdiv. apply Rmult_le_compat_r; lra.
Qed.

(** A reported number is a whole multiple of the last decimal; rounding
    a number that is already rounded changes nothing; and rounding never
    reverses the order of two numbers. *)
Theorem toFixed_rounding (d : nat) (x y : R) :
  (exists n : Z, Aggregates.toFixed d x = IZR n / 10 ^ d)
  /\ Aggregates.toFixed d (Aggregates.toFixed d x) = Aggregates.toFixed d x
  /\ (x <= y -> Aggregates.toFixed d x <= Aggregates.toFixed d y).
Proof.
  split; [apply toFixed_on_grid|]. split; [|apply toFixed_monotone].
  destruct (toFixed_on_grid d x) as [n ->]. apply toFixed_grid_point.
Qed.

Lemma toFixed_rounding_witness :
  Aggregates.toFixed 4 (/ 3) <= Aggregates.toFixed 4 (/ 2).
Proof.
  apply (toFixed_rounding 4 (/ 3) (/ 2)). lra.
Defined.

(** ** The confidence of a theme *)

Lemma toFixed_1 (d : nat) : Aggregates.toFixed d 1 = 1.
Proof.
  assert (Hp : 0 < 10 ^ d) by (apply pow_lt; lra).
  assert (E : 10 ^ d = IZR (10 ^ Z.of_nat d)).
  { rewrite <- pow_IZR. reflexivity. }
  replace 1 with (IZR (10 ^ Z.of_nat d) / 10 ^ d) at 1 2
    by (rewrite <- E; field; lra).
  apply toFixed_grid_point.
Qed.

Lemma ln_16 : ln 16 = 4 * ln 2.
Proof.
  replace 16 with (2 ^ 4) by lra.
  rewrite ln_pow by lra. simpl INR. ring.
Qed.

Lemma ln_monotone (x y : R) : 0 < x -> x <= y -> ln x <= ln y.
Proof.
  intros Hx [H| ->]; [left; apply ln_increasing; assumption | lra].
Qed.

(** The confidence reported for a theme whose effective count is not
    negative lies between 0 and 1: it is 0 for a count of 0, grows with
    the count, and is 1 from a count of 15 on. *)
Theorem theme_confidence_range (data data' : Aggregates.ThemeEntry) :
  0 <= Aggregates.effCount data ->
  0 <= Aggregates.stat_confidence (Aggregates.statOf data) <= 1
  /\ (Aggregates.effCount data = 0 ->
      Aggregates.stat_confidence (Aggregates.statOf data) = 0)
  /\ (15 <= Aggregates.effCount data ->
      Aggregates.stat_confidence (Aggregates.statOf data) = 1)
  /\ (Aggregates.effCount data <= Aggregates.effCount data' ->
      Aggregates.stat_confidence (Aggregates.statOf data)
      <= Aggregates.stat_confidence (Aggregates.statOf data')).
Proof.
  intros H0. pose proof ln2_pos as Hl.
  cbn [Aggregates.statOf Aggregates.stat_confidence].
  unfold Aggregates.log2.
  assert (Hq : forall e, 0 <= e -> 0 <= ln (e + 1) / ln 2 / 4).
  { intros e He.
    assert (0 <= ln (e + 1)).
    { rewrite <- ln_1. apply ln_monotone; lra. }
    apply Rmult_le_pos; [apply Rmult_le_pos; [lra|]|lra].
    left. apply Rinv_0_lt_compat, Hl. }
  assert (Hmin : 0 <= Rmin 1 (ln (Aggregates.effCount data + 1) / ln 2 / 4)
                 <= 1).
  { split; [apply Rmin_glb; [lra | apply Hq, H0] | apply Rmin_l]. }
  split; [|split; [|split]].
  - split.
    + apply Rle_trans with (Aggregates.toFixed 3 0);
        [rewrite toFixed_0; lra | apply toFixed_monotone; lra].
    + apply Rle_trans with (Aggregates.toFixed 3 1);
        [apply toFixed_monotone; lra | rewrite toFixed_1; lra].
  - intros ->. rewrite Rplus_0_l, ln_1.
    replace (0 / ln 2 / 4) with 0 by (field; lra).
    rewrite Rmin_right by lra. apply toFixed_0.
  - intros H15.
    assert (H4 : 4 * ln 2 <= ln (Aggregates.effCount data + 1)).
    { rewrite <- ln_16. apply ln_monotone; lra. }
    assert (H1 : 1 <= ln (Aggregates.effCount data + 1) / ln 2 / 4).
    { apply Rle_trans with (4 * ln 2 / ln 2 / 4);
        [right; field; lra|].
      unfold Rdiv. apply Rmult_le_compat_r; [lra|].
      apply Rmult_le_compat_r; [|exact H4].
      left. apply Rinv_0_lt_compat, Hl. }
    rewrite Rmin_left by exact H1. apply toFixed_1.
  - intros Hle. apply toFixed_monotone.
    apply Rle_min_compat_l.
    unfold Rdiv. apply Rmult_le_compat_r; [lra|].
    apply Rmult_le_compat_r; [left; apply Rinv_0_lt_compat, Hl|].
    apply ln_monotone; lra.
Qed.

(** ** Instances of the further properties *)

Definition praisedButAngry : Feedback :=
  {| product_id := "R-100";
     rating := 5%Q;
     review_text := "terrible, it broke";
     sentiment := {| label := "Negative"; sentiment_confidence := 0.9%Q |};
     themes := ["Durability"] |}.

Lemma detectContradictions_fires_witness :
  List.In positiveRatingNegativeText
          (Insights.detectContradictions (Some [praisedButAngry])).
Proof.
  apply (proj1 (proj2 (proj2 (detectContradictions_fires [praisedButAngry])))).
  exists praisedButAngry. repeat split.
  - left. reflexivity.
  - discriminate.
Defined.

(** A record of the product whose id is [constructor], rated 1 and
    labelled Negative. *)
Definition ofConstructor : Feedback :=
  {| product_id := "constructor";
     rating := 1%Q;
     review_text := "fell apart";
     sentiment := {| label := "Negative"; sentiment_confidence := 0.9%Q |};
     themes := ["Durability"] |}.

Lemma analyzeByProduct_fires_witness :
  List.In (underperforming "R-100")
          (Insights.analyzeByProduct
             (Some [confidentDurability; rated 5; hesitantDurability]))
  /\ ~ List.In (underperforming "constructor")
               (Insights.analyzeByProduct
                  (Some [ofConstructor; ofConstructor])).
Proof.
  split.
  - apply (proj1 (analyzeByProduct_fires
                    [confidentDurability; rated 5; hesitantDurability]
                    "R-100")).
    repeat split; vm_compute; try reflexivity; lia.
  - intros H.
    apply (proj1 (analyzeByProduct_fires [ofConstructor; ofConstructor]
                    "constructor")) in H.
    destruct H as [H _]. vm_compute in H. discriminate H.
Defined.

Definition appearanceRecord (lab : string) : Feedback :=
  {| product_id := "P-400";
     rating := 2%Q;
     review_text := "the finish looks dull";
     sentiment := {| label := lab; sentiment_confidence := 0.8%Q |};
     themes := ["Appearance"] |}.

(** Three Appearance records, two of them Negative, among records of
    other themes that are not Negative. *)
Definition twoOfThreeAppearance : list Feedback :=
  [appearanceRecord "Negative"; themed "Durability" "Positive";
   appearanceRecord "Negative"; appearanceRecord "Positive";
   themed "Comfort" "Positive"; themed "Other" "Positive"].

(** Three Negative Appearance records, one of them of confidence 0.5. *)
Definition twoConfidentOfThree : list Feedback :=
  [appearanceRecord "Negative"; withConfidence 0.5 (appearanceRecord "Negative");
   appearanceRecord "Negative"; themed "Comfort" "Negative"].

Lemma appearance_rules_witness :
  emits "appearance" high
    (Insights.analyzeThemes (Some [("Appearance", 3%Q)])
                            (Some twoOfThreeAppearance)) = true
  /\ utilEmits "appearance" high
       (InsightUtils.rules sampleSentimentData [("Appearance", 3%Q)]
          twoConfidentOfThree) = true
  /\ utilEmits "appearance" high
       (InsightUtils.rules sampleSentimentData [("Appearance", 4%Q)]
          twoConfidentOfThree) <> true.
Proof.
  split; [|split].
  - apply (proj1 appearance_rules).
    split; vm_compute; [lia | reflexivity].
  - apply (proj2 appearance_rules).
    split; vm_compute; reflexivity.
  - intros H. apply (proj2 appearance_rules) in H.
    destruct H as [_ H]. vm_compute in H. discriminate H.
Defined.

Lemma utility_rules_summary_witness :
  utilEmits "negative" high
    (InsightUtils.rules sampleSentimentData [] [rated 2; rated 3]) = true.
Proof.
  apply (proj2 (proj2 (utility_rules_summary sampleSentimentData []
                         [rated 2; rated 3]))).
  right. split; [discriminate | vm_compute; reflexivity].
Defined.

Lemma sample_pastStamps : pastStamps sampleNow sampleParse.
Proof.
  intros iso t. unfold sampleParse, sampleNow.
  destruct (String.eqb iso "1970-01-31T00:00:00Z");
    [intros H; injection H as <-; lra|].
  destruct (String.eqb iso "1970-01-01T00:00:00Z");
    [intros H; injection H as <-; lra | discriminate].
Defined.

Lemma effective_total_bounds_witness :
  0 <= Aggregates.totalEff
         (Aggregates.loop sampleNow sampleParse 30 0 0.5 200%nat fiveFresh)
  <= INR (length fiveFresh).
Proof.
  apply (effective_total_bounds sampleNow sampleParse 30 0 0.5 200%nat
           fiveFresh).
  - exact sample_pastStamps.
  - lra.
  - lra.
  - intros e [<-|[<-|[<-|[<-|[<-|[]]]]]];
      change (1 <= 1); lra.
Defined.

Lemma sentiment_shares_witness :
  let acc := Aggregates.loop sampleNow sampleParse 30 0.2 0.5 200%nat
                             fiveFresh in
  Aggregates.rawPos acc + Aggregates.rawNeg acc + Aggregates.rawNeu acc
  <= Aggregates.totalEff acc.
Proof.
  apply (sentiment_shares sampleNow sampleParse 30 0.2 0.5 200%nat fiveFresh).
  - lra.
  - lra.
  - intros e x [<-|[<-|[<-|[<-|[<-|[]]]]]] H;
      injection H as <-; lra.
Defined.

(** Two low-rated Durability reviews, with room for one text only. *)
Definition twoBroken : list (option Aggregates.RawFeedback) :=
  [ Some (fresh (Some 1) "the clasp broke" [Some "Durability"]);
    Some (fresh (Some 2) "the chain snapped" [Some "Durability"]) ].

Lemma twoBroken_entry :
  exists e,
    JSObject.get
      (Aggregates.themeMap
         (Aggregates.loop sampleNow sampleParse 30 0.2 0.5 1%nat twoBroken))
      "Durability" = Some e.
Proof.
  unfold Aggregates.loop, twoBroken. cbn [fold_left].
  set (acc1 := Aggregates.step _ _ _ _ _ _ Aggregates.init _).
  cbn [Aggregates.step Aggregates.themeMap].
  change (Aggregates.themesOf
            (Aggregates.recordOf
               (Some (fresh (Some 2) "the chain snapped" [Some "Durability"]))))
    with [Some "Durability"].
  cbn [fold_left]. unfold Aggregates.addTheme.
  change (Aggregates.themeName (Some "Durability")) with "Durability".
  change (JSObject.inherited "Durability") with false. cbv iota.
  rewrite get_set_eq. eexists. reflexivity.
Qed.

Lemma negative_texts_bounded_witness :
  exists e,
    JSObject.get
      (Aggregates.themeMap
         (Aggregates.loop sampleNow sampleParse 30 0.2 0.5 1%nat twoBroken))
      "Durability" = Some e
    /\ (length (Aggregates.negTexts e) <= 1)%nat.
Proof.
  destruct twoBroken_entry as [e E]. exists e. split; [exact E|].
  apply (negative_texts_bounded sampleNow sampleParse 30 0.2 0.5 1%nat
           twoBroken "Durability" e E).
Defined.

Lemma byConstructor_loop :
  Aggregates.loopFrom sampleNow sampleParse 30 0.2 0.5 200%nat
    Aggregates.init [Some (byConstructor 5)]
  = Aggregates.Returns
      (Aggregates.loop sampleNow sampleParse 30 0.2 0.5 200%nat
                       [Some (byConstructor 5)]).
Proof.
  cbn [Aggregates.loopFrom]. rewrite byConstructor_runs. reflexivity.
Qed.

Lemma fiveFresh_ownThemes : ownThemes fiveFresh.
Proof.
  intros e t He Ht.
  repeat (destruct He as [<-|He]; [destruct Ht as [<-|[]]; reflexivity|]).
  destruct He.
Qed.

Lemma theme_counts_total_witness :
  (let acc := Aggregates.loop sampleNow sampleParse 30 0.2 0.5 200%nat
                              fiveFresh in
   totalWeighted (Aggregates.themeMap acc) = Aggregates.totalEff acc)
  /\ Aggregates.themeMap
       (Aggregates.loop sampleNow sampleParse 30 0.2 0.5 200%nat
                        [Some (byConstructor 5)]) = [].
Proof.
  split.
  - apply (proj1 (proj2 (theme_counts_total sampleNow sampleParse 30 0.2 0.5
                           200%nat fiveFresh _
                           (loopFrom_own sampleNow sampleParse 30 0.2 0.5
                              200%nat fiveFresh fiveFresh_ownThemes)))).
    exact fiveFresh_ownThemes.
  - apply (proj2 (proj2 (proj2 (theme_counts_total sampleNow sampleParse 30
                                  0.2 0.5 200%nat [Some (byConstructor 5)]
                                  _ byConstructor_loop)))
             (byConstructor 5) eq_refl eq_refl).
Defined.

Lemma outcome_of_call_witness :
  Aggregates.outcome sampleNow sampleParse fiveFresh defaults
  = Aggregates.Returns
      (Aggregates.computeAdjustedAggregates sampleNow sampleParse fiveFresh
                                            defaults)
  /\ Aggregates.outcome sampleNow sampleParse
       [Some (byConstructor 5); Some (byConstructor 1)] defaults
     = Aggregates.TypeError.
Proof.
  split.
  - apply (proj1 (outcome_of_call sampleNow sampleParse fiveFresh defaults)).
    exact fiveFresh_ownThemes.
  - apply (proj2 (outcome_of_call sampleNow sampleParse
                    [Some (byConstructor 5); Some (byConstructor 1)]
                    defaults)
             (Some (byConstructor 1)) (Some "constructor") "the clasp broke").
    + right. left. reflexivity.
    + left. reflexivity.
    + reflexivity.
    + unfold Aggregates.ratingOf, byConstructor, fresh.
      cbn [Aggregates.recordOf Aggregates.rating]. lra.
    + reflexivity.
    + discriminate.
Defined.

Lemma theme_confidence_range_witness :
  Aggregates.stat_confidence
    (Aggregates.statOf {| Aggregates.weightedCount := 15;
                          Aggregates.effCount := 15;
                          Aggregates.negTexts := [] |}) = 1.
Proof.
  apply (theme_confidence_range
           {| Aggregates.weightedCount := 15; Aggregates.effCount := 15;
              Aggregates.negTexts := [] |}
           {| Aggregates.weightedCount := 15; Aggregates.effCount := 15;
              Aggregates.negTexts := [] |});
    cbn [Aggregates.effCount]; lra.
Defined.

(* ================================================================== *)
(** * The summary line of the panel *)

Close Scope R_scope.

Module Summary.

(** The priority of an insight, as the string it is in the source. *)
Definition priorityName (p : Priority) : string :=
  match p with
  | critical => "critical"
  | high => "high"
  | medium => "medium"
  | low => "low"
  end.

(** [acc[curr.priority] = (acc[curr.priority] || 0) + 1] *)
Definition countPriority (acc : JSObject.obj nat) (curr : Insights.Insight)
  : JSObject.obj nat :=
  JSObject.set acc (priorityName (Insights.priority curr))
    (default 0 (JSObject.get acc (priorityName (Insights.priority curr))) + 1).

(** [insights.reduce(..., {})] *)
Definition counts (insights : list Insights.Insight) : JSObject.obj nat :=
  fold_left countPriority insights [].

(** [counts.p > 0]: a priority without entry reads as [undefined], and
    the comparison is false. *)
Definition badgeShown (cs : JSObject.obj nat) (p : Priority) : bool :=
  match JSObject.get cs (priorityName p) with
  | Some n => (0 <? n)%nat
  | None => false
  end.

End Summary.

Lemma priorityName_inj p q : Summary.priorityName p = Summary.priorityName q -> p = q.
Proof. destruct p, q; cbn; intros H; try reflexivity; discriminate H. Qed.

Lemma priority_counts_fold l : forall acc p,
  default 0 (JSObject.get (fold_left Summary.countPriority l acc) (Summary.priorityName p))
  = (default 0 (JSObject.get acc (Summary.priorityName p))
     + length (List.filter (hasPriority p) l))%nat.
Proof.
  induction l as [|x l IH]; intros acc p; cbn [fold_left List.filter length].
  - lia.
  - rewrite IH. unfold Summary.countPriority, hasPriority.
    destruct (Priority_eqb (Insights.priority x) p) eqn:E.
    + apply Priority_eqb_eq in E. subst p.
      rewrite get_set_eq. cbn [from_option length].
      change (@Datatypes.id nat) with (fun n : nat => n). cbv beta. lia.
    + rewrite get_set_ne; [lia|].
      intros H. apply priorityName_inj in H.
      apply Priority_eqb_eq in H. congruence.
Qed.

Lemma sortByPriority_filter l p :
  List.filter (hasPriority p) (Insights.sortByPriority l)
  = List.filter (hasPriority p) l.
Proof.
  unfold Insights.sortByPriority.
  induction l as [|x l IH]; cbn [fold_right]; [reflexivity|].
  rewrite insertByPriority_filter. cbn [List.filter]. rewrite IH.
  reflexivity.
Qed.

(** The summary line counts the insights by priority: the number kept
    for a priority is the number of insights of that priority, the four
    numbers add up to the length of the list, a badge is shown exactly
    for the priorities that occur, and sorting the list does not change
    the numbers. *)
Theorem counts_by_priority (l : list Insights.Insight) :
  (forall p, default 0 (JSObject.get (Summary.counts l) (Summary.priorityName p))
             = length (List.filter (hasPriority p) l))
  /\ (default 0 (JSObject.get (Summary.counts l) "critical")
      + default 0 (JSObject.get (Summary.counts l) "high")
      + default 0 (JSObject.get (Summary.counts l) "medium")
      + default 0 (JSObject.get (Summary.counts l) "low"))%nat = length l
  /\ (forall p, Summary.badgeShown (Summary.counts l) p = true
                <-> exists i, List.In i l /\ Insights.priority i = p)
  /\ (forall p, default 0 (JSObject.get (Summary.counts (Insights.sortByPriority l))
                                        (Summary.priorityName p))
                = default 0 (JSObject.get (Summary.counts l) (Summary.priorityName p))).
Proof.
  assert (Hc : forall l' p,
             default 0 (JSObject.get (Summary.counts l') (Summary.priorityName p))
             = length (List.filter (hasPriority p) l')).
  { intros l' p. unfold Summary.counts. rewrite priority_counts_fold. reflexivity. }
  split; [apply Hc|]. split; [|split].
  - change "critical" with (Summary.priorityName critical).
    change "high" with (Summary.priorityName high).
    change "medium" with (Summary.priorityName medium).
    change "low" with (Summary.priorityName low).
    rewrite !Hc. clear Hc. unfold hasPriority.
    induction l as [|x l IH]; [reflexivity|].
    cbn [List.filter]. destruct (Insights.priority x); cbn; lia.
  - intros p. specialize (Hc l p). unfold Summary.badgeShown.
    assert (Hex : (0 < length (List.filter (hasPriority p) l))%nat
                  <-> exists i, List.In i l /\ Insights.priority i = p).
    { split.
      - intros Hpos. destruct (List.filter (hasPriority p) l) as [|i r] eqn:E;
          [cbn in Hpos; lia|].
        assert (Hi : List.In i (List.filter (hasPriority p) l))
          by (rewrite E; left; reflexivity).
        apply filter_In in Hi as [Hi Hp]. exists i. split; [exact Hi|].
        apply Priority_eqb_eq, Hp.
      - intros (i & Hi & Hp).
        assert (Hin : List.In i (List.filter (hasPriority p) l)).
        { apply filter_In. split; [exact Hi|].
          apply Priority_eqb_eq, Hp. }
        destruct (List.filter (hasPriority p) l); [destruct Hin | cbn; lia]. }
    rewrite <- Hex, <- Hc.
    destruct (JSObject.get (Summary.counts l) (Summary.priorityName p))
      as [n|]; cbn [from_option].
    + change (Datatypes.id n) with n. apply Nat.ltb_lt.
    + split; [discriminate | lia].
  - intros p. rewrite !Hc.
    rewrite sortByPriority_filter. reflexivity.
Qed.

Lemma counts_by_priority_witness :
  Summary.badgeShown
    (Summary.counts [Insights.criticalRatingInsight;
                     Insights.durabilityInsight]) critical = true.
Proof.
  apply (proj1 (proj2 (proj2 (counts_by_priority
                                [Insights.criticalRatingInsight;
                                 Insights.durabilityInsight])))).
  exists Insights.criticalRatingInsight. split; [left|]; reflexivity.
Defined.
